(** * Medical appointment scheduler: gateway and workflow tools

    A shallow embedding of [src/utils.py], [src/tools/patient_tools.py] and
    [src/tools/appointment_tools.py].

    - JSON payloads and the dictionaries the tools build are Python values
      ([pyval]); JSON numbers are integers here, fractional numbers are not
      represented.  Strings are byte strings.
    - Python exceptions are values of [exn]; a computation returns [Ok v] or
      [Raise e].
    - The conversation context ([Ctx]) carries the mutable session object,
      the request headers, the state of the outside world and the log of the
      HTTP calls handed to the HTTP client.  Tool code is written in a state
      monad [M] in which a raised exception keeps the state reached so far,
      as in Python.
    - The HTTP client, the clock, the process environment and the order in
      which the event loop resumes waiting tasks are the fields of a [Host];
      every definition is parametric in it.  [time.time()] is a whole number
      of seconds.
    - The request headers of a context are the decoded pairs: a request
      with a header that is not UTF-8, on which line 18 of [utils.py]
      raises [UnicodeDecodeError], has no context here.
    - [get_context()] hands out the context; [logger] calls are left out,
      except where formatting their message can raise ([len] of a value
      without length, a local variable read before its assignment).
    - [asyncio.gather] runs its coroutines as tasks of the event loop: each
      runs until it waits for an HTTP reply, the requests of all tasks go
      out before the first reply is handled, and the host decides which
      waiting task is resumed next. *)

From Stdlib Require Import ZArith List String Ascii Bool Lia DecimalString.
Import ListNotations.
Open Scope string_scope.
Open Scope Z_scope.
Set Warnings "-register-all".

(** ** Python values *)

Inductive pyval : Type :=
| VNone
| VBool (b : bool)
| VInt (n : Z)
| VStr (s : string)
| VList (l : list pyval)
| VDict (d : list (string * pyval)).

(** An HTTP response as the client library presents it: [resp_json] is
    what [response.json()] returns, [None] when that call raises. *)
Record Response : Type := mkResponse {
  status_code : Z;
  resp_headers : list (string * string);
  resp_text : string;
  resp_json : option pyval
}.

Inductive exn_kind : Type :=
| AttributeError | TypeError | KeyError | IndexError | ValueError
| UnboundLocalError | JSONDecodeError | TransportError | HTTPStatusError
| OverflowError | RuntimeError.

(** An exception: its class, [str(e)] and, for [httpx.HTTPStatusError],
    the response it carries. *)
Record exn : Type := Exn {
  exn_kind_of : exn_kind;
  exn_msg : string;
  exn_response : option Response
}.

Definition mkExn (k : exn_kind) (m : string) : exn := Exn k m None.

Inductive res (A : Type) : Type :=
| Ok (a : A)
| Raise (e : exn).
Arguments Ok {A} a.
Arguments Raise {A} e.

Definition res_bind {A B} (r : res A) (k : A -> res B) : res B :=
  match r with
  | Ok a => k a
  | Raise e => Raise e
  end.

Definition type_name (v : pyval) : string :=
  match v with
  | VNone => "NoneType"
  | VBool _ => "bool"
  | VInt _ => "int"
  | VStr _ => "str"
  | VList _ => "list"
  | VDict _ => "dict"
  end.

(** [bool(v)], the test of [if v] and [not v]. *)
Definition truthy (v : pyval) : bool :=
  match v with
  | VNone => false
  | VBool b => b
  | VInt n => negb (n =? 0)
  | VStr s => negb (String.eqb s "")
  | VList l => match l with [] => false | _ => true end
  | VDict d => match d with [] => false | _ => true end
  end.

(** [a or b] *)
Definition py_or (a b : pyval) : pyval := if truthy a then a else b.

(** Lookup in a [dict] with string keys: the first binding of the key. *)
Fixpoint dict_lookup (k : string) (d : list (string * pyval)) : option pyval :=
  match d with
  | [] => None
  | (k', v) :: r => if String.eqb k k' then Some v else dict_lookup k r
  end.

Definition no_attribute (v : pyval) (a : string) : exn :=
  mkExn AttributeError ("'" ++ type_name v ++ "' object has no attribute '" ++ a ++ "'").

(** [v.get(k, dflt)]: only a [dict] has a [get] method. *)
Definition py_get (v : pyval) (k : string) (dflt : pyval) : res pyval :=
  match v with
  | VDict d => Ok (match dict_lookup k d with Some x => x | None => dflt end)
  | _ => Raise (no_attribute v "get")
  end.

(** [isinstance(v, dict)] *)
Definition is_dict (v : pyval) : bool := match v with VDict _ => true | _ => false end.

(** [k in v] for a [dict] [v] *)
Definition dict_mem (k : string) (d : list (string * pyval)) : bool :=
  match dict_lookup k d with Some _ => true | None => false end.

(** The numeric reading of [int] and [bool] ([True == 1]). *)
Definition as_number (v : pyval) : option Z :=
  match v with
  | VBool b => Some (if b then 1 else 0)
  | VInt n => Some n
  | _ => None
  end.

(** [a == b] on JSON values; it never raises. *)
Fixpoint py_eq (a b : pyval) {struct a} : bool :=
  match a with
  | VNone => match b with VNone => true | _ => false end
  | VBool x =>
      match as_number b with Some n => (if x then 1 else 0) =? n | None => false end
  | VInt x =>
      match as_number b with Some n => x =? n | None => false end
  | VStr s => match b with VStr t => String.eqb s t | _ => false end
  | VList l =>
      match b with
      | VList m =>
          (fix go (l m : list pyval) {struct l} : bool :=
             match l, m with
             | [], [] => true
             | x :: l', y :: m' => py_eq x y && go l' m'
             | _, _ => false
             end) l m
      | _ => false
      end
  | VDict d =>
      match b with
      | VDict e =>
          (Nat.eqb (List.length d) (List.length e)) &&
          (fix go (d : list (string * pyval)) {struct d} : bool :=
             match d with
             | [] => true
             | (k, x) :: d' =>
                 match dict_lookup k e with
                 | Some y => py_eq x y && go d'
                 | None => false
                 end
             end) d
      | _ => false
      end
  end.

Definition not_supported (op : string) (a b : pyval) : exn :=
  mkExn TypeError ("'" ++ op ++ "' not supported between instances of '"
                   ++ type_name a ++ "' and '" ++ type_name b ++ "'").

(** [a > b].  Numbers compare by value, strings and lists lexicographically;
    every other pair of types raises [TypeError]. *)
Fixpoint py_gt (a b : pyval) {struct a} : res bool :=
  match a with
  | VBool _ | VInt _ =>
      match as_number a, as_number b with
      | Some x, Some y => Ok (y <? x)
      | _, _ => Raise (not_supported ">" a b)
      end
  | VStr s =>
      match b with
      | VStr t => Ok (String.ltb t s)
      | _ => Raise (not_supported ">" a b)
      end
  | VList l =>
      match b with
      | VList m =>
          (fix go (l m : list pyval) {struct l} : res bool :=
             match l, m with
             | [], _ => Ok false
             | _ :: _, [] => Ok true
             | x :: l', y :: m' => if py_eq x y then go l' m' else py_gt x y
             end) l m
      | _ => Raise (not_supported ">" a b)
      end
  | VNone | VDict _ => Raise (not_supported ">" a b)
  end.

(** [len(v)] *)
Definition py_len (v : pyval) : res Z :=
  match v with
  | VStr s => Ok (Z.of_nat (String.length s))
  | VList l => Ok (Z.of_nat (List.length l))
  | VDict d => Ok (Z.of_nat (List.length d))
  | _ => Raise (mkExn TypeError ("object of type '" ++ type_name v ++ "' has no len()"))
  end.

(** [v[0]] *)
Definition py_item0 (v : pyval) : res pyval :=
  match v with
  | VList (x :: _) => Ok x
  | VList [] => Raise (mkExn IndexError "list index out of range")
  | VStr (String c _) => Ok (VStr (String c EmptyString))
  | VStr EmptyString => Raise (mkExn IndexError "string index out of range")
  | VDict _ => Raise (mkExn KeyError "0")
  | _ => Raise (mkExn TypeError ("'" ++ type_name v ++ "' object is not subscriptable"))
  end.

(** What [for x in v] iterates over: the items of a list, the characters of
    a string, the keys of a dict. *)
Fixpoint chars (s : string) : list pyval :=
  match s with
  | EmptyString => []
  | String c r => VStr (String c EmptyString) :: chars r
  end.

Definition py_iter (v : pyval) : res (list pyval) :=
  match v with
  | VList l => Ok l
  | VStr s => Ok (chars s)
  | VDict d => Ok (map (fun kv => VStr (fst kv)) d)
  | _ => Raise (mkExn TypeError ("'" ++ type_name v ++ "' object is not iterable"))
  end.

(** ** Strings *)

Definition string_of_Z (n : Z) : string := NilZero.string_of_int (Z.to_int n).

Definition lower_ascii (c : ascii) : ascii :=
  let n := nat_of_ascii c in
  if (Nat.leb 65 n && Nat.leb n 90)%bool then ascii_of_nat (n + 32) else c.

(** [s.lower()] *)
Fixpoint lower (s : string) : string :=
  match s with
  | EmptyString => EmptyString
  | String c r => String (lower_ascii c) (lower r)
  end.

(** [needle in hay] *)
Fixpoint contains (needle hay : string) : bool :=
  if String.prefix needle hay then true
  else match hay with
       | EmptyString => false
       | String _ r => contains needle r
       end.

(** [s.split(c)] for a one-character separator: never empty. *)
Fixpoint split_on (c : ascii) (s : string) : list string :=
  match s with
  | EmptyString => [EmptyString]
  | String a r =>
      if Ascii.eqb a c then EmptyString :: split_on c r
      else match split_on c r with
           | h :: t => String a h :: t
           | [] => [String a EmptyString]
           end
  end.

Fixpoint str_take (n : nat) (s : string) : string :=
  match n, s with
  | S n', String c r => String c (str_take n' r)
  | _, _ => EmptyString
  end.

Fixpoint str_drop (n : nat) (s : string) : string :=
  match n, s with
  | S n', String _ r => str_drop n' r
  | _, _ => s
  end.

Fixpoint join (sep : string) (l : list string) : string :=
  match l with
  | [] => ""
  | [x] => x
  | x :: r => x ++ sep ++ join sep r
  end.

(** [repr(v)]; the quoting of a string is written without escapes. *)
Fixpoint py_repr (v : pyval) : string :=
  match v with
  | VNone => "None"
  | VBool b => if b then "True" else "False"
  | VInt n => string_of_Z n
  | VStr s => "'" ++ s ++ "'"
  | VList l => "[" ++ join ", " (map py_repr l) ++ "]"
  | VDict d =>
      "{" ++ join ", "
               ((fix go (d : list (string * pyval)) : list string :=
                   match d with
                   | [] => []
                   | (k, x) :: d' => ("'" ++ k ++ "': " ++ py_repr x) :: go d'
                   end) d)
          ++ "}"
  end.

(** [str(v)], the text an f-string inserts. *)
Definition py_str (v : pyval) : string :=
  match v with
  | VStr s => s
  | _ => py_repr v
  end.

(** [v.split(sep)[0]]: only a string has [split]. *)
Definition py_split_first (v : pyval) (sep : ascii) : res pyval :=
  match v with
  | VStr s => Ok (VStr (hd EmptyString (split_on sep s)))
  | _ => Raise (no_attribute v "split")
  end.

(** [v.split(sep)[-1]] *)
Definition py_split_last (v : pyval) (sep : ascii) : res pyval :=
  match v with
  | VStr s => Ok (VStr (last (split_on sep s) EmptyString))
  | _ => Raise (no_attribute v "split")
  end.

(** The exception of a slice on a value that has none (for a dict, the
    [TypeError] of Python up to 3.11). *)
Definition not_subscriptable (v : pyval) : exn :=
  match v with
  | VDict _ => mkExn TypeError "unhashable type: 'slice'"
  | _ => mkExn TypeError ("'" ++ type_name v ++ "' object is not subscriptable")
  end.

(** [v[:n]] and [v[n:]] *)
Definition py_slice_to (v : pyval) (n : nat) : res pyval :=
  match v with
  | VStr s => Ok (VStr (str_take n s))
  | VList l => Ok (VList (firstn n l))
  | _ => Raise (not_subscriptable v)
  end.

Definition py_slice_from (v : pyval) (n : nat) : res pyval :=
  match v with
  | VStr s => Ok (VStr (str_drop n s))
  | VList l => Ok (VList (skipn n l))
  | _ => Raise (not_subscriptable v)
  end.

(** ** Dictionaries keyed by arbitrary values

    [appt_id_to_category_map] is keyed by whatever [appointmentId] holds.
    Lists and dicts are unhashable; the other values are keys, compared
    with [==]. *)

Definition hashable (v : pyval) : bool :=
  match v with
  | VList _ | VDict _ => false
  | _ => true
  end.

Definition unhashable (v : pyval) : exn :=
  mkExn TypeError ("unhashable type: '" ++ type_name v ++ "'").

Definition pymap : Type := list (pyval * pyval).

Fixpoint pymap_find (k : pyval) (m : pymap) : option pyval :=
  match m with
  | [] => None
  | (k', v) :: r => if py_eq k' k then Some v else pymap_find k r
  end.

Fixpoint pymap_put (k v : pyval) (m : pymap) : pymap :=
  match m with
  | [] => [(k, v)]
  | (k', v') :: r => if py_eq k' k then (k', v) :: r else (k', v') :: pymap_put k v r
  end.

(** [m[k] = v] *)
Definition pymap_set (k v : pyval) (m : pymap) : res pymap :=
  if hashable k then Ok (pymap_put k v m) else Raise (unhashable k).

(** [m.get(k)] *)
Definition pymap_get (m : pymap) (k : pyval) : res pyval :=
  if hashable k
  then Ok (match pymap_find k m with Some v => v | None => VNone end)
  else Raise (unhashable k).

(** ** The HTTP client, the clock and the environment *)

Record HttpRequest : Type := mkRequest {
  rq_method : string;
  rq_url : pyval;
  rq_headers : list (string * string);
  rq_params : pyval;
  rq_json : pyval;
  rq_data : pyval;
  rq_timeout : option Z
}.

(** What a call of the HTTP client does: it raises (connection failure,
    timeout, invalid URL), or it hands back a response. *)
Inductive HttpOutcome : Type :=
| Failed (msg : string)
| Replied (r : Response).

(** [next_reply w n] tells, when [n] tasks wait for a reply, which of them
    (counted among the waiting ones, modulo [n]) is resumed next, and the
    state of the world at that moment. *)
Record Host : Type := mkHost {
  World : Type;
  http_send : World -> HttpRequest -> HttpOutcome * World;
  clock : World -> Z;
  getenv : string -> option string;
  next_reply : World -> nat -> nat * World
}.

(** [ctx.session]: each attribute is absent ([None]) or set. *)
Record Session : Type := mkSession {
  access_token : option pyval;
  token_expiration : option Z;
  x_ng_sessionid : option string
}.

Definition getattr {A} (a : option A) (dflt : A) : A :=
  match a with Some x => x | None => dflt end.

Definition set_access_token (v : pyval) (s : Session) : Session :=
  mkSession (Some v) (token_expiration s) (x_ng_sessionid s).
Definition set_token_expiration (t : Z) (s : Session) : Session :=
  mkSession (access_token s) (Some t) (x_ng_sessionid s).
Definition set_x_ng_sessionid (i : string) (s : Session) : Session :=
  mkSession (access_token s) (token_expiration s) (Some i).
Definition del_x_ng_sessionid (s : Session) : Session :=
  mkSession (access_token s) (token_expiration s) None.

(** Header names compare without case; several values of one name are
    joined with a comma. *)
Definition header_values (name : string) (hs : list (string * string)) : list string :=
  map snd (filter (fun kv => String.eqb (lower (fst kv)) (lower name)) hs).

Definition header_get (name : string) (hs : list (string * string)) : option string :=
  match header_values name hs with
  | [] => None
  | vs => Some (join ", " vs)
  end.

Fixpoint header_names (seen : list string) (hs : list (string * string)) : list string :=
  match hs with
  | [] => []
  | (k, _) :: r =>
      let k' := lower k in
      if existsb (String.eqb k') seen then header_names seen r
      else k' :: header_names (k' :: seen) r
  end.

(** [dict(response.headers)]: the client library hands out each name once,
    in lower case. *)
Definition headers_dict (hs : list (string * string)) : list (string * pyval) :=
  map (fun k => (k, VStr (getattr (header_get k hs) ""))) (header_names [] hs).

Definition opt_str (o : option string) : pyval :=
  match o with Some s => VStr s | None => VNone end.

Definition envelope_failure (msg : string) : pyval :=
  VDict [("success", VBool false); ("message", VStr msg)].

Definition is_success (status : Z) : bool := (200 <=? status) && (status <=? 299).

Section Scheduler.

Variable H : Host.

Record Ctx : Type := mkCtx {
  session : Session;
  scope_headers : list (string * string);
  world : World H;
  wire : list HttpRequest
}.

(** ** The monad of tool code *)

Definition M (A : Type) : Type := Ctx -> res A * Ctx.

Definition ret {A} (a : A) : M A := fun c => (Ok a, c).

Definition bind {A B} (m : M A) (k : A -> M B) : M B :=
  fun c => match m c with
           | (Ok a, c') => k a c'
           | (Raise e, c') => (Raise e, c')
           end.

Definition raise {A} (e : exn) : M A := fun c => (Raise e, c).

Definition lift {A} (r : res A) : M A := fun c => (r, c).

(** [try: body  except <classes>: handler]: [handler e] is [None] when no
    clause matches [e], which then propagates.  An exception raised by the
    handler itself propagates too. *)
Definition try_except {A} (body : M A) (handler : exn -> option (M A)) : M A :=
  fun c => match body c with
           | (Ok a, c') => (Ok a, c')
           | (Raise e, c') =>
               match handler e with
               | Some h => h c'
               | None => (Raise e, c')
               end
           end.

Notation "x <- m ;; k" := (bind m (fun x => k))
  (at level 61, m at next level, right associativity).
Notation "m ;;; k" := (bind m (fun _ => k))
  (at level 61, right associativity).

Definition read_session : M Session := fun c => (Ok (session c), c).

Definition update_session (f : Session -> Session) : M unit :=
  fun c => (Ok tt, mkCtx (f (session c)) (scope_headers c) (world c) (wire c)).

(** [time.time()] *)
Definition time_time : M Z := fun c => (Ok (clock H (world c)), c).

(** One call of the HTTP client: the request is logged, the world answers. *)
Definition client_send (rq : HttpRequest) : M Response :=
  fun c =>
    let (o, w) := http_send H (world c) rq in
    let c' := mkCtx (session c) (scope_headers c) w (wire c ++ [rq]) in
    match o with
    | Failed msg => (Raise (mkExn TransportError msg), c')
    | Replied r => (Ok r, c')
    end.

(** [response.raise_for_status()] *)
Definition raise_for_status (r : Response) : M unit :=
  if is_success (status_code r) then ret tt
  else raise (Exn HTTPStatusError ("HTTP status " ++ string_of_Z (status_code r)) (Some r)).

(** [response.json()] *)
Definition response_json (r : Response) : M pyval :=
  match resp_json r with
  | Some v => ret v
  | None => raise (mkExn JSONDecodeError "Expecting value")
  end.

(** ** utils.py *)

(** The request headers as a dict: a later duplicate replaces an earlier
    one. *)
Definition scope_header (name : string) (hs : list (string * string)) : pyval :=
  match filter (fun kv => String.eqb (fst kv) name) hs with
  | [] => VNone
  | l => VStr (snd (last l ("", "")))
  end.

(** The [creds] dict built from the request headers, with the process
    environment as fallback. *)
Definition credentials (headers : list (string * string)) : list (string * pyval) :=
  let pick (h e : string) := py_or (scope_header h headers) (opt_str (getenv H e)) in
  [ ("BASE_URL", pick "x-nextgen-base-url" "NEXTGEN_BASE_URL");
    ("AUTH_URL", pick "x-nextgen-auth-url" "NEXTGEN_AUTH_URL");
    ("CLIENT_ID", pick "x-nextgen-client-id" "NEXTGEN_CLIENT_ID");
    ("CLIENT_SECRET", pick "x-nextgen-client-secret" "NEXTGEN_CLIENT_SECRET");
    ("SITE_ID", pick "x-nextgen-site-id" "NEXTGEN_SITE_ID");
    ("ENTERPRISE_ID", pick "x-nextgen-enterprise-id" "NEXTGEN_ENTERPRISE_ID");
    ("PRACTICE_ID", pick "x-nextgen-practice-id" "NEXTGEN_PRACTICE_ID");
    ("LOCATION_ID", pick "x-nextgen-location-id" "NEXTGEN_DEFAULT_LOCATION_ID") ].

Definition get_api_credentials : M (list (string * pyval)) :=
  fun c => (Ok (credentials (scope_headers c)), c).

(** [creds.get(k)] *)
Definition cred (creds : list (string * pyval)) (k : string) : pyval :=
  getattr (dict_lookup k creds) VNone.

(** The double nearest to the integer [x], ties to the even mantissa: what
    [float(x)] is, and what a sum of two integral doubles is rounded to. *)
Definition to_double (x : Z) : Z :=
  let a := Z.abs x in
  if a <? 2 ^ 53 then x
  else
    let e := Z.log2 a - 52 in
    let q := a / 2 ^ e in
    let r := a mod 2 ^ e in
    let half := 2 ^ (e - 1) in
    let q' := if (half <? r) || ((r =? half) && Z.odd q) then q + 1 else q in
    Z.sgn x * (q' * 2 ^ e).

(** From this magnitude on an [int] has no double: converting it raises
    [OverflowError]. *)
Definition float_limit : Z := 2 ^ 1024 - 2 ^ 970.

(** [time.time() + expires_in]: a float plus an [int] or [bool].  The
    integer is converted to a double first, the sum is rounded to a double;
    the clock reads whole seconds.  (A sum beyond the largest double is
    [inf] in Python; here it stays the number it rounds to.) *)
Definition add_seconds (t : Z) (v : pyval) : res Z :=
  match as_number v with
  | Some n =>
      if float_limit <=? Z.abs n
      then Raise (mkExn OverflowError "int too large to convert to float")
      else Ok (to_double (t + to_double n))
  | None => Raise (mkExn TypeError ("unsupported operand type(s) for +: 'float' and '"
                                    ++ type_name v ++ "'"))
  end.

Definition token_request (creds : list (string * pyval)) : HttpRequest :=
  mkRequest "POST" (cred creds "AUTH_URL")
    [("Content-Type", "application/x-www-form-urlencoded")]
    VNone VNone
    (VDict [ ("grant_type", VStr "client_credentials");
             ("client_id", cred creds "CLIENT_ID");
             ("client_secret", cred creds "CLIENT_SECRET");
             ("site_id", cred creds "SITE_ID") ])
    None.

Definition get_access_token (creds : list (string * pyval)) : M pyval :=
  s <- read_session ;;
  let token := getattr (access_token s) VNone in
  let token_expiration := getattr (token_expiration s) 0 in
  now <- time_time ;;
  if truthy token && (now <? token_expiration - 60) then ret token
  else
    try_except
      (response <- client_send (token_request creds) ;;
       raise_for_status response ;;;
       token_data <- response_json response ;;
       access_token <- lift (py_get token_data "access_token" VNone) ;;
       expires_in <- lift (py_get token_data "expires_in" (VInt 3600)) ;;
       update_session (set_access_token access_token) ;;;
       now' <- time_time ;;
       expiry <- lift (add_seconds now' expires_in) ;;
       update_session (set_token_expiration expiry) ;;;
       ret access_token)
      (fun _ => Some (ret VNone)).

Definition login_defaults_request (creds : list (string * pyval)) (access_token : pyval)
  : HttpRequest :=
  mkRequest "PUT" (VStr (py_str (cred creds "BASE_URL") ++ "/users/me/login-defaults"))
    [("Authorization", "Bearer " ++ py_str access_token);
     ("Content-Type", "application/json")]
    VNone
    (VDict [ ("enterpriseId", cred creds "ENTERPRISE_ID");
             ("practiceId", cred creds "PRACTICE_ID") ])
    VNone
    None.

Definition get_session_id (creds : list (string * pyval)) : M pyval :=
  s <- read_session ;;
  let session_id := opt_str (x_ng_sessionid s) in
  if truthy session_id then ret session_id
  else
    access_token <- get_access_token creds ;;
    if negb (truthy access_token) then ret VNone
    else
      try_except
        (response <- client_send (login_defaults_request creds access_token) ;;
         raise_for_status response ;;;
         let new_session_id := opt_str (header_get "x-ng-sessionid" (resp_headers response)) in
         if truthy new_session_id then
           update_session (set_x_ng_sessionid (py_str new_session_id)) ;;;
           ret new_session_id
         else ret VNone)
        (fun _ => Some (ret VNone)).

Definition api_request (creds : list (string * pyval)) (access_token session_id : pyval)
  (method endpoint : string) (params json_data : pyval) : HttpRequest :=
  mkRequest method (VStr (py_str (cred creds "BASE_URL") ++ "/" ++ endpoint))
    ([("Authorization", "Bearer " ++ py_str access_token);
      ("x-ng-sessionid", py_str session_id);
      ("Accept", "application/json")]
     ++ (if existsb (String.eqb method) ["POST"; "PUT"; "PATCH"]
         then [("Content-Type", "application/json")] else []))
    params json_data VNone (Some 30).

Definition envelope_success (response_body : pyval) (r : Response) : pyval :=
  VDict [ ("success", VBool true);
          ("message", VDict [ ("body", response_body);
                              ("headers", VDict (headers_dict (resp_headers r)));
                              ("status_code", VInt (status_code r)) ]) ].

(** The [except httpx.HTTPStatusError] clause of [make_api_request]. *)
Definition on_status_error (r : Response) : M pyval :=
  let error_text := lower (resp_text r) in
  (if contains "session" error_text then
     s <- read_session ;;
     match x_ng_sessionid s with
     | Some _ => update_session del_x_ng_sessionid
     | None => ret tt
     end
   else ret tt) ;;;
  ret (envelope_failure ("API Error: " ++ string_of_Z (status_code r) ++ " - " ++ resp_text r)).

Definition make_api_request (method endpoint : string) (params json_data : pyval) : M pyval :=
  creds <- get_api_credentials ;;
  if negb (truthy (VDict creds)) then ret (envelope_failure "Could not load API credentials.")
  else
    access_token <- get_access_token creds ;;
    session_id <- get_session_id creds ;;
    if negb (truthy access_token) || negb (truthy session_id) then
      ret (envelope_failure "Failed to authenticate or establish a session with NextGen API.")
    else
      try_except
        (response <- client_send (api_request creds access_token session_id
                                    method endpoint params json_data) ;;
         raise_for_status response ;;;
         response_body <-
           (if negb (existsb (Z.eqb (status_code response)) [201; 204])
               && truthy (VStr (resp_text response))
            then response_json response
            else ret (VDict [])) ;;
         ret (envelope_success response_body response))
        (fun e =>
           match exn_kind_of e, exn_response e with
           | HTTPStatusError, Some r => Some (on_status_error r)
           | _, _ =>
               Some (ret (envelope_failure
                            "An unexpected error occurred. Please try again later."))
           end).

(** ** tools/patient_tools.py *)

(** [response.get("success")] as a condition *)
Definition succeeded (response : pyval) : M bool :=
  v <- lift (py_get response "success" VNone) ;;
  ret (truthy v).

(** [response.get("message", {}).get(field, {})] *)
Definition message_field (response : pyval) (field : string) : M pyval :=
  message <- lift (py_get response "message" (VDict [])) ;;
  lift (py_get message field (VDict [])).

(** [response.get("message", {}).get("body", {}).get("items", [])] *)
Definition body_items (response : pyval) : M pyval :=
  body <- message_field response "body" ;;
  lift (py_get body "items" (VList [])).

(** [headers.get("location") or headers.get("Location")] *)
Definition location_of (headers : pyval) : M pyval :=
  a <- lift (py_get headers "location" VNone) ;;
  if truthy a then ret a else lift (py_get headers "Location" VNone).

Definition search_params (first_name last_name birth_date : string)
  (phone_number : option string) : pyval :=
  VDict ([ ("firstName", VStr first_name); ("lastName", VStr last_name);
           ("dateOfBirth", VStr birth_date); ("excludeExpired", VStr "false") ]
         ++ (if truthy (opt_str phone_number)
             then [("phone", opt_str phone_number)] else []))%list.

(** The [patients] variable: the [items] of a dict body, a list body
    itself, the empty list otherwise. *)
Definition patients_of (response_data : pyval) : pyval :=
  match response_data with
  | VDict d => if dict_mem "items" d
               then getattr (dict_lookup "items" d) (VList [])
               else VList []
  | VList _ => response_data
  | _ => VList []
  end.

Definition get_patient (first_name last_name birth_date : string)
  (phone_number : option string) : M pyval :=
  search_response <- make_api_request "GET" "persons/lookup"
                       (search_params first_name last_name birth_date phone_number) VNone ;;
  ok <- succeeded search_response ;;
  if negb ok then ret search_response
  else
    response_data <- message_field search_response "body" ;;
    let patients := patients_of response_data in
    n <- lift (py_len patients) ;;
    if n =? 1 then
      first <- lift (py_item0 patients) ;;
      person_id <- lift (py_get first "id" VNone) ;;
      ret (VDict [ ("success", VBool true); ("personId", person_id);
                   ("message", VStr "Patient found successfully.") ])
    else
      n' <- lift (py_len patients) ;;
      if 1 <? n' then
        ret (VDict [ ("success", VBool false); ("personId", VNone);
                     ("message",
                      VStr "Multiple patients found. Please ask for a phone number to confirm.") ])
      else
        ret (VDict [ ("success", VBool false); ("personId", VNone);
                     ("message", VStr "Patient not found.") ]).

Definition create_payload
  (first_name last_name birth_date sex phone_number email_address : string)
  (ignore_duplicates : option bool) : pyval :=
  VDict ([ ("firstName", VStr first_name); ("lastName", VStr last_name);
           ("dateOfBirth", VStr (birth_date ++ "T00:00:00")); ("sex", VStr sex);
           ("homePhone", VStr phone_number); ("emailAddress", VStr email_address) ]
         ++ (if getattr ignore_duplicates false
             then [("ignoreDuplicatePersons", VBool true)] else []))%list.

Definition create_patient (first_name last_name birth_date sex phone_number email_address : string)
  (ignore_duplicates : option bool) : M pyval :=
  create_response <- make_api_request "POST" "persons" VNone
                       (create_payload first_name last_name birth_date sex phone_number
                          email_address ignore_duplicates) ;;
  ok <- succeeded create_response ;;
  if negb ok then ret create_response
  else
    headers <- message_field create_response "headers" ;;
    location_header <- location_of headers ;;
    if negb (truthy location_header) then
      ret (VDict [ ("success", VBool false); ("personId", VNone);
                   ("message",
                    VStr "Patient was created, but the new ID could not be retrieved.") ])
    else
      try_except
        (new_person_id <- lift (py_split_last location_header "/") ;;
         (if negb (truthy new_person_id)
          then raise (mkExn ValueError "Parsed person ID from Location header is empty.")
          else ret tt) ;;;
         ret (VDict [ ("success", VBool true); ("personId", new_person_id);
                      ("message", VStr "New patient created successfully.") ]))
        (fun e =>
           match exn_kind_of e with
           | IndexError | ValueError =>
               Some (ret (VDict [ ("success", VBool false); ("personId", VNone);
                                  ("message",
                                   VStr "Patient was created, but failed to parse the new ID.") ]))
           | _ => None
           end).

(** ** tools/appointment_tools.py *)

(** [except Exception as e] at the boundary of an appointment tool *)
Definition internal_error (e : exn) : pyval :=
  envelope_failure ("An internal server error occurred: " ++ exn_msg e).

Definition guarded (body : M pyval) : M pyval :=
  try_except body (fun e => Some (ret (internal_error e))).

(** [v[k]] for a string key *)
Definition py_item (v : pyval) (k : string) : res pyval :=
  match v with
  | VDict d =>
      match dict_lookup k d with
      | Some x => Ok x
      | None => Raise (mkExn KeyError ("'" ++ k ++ "'"))
      end
  | VList _ => Raise (mkExn TypeError "list indices must be integers or slices, not str")
  | VStr _ => Raise (mkExn TypeError "string indices must be integers, not 'str'")
  | _ => Raise (mkExn TypeError ("'" ++ type_name v ++ "' object is not subscriptable"))
  end.

(** The projection loop of the two listings: an item without [id] or
    [name], or one that is no dict, is skipped. *)
Fixpoint project_items (id_field : string) (items : list pyval) : list pyval :=
  match items with
  | [] => []
  | item :: r =>
      match py_item item "id", py_item item "name" with
      | Ok i, Ok n => VDict [(id_field, i); ("name", n)] :: project_items id_field r
      | _, _ => project_items id_field r
      end
  end.

Definition list_projection (endpoint id_field out_field : string) : M pyval :=
  guarded
    (response <- make_api_request "GET" endpoint VNone VNone ;;
     ok <- succeeded response ;;
     if negb ok then ret response
     else
       data <- body_items response ;;
       _ <- lift (py_len data) ;;
       items <- lift (py_iter data) ;;
       ret (VDict [ ("success", VBool true);
                    (out_field, VList (project_items id_field items)) ])).

Definition get_appointment_categories : M pyval :=
  list_projection "master/appointments/categories" "categoryId" "categories".

Definition get_category_events (category_id : string) : M pyval :=
  list_projection ("master/appointments/categories/" ++ category_id ++ "/events")
    "eventId" "events".

(** The body of the slot loop for one slot: [Ok true] keeps the slot,
    [Ok false] drops it; a [TypeError] is caught by the loop, any other
    exception leaves it. *)
Definition slot_available (slot : pyval) : res bool :=
  res_bind (py_get slot "timeslotCount" (VInt 0)) (fun timeslot_count =>
  res_bind (py_get slot "appointmentCount" (VInt 0)) (fun appointment_count =>
  py_gt timeslot_count appointment_count)).

Fixpoint filter_slots (slots : list pyval) : res (list pyval) :=
  match slots with
  | [] => Ok []
  | slot :: r =>
      match slot_available slot with
      | Ok keep =>
          res_bind (filter_slots r) (fun rest => Ok (if keep then slot :: rest else rest))
      | Raise e =>
          match exn_kind_of e with
          | TypeError => filter_slots r
          | _ => Raise e
          end
      end
  end.

Definition slots_params (category_id start_date : string) (location_id : pyval) : pyval :=
  let filter_string :=
    "categoryId eq guid'" ++ category_id ++ "' and startDate eq dateTime'" ++ start_date
    ++ "' and locationId eq guid'" ++ py_str location_id ++ "'" in
  VDict [("$filter", VStr filter_string)].

Definition get_available_slots (category_id start_date : string) : M pyval :=
  guarded
    (creds <- get_api_credentials ;;
     let location_id := cred creds "LOCATION_ID" in
     if negb (truthy location_id) then
       ret (envelope_failure "Search cannot be performed because no location is configured.")
     else
       let params := slots_params category_id start_date location_id in
       response <- make_api_request "GET" "appointments/slots" params VNone ;;
       ok <- succeeded response ;;
       if negb ok then ret response
       else
         slots_data <- body_items response ;;
         _ <- lift (py_len slots_data) ;;
         slots <- lift (py_iter slots_data) ;;
         available_slots <- lift (filter_slots slots) ;;
         ret (VDict [ ("success", VBool true); ("available_slots", VList available_slots) ])).

(** [{appt.get("appointmentId"): appt.get("categoryIds") for appt in summary}] *)
Fixpoint category_map (summary : list pyval) (acc : pymap) : res pymap :=
  match summary with
  | [] => Ok acc
  | appt :: r =>
      res_bind (py_get appt "appointmentId" VNone) (fun k =>
      res_bind (py_get appt "categoryIds" VNone) (fun v =>
      res_bind (pymap_set k v acc) (fun acc' =>
      category_map r acc')))
  end.

(** *** Coroutines

    The tools are coroutines of one event loop.  A coroutine gives up
    control only while it waits for the reply of an HTTP call; meanwhile the
    loop runs the other tasks, on the same context.  A [Task] is a coroutine
    that has run up to such a wait, or to its end.  Above, where one
    coroutine awaits the next, a wait is a call of [client_send]; the
    definitions below spell the waits of the dispatcher out for the one
    place where tasks run side by side, [asyncio.gather]. *)
Inductive Task (A : Type) : Type :=
| Finished (r : res A) (c : Ctx)
| Waiting (rq : HttpRequest) (c : Ctx) (resume : HttpOutcome -> Ctx -> Task A).
Arguments Finished {A} r c.
Arguments Waiting {A} rq c resume.

Definition Co (A : Type) : Type := Ctx -> Task A.

(** Code without a wait runs at once. *)
Definition at_once {A} (m : M A) : Co A :=
  fun c => let (r, c') := m c in Finished r c'.

(** [await client.request(...)]: the request is handed over with the
    context reached; the coroutine goes on, in the context of that later
    moment, when the outcome is there. *)
Definition co_client_send (rq : HttpRequest) : Co Response :=
  fun c => Waiting rq c
             (fun o c' => match o with
                          | Failed msg => Finished (Raise (mkExn TransportError msg)) c'
                          | Replied r => Finished (Ok r) c'
                          end).

Fixpoint and_then {A B} (t : Task A) (k : A -> Co B) : Task B :=
  match t with
  | Finished (Ok a) c => k a c
  | Finished (Raise e) c => Finished (Raise e) c
  | Waiting rq c resume => Waiting rq c (fun o c' => and_then (resume o c') k)
  end.

Definition co_bind {A B} (m : Co A) (k : A -> Co B) : Co B :=
  fun c => and_then (m c) k.

Fixpoint rescue {A} (t : Task A) (handler : exn -> option (Co A)) : Task A :=
  match t with
  | Finished (Ok a) c => Finished (Ok a) c
  | Finished (Raise e) c =>
      match handler e with
      | Some h => h c
      | None => Finished (Raise e) c
      end
  | Waiting rq c resume => Waiting rq c (fun o c' => rescue (resume o c') handler)
  end.

Definition co_try_except {A} (body : Co A) (handler : exn -> option (Co A)) : Co A :=
  fun c => rescue (body c) handler.

Notation "x <~ m ;; k" := (co_bind m (fun x => k))
  (at level 61, m at next level, right associativity).

(** A coroutine awaited on its own: each request is answered before the
    coroutine goes on. *)
Fixpoint run_task {A} (t : Task A) : res A * Ctx :=
  match t with
  | Finished r c => (r, c)
  | Waiting rq c resume =>
      let (o, w) := http_send H (world c) rq in
      run_task (resume o (mkCtx (session c) (scope_headers c) w (wire c ++ [rq])))
  end.

(** [get_access_token], [get_session_id] and [make_api_request] with their
    waits. *)
Definition co_get_access_token (creds : list (string * pyval)) : Co pyval :=
  s <~ at_once read_session ;;
  let token := getattr (access_token s) VNone in
  let token_expiration := getattr (token_expiration s) 0 in
  t <~ at_once time_time ;;
  if truthy token && (t <? token_expiration - 60) then at_once (ret token)
  else
    co_try_except
      (response <~ co_client_send (token_request creds) ;;
       at_once
         (raise_for_status response ;;;
          token_data <- response_json response ;;
          access_token <- lift (py_get token_data "access_token" VNone) ;;
          expires_in <- lift (py_get token_data "expires_in" (VInt 3600)) ;;
          update_session (set_access_token access_token) ;;;
          t' <- time_time ;;
          expiry <- lift (add_seconds t' expires_in) ;;
          update_session (set_token_expiration expiry) ;;;
          ret access_token))
      (fun _ => Some (at_once (ret VNone))).

Definition co_get_session_id (creds : list (string * pyval)) : Co pyval :=
  s <~ at_once read_session ;;
  let session_id := opt_str (x_ng_sessionid s) in
  if truthy session_id then at_once (ret session_id)
  else
    access_token <~ co_get_access_token creds ;;
    if negb (truthy access_token) then at_once (ret VNone)
    else
      co_try_except
        (response <~ co_client_send (login_defaults_request creds access_token) ;;
         at_once
           (raise_for_status response ;;;
            let new_session_id :=
              opt_str (header_get "x-ng-sessionid" (resp_headers response)) in
            if truthy new_session_id then
              update_session (set_x_ng_sessionid (py_str new_session_id)) ;;;
              ret new_session_id
            else ret VNone))
        (fun _ => Some (at_once (ret VNone))).

Definition co_make_api_request (method endpoint : string) (params json_data : pyval)
  : Co pyval :=
  creds <~ at_once get_api_credentials ;;
  if negb (truthy (VDict creds))
  then at_once (ret (envelope_failure "Could not load API credentials."))
  else
    access_token <~ co_get_access_token creds ;;
    session_id <~ co_get_session_id creds ;;
    if negb (truthy access_token) || negb (truthy session_id) then
      at_once (ret (envelope_failure
                      "Failed to authenticate or establish a session with NextGen API."))
    else
      co_try_except
        (response <~ co_client_send (api_request creds access_token session_id
                                       method endpoint params json_data) ;;
         at_once
           (raise_for_status response ;;;
            response_body <-
              (if negb (existsb (Z.eqb (status_code response)) [201; 204])
                  && truthy (VStr (resp_text response))
               then response_json response
               else ret (VDict [])) ;;
            ret (envelope_success response_body response)))
        (fun e =>
           match exn_kind_of e, exn_response e with
           | HTTPStatusError, Some r => Some (at_once (on_status_error r))
           | _, _ =>
               Some (at_once (ret (envelope_failure
                                     "An unexpected error occurred. Please try again later.")))
           end).

(** The nested coroutine [get_appointment_details]. *)
Definition get_appointment_details (appt_summary : pyval) : M pyval :=
  appt_id <- lift (py_get appt_summary "appointmentId" VNone) ;;
  if negb (truthy appt_id) then ret VNone
  else
    try_except
      (let detail_endpoint := "appointments/" ++ py_str appt_id in
       detail_response <- make_api_request "GET" detail_endpoint VNone VNone ;;
       ok <- succeeded detail_response ;;
       if ok then message_field detail_response "body" else ret VNone)
      (fun _ => Some (ret VNone)).

(** The same coroutine with its waits, as a task of [asyncio.gather]. *)
Definition co_get_appointment_details (appt_summary : pyval) : Co pyval :=
  appt_id <~ at_once (lift (py_get appt_summary "appointmentId" VNone)) ;;
  if negb (truthy appt_id) then at_once (ret VNone)
  else
    co_try_except
      (let detail_endpoint := "appointments/" ++ py_str appt_id in
       detail_response <~ co_make_api_request "GET" detail_endpoint VNone VNone ;;
       at_once
         (ok <- succeeded detail_response ;;
          if ok then message_field detail_response "body" else ret VNone))
      (fun _ => Some (at_once (ret VNone))).

(** *** [asyncio.gather]

    Each task has a slot: its result, or the reply that is on its way to
    it.  A request goes out at the moment its task starts to wait; the
    world answers it then, and the answer is kept until the task is
    resumed. *)
Inductive Slot (A : Type) : Type :=
| Settled (r : res A)
| Parked (o : HttpOutcome) (resume : HttpOutcome -> Ctx -> Task A).
Arguments Settled {A} r.
Arguments Parked {A} o resume.

Definition park {A} (t : Task A) : Slot A * Ctx :=
  match t with
  | Finished r c => (Settled r, c)
  | Waiting rq c resume =>
      let (o, w) := http_send H (world c) rq in
      (Parked o resume, mkCtx (session c) (scope_headers c) w (wire c ++ [rq]))
  end.

(** The loop starts the tasks in order: each runs to its first wait. *)
Fixpoint start {A} (tasks : list (Co A)) (c : Ctx) : list (Slot A) * Ctx :=
  match tasks with
  | [] => ([], c)
  | task :: rest =>
      let (slot, c1) := park (task c) in
      let (slots, c2) := start rest c1 in
      (slot :: slots, c2)
  end.

Fixpoint parked {A} (slots : list (Slot A)) : nat :=
  match slots with
  | [] => O
  | Settled _ :: rest => parked rest
  | Parked _ _ :: rest => S (parked rest)
  end.

Fixpoint failed {A} (slots : list (Slot A)) : bool :=
  match slots with
  | [] => false
  | Settled (Raise _) :: _ => true
  | _ :: rest => failed rest
  end.

(** The [j]-th waiting task gets its reply and runs to its next wait or to
    its end. *)
Fixpoint resume_nth {A} (j : nat) (slots : list (Slot A)) (c : Ctx)
  : list (Slot A) * Ctx :=
  match slots with
  | [] => ([], c)
  | Settled r :: rest =>
      let (rest', c') := resume_nth j rest c in (Settled r :: rest', c')
  | Parked o resume :: rest =>
      match j with
      | O => let (slot, c') := park (resume o c) in (slot :: rest, c')
      | S j' => let (rest', c') := resume_nth j' rest c in (Parked o resume :: rest', c')
      end
  end.

(** Replies are delivered, in the order the host decides, until no task
    waits or a task has raised; [fuel] bounds the number of deliveries. *)
Fixpoint deliver {A} (fuel : nat) (slots : list (Slot A)) (c : Ctx)
  : list (Slot A) * Ctx :=
  match fuel with
  | O => (slots, c)
  | S fuel' =>
      if failed slots then (slots, c)
      else
        match parked slots with
        | O => (slots, c)
        | S _ as n =>
            let (i, w) := next_reply H (world c) n in
            let (slots', c') :=
              resume_nth (Nat.modulo i n) slots
                (mkCtx (session c) (scope_headers c) w (wire c)) in
            deliver fuel' slots' c'
        end
  end.

(** The results in the order of the tasks; the exception of a task that
    raised. *)
Fixpoint collect {A} (slots : list (Slot A)) : res (list A) :=
  match slots with
  | [] => Ok []
  | Settled (Raise e) :: _ => Raise e
  | Settled (Ok a) :: rest => res_bind (collect rest) (fun l => Ok (a :: l))
  | Parked _ _ :: rest =>
      res_bind (collect rest)
        (fun _ => Raise (mkExn RuntimeError "Event loop stopped before Future completed."))
  end.

Definition gather_tasks {A} (fuel : nat) (tasks : list (Co A)) : M (list A) :=
  fun c =>
    let (slots, c1) := start tasks c in
    let (slots', c2) := deliver fuel slots c1 in
    (collect slots', c2).

(** [await asyncio.gather] over the detail tasks.  A detail task waits at
    most four times (token, token, login defaults, the request), so four
    deliveries per task let every task finish (lemma [gather_returns]). *)
Definition gather (summary : list pyval) : M (list pyval) :=
  gather_tasks (4 * List.length summary) (map co_get_appointment_details summary).

(** The [try] block that formats one detail record.  Its first statement
    calls [appt_details.get], which only a dict has. *)
Definition format_appointment (m : pymap) (appt_details : pyval) : res pyval :=
  match appt_details with
  | VDict d =>
      let get k dflt := getattr (dict_lookup k d) dflt in
      let appt_id := get "id" VNone in
      res_bind (pymap_get m appt_id) (fun category_ids =>
      res_bind (py_split_first (get "appointmentDate" (VStr "")) "T") (fun date_part =>
      let begin_time := get "beginTime" (VStr "") in
      res_bind
        (if truthy date_part && truthy begin_time then
           res_bind (py_slice_to begin_time 2) (fun hh =>
           res_bind (py_slice_from begin_time 2) (fun mm =>
           let formatted_time := py_str hh ++ ":" ++ py_str mm ++ ":00" in
           Ok (py_str date_part ++ "T" ++ formatted_time)))
         else Ok "N/A") (fun full_date =>
      Ok (VDict [ ("appointmentId", appt_id);
                  ("fullAppointmentDate", VStr full_date);
                  ("duration", get "duration" VNone);
                  ("locationName", get "locationName" VNone);
                  ("locationId", get "locationId" VNone);
                  ("resourceIds", get "resourceIds" VNone);
                  ("eventName", get "eventName" VNone);
                  ("eventId", get "eventId" VNone);
                  ("categoryIds", category_ids);
                  ("isCancelled", get "isCancelled" VNone) ]))))
  | _ => Raise (no_attribute appt_details "get")
  end.

Definition attr_index_or_type_error (e : exn) : bool :=
  match exn_kind_of e with
  | AttributeError | IndexError | TypeError => true
  | _ => false
  end.

Fixpoint format_appointments (m : pymap) (details : list pyval) : res (list pyval) :=
  match details with
  | [] => Ok []
  | d :: r =>
      match format_appointment m d with
      | Ok f => res_bind (format_appointments m r) (fun rest => Ok (f :: rest))
      | Raise e => if attr_index_or_type_error e then format_appointments m r else Raise e
      end
  end.

Definition get_patient_appointments (person_id : string) : M pyval :=
  guarded
    (let summary_endpoint := "persons/" ++ person_id ++ "/appointments" in
     summary_response <- make_api_request "GET" summary_endpoint VNone VNone ;;
     ok <- succeeded summary_response ;;
     if negb ok then ret summary_response
     else
       appointments_summary <- body_items summary_response ;;
       if negb (truthy appointments_summary) then
         ret (VDict [ ("success", VBool true);
                      ("message", VStr "This patient has no upcoming appointments.") ])
       else
         _ <- lift (py_len appointments_summary) ;;
         summary <- lift (py_iter appointments_summary) ;;
         appt_id_to_category_map <- lift (category_map summary []) ;;
         detailed_results <- gather summary ;;
         let valid_detailed_results := filter truthy detailed_results in
         formatted_appointments <-
           lift (format_appointments appt_id_to_category_map valid_detailed_results) ;;
         if negb (truthy (VList formatted_appointments)) && truthy appointments_summary then
           ret (envelope_failure "Could not retrieve details for the patient's appointments.")
         else
           ret (VDict [ ("success", VBool true);
                        ("appointments", VList formatted_appointments) ])).

(** *** Booking, rescheduling, cancelling *)

(** [book_appointment] and [reschedule_appointment] share one shape:

    <<
    try:
        ...                      # may return early
        headers = response.get("message", {}).get("headers", {})
        ...
    except (AttributeError, IndexError, TypeError) as e:
        logger.exception(f"... Headers: {headers}")
        return <success, id unconfirmed>
    except Exception as e:
        return <internal error>
    >>

    The first clause reads the local variable [headers].  While the
    assignment has not run the read raises [UnboundLocalError] inside the
    handler, and that exception leaves the function.  [before] is the code
    up to and including the right-hand side of the assignment (it returns
    early with [inl], or yields the value of [headers] with [inr]); [after]
    is the code that follows. *)
Definition headers_unbound : exn :=
  mkExn UnboundLocalError
    "cannot access local variable 'headers' where it is not associated with a value".

Definition parse_clauses (headers : option pyval) (unconfirmed : pyval) (e : exn)
  : M pyval :=
  if attr_index_or_type_error e then
    match headers with
    | Some _ => ret unconfirmed
    | None => raise headers_unbound
    end
  else ret (internal_error e).

Definition try_with_headers (unconfirmed : pyval)
  (before : M (pyval + pyval)) (after : pyval -> M pyval) : M pyval :=
  r <- try_except before
         (fun e => Some (v <- parse_clauses None unconfirmed e ;; ret (inl v))) ;;
  match r with
  | inl v => ret v
  | inr headers =>
      try_except (after headers) (fun e => Some (parse_clauses (Some headers) unconfirmed e))
  end.

Definition booking_unconfirmed : pyval :=
  VDict [ ("success", VBool true); ("appointmentId", VNone);
          ("message", VStr "Appointment booked, but could not confirm the new ID.") ].

Definition booking_payload
  (person_id event_id location_id resource_id appointment_date : string)
  (duration_minutes : Z) : pyval :=
  VDict [ ("personId", VStr person_id); ("eventId", VStr event_id);
          ("locationId", VStr location_id); ("resourceIds", VList [VStr resource_id]);
          ("appointmentDate", VStr appointment_date);
          ("durationMinutes", VInt duration_minutes) ].

Definition book_appointment (person_id event_id location_id resource_id appointment_date : string)
  (duration_minutes : Z) : M pyval :=
  try_with_headers booking_unconfirmed
    (let payload := booking_payload person_id event_id location_id resource_id
                      appointment_date duration_minutes in
     response <- make_api_request "POST" "appointments" VNone payload ;;
     ok <- succeeded response ;;
     if negb ok then ret (inl response)
     else
       headers <- message_field response "headers" ;;
       ret (inr headers))
    (fun headers =>
       location_header <- location_of headers ;;
       if negb (truthy location_header) then ret booking_unconfirmed
       else
         new_appointment_id <- lift (py_split_last location_header "/") ;;
         ret (VDict [ ("success", VBool true); ("appointmentId", new_appointment_id);
                      ("message", VStr "Appointment booked successfully.") ])).

(** The reason loop: the [id] of the first entry whose [name] equals the
    target, [None] when the loop ends without a match. *)
Fixpoint find_reason (target : string) (reasons : list pyval) : res pyval :=
  match reasons with
  | [] => Ok VNone
  | reason :: r =>
      res_bind (py_get reason "name" VNone) (fun name =>
      if py_eq name (VStr target) then py_get reason "id" VNone
      else find_reason target r)
  end.

Definition reasons_params (type : string) : pyval :=
  VDict [("$filter", VStr ("type eq '" ++ type ++ "'"))].

Definition rescheduling_unconfirmed : pyval :=
  VDict [ ("success", VBool true); ("newAppointmentId", VNone);
          ("message", VStr "Appointment rescheduled, but could not confirm the new ID.") ].

Definition reschedule_appointment
  (appointment_id event_id location_id resource_id appointment_date : string)
  (duration_minutes : Z) : M pyval :=
  try_with_headers rescheduling_unconfirmed
    (let params := reasons_params "as_resched_reason" in
     reasons_response <- make_api_request "GET" "master/list-items" params VNone ;;
     fetched <- succeeded reasons_response ;;
     if negb fetched then ret (inl (envelope_failure "Could not fetch reschedule reasons."))
     else
       reasons_data <- body_items reasons_response ;;
       let target_reason_name := "Patient Request" in
       reasons <- lift (py_iter reasons_data) ;;
       reason_id_to_use <- lift (find_reason target_reason_name reasons) ;;
       if negb (truthy reason_id_to_use) then
         ret (inl (envelope_failure
                     ("A valid reschedule reason ('" ++ target_reason_name
                      ++ "') could not be found.")))
       else
         let payload :=
           VDict [ ("eventId", VStr event_id); ("locationId", VStr location_id);
                   ("resourceIds", VList [VStr resource_id]);
                   ("appointmentDate", VStr appointment_date);
                   ("durationMinutes", VInt duration_minutes);
                   ("rescheduleReasonId", reason_id_to_use) ] in
         let endpoint := "appointments/" ++ appointment_id ++ "/reschedule" in
         response <- make_api_request "POST" endpoint VNone payload ;;
         ok <- succeeded response ;;
         if negb ok then ret (inl response)
         else
           headers <- message_field response "headers" ;;
           ret (inr headers))
    (fun headers =>
       location_header <- location_of headers ;;
       if negb (truthy location_header) then ret rescheduling_unconfirmed
       else
         new_appointment_id <- lift (py_split_last location_header "/") ;;
         ret (VDict [ ("success", VBool true); ("newAppointmentId", new_appointment_id);
                      ("message", VStr "Appointment rescheduled successfully.") ])).

Definition cancel_appointment (appointment_id : string) : M pyval :=
  guarded
    (let params := reasons_params "as_cancel_reason" in
     reasons_response <- make_api_request "GET" "master/list-items" params VNone ;;
     fetched <- succeeded reasons_response ;;
     if negb fetched then ret (envelope_failure "Could not fetch cancellation reasons.")
     else
       reasons_data <- body_items reasons_response ;;
       let target_reason_name := "Appointment No Longer Needed" in
       reasons <- lift (py_iter reasons_data) ;;
       reason_id_to_use <- lift (find_reason target_reason_name reasons) ;;
       if negb (truthy reason_id_to_use) then
         ret (envelope_failure
                ("A valid cancellation reason ('" ++ target_reason_name
                 ++ "') could not be found."))
       else
         let payload := VDict [("cancelReasonId", reason_id_to_use)] in
         let endpoint := "appointments/" ++ appointment_id ++ "/cancel" in
         response <- make_api_request "POST" endpoint VNone payload ;;
         ok <- succeeded response ;;
         if negb ok then ret response
         else
           ret (VDict [ ("success", VBool true);
                        ("message",
                         VStr ("Appointment " ++ appointment_id ++ " canceled successfully.")) ])).

End Scheduler.

Arguments ret {H A} a c.
Arguments bind {H A B} m k c.
Arguments lift {H A} r c.
Arguments raise {H A} e c.
Arguments try_except {H A} body handler c.
Arguments Finished {H A} r c.
Arguments Waiting {H A} rq c resume.
Arguments Settled {H A} r.
Arguments Parked {H A} o resume.
Arguments at_once {H A} m c.
Arguments and_then {H A B} t k.
Arguments co_bind {H A B} m k c.
Arguments rescue {H A} t handler.
Arguments co_try_except {H A} body handler c.
Arguments run_task {H A} t.
Arguments park {H A} t.
Arguments start {H A} tasks c.
Arguments parked {H A} slots.
Arguments failed {H A} slots.
Arguments resume_nth {H A} j slots c.
Arguments deliver {H A} fuel slots c.
Arguments collect {H A} slots.
Arguments gather_tasks {H A} fuel tasks c.
Arguments session {H} c.
Arguments scope_headers {H} c.
Arguments world {H} c.
Arguments wire {H} c.

Notation "x <- m ;; k" := (bind m (fun x => k))
  (at level 61, m at next level, right associativity).
Notation "m ;;; k" := (bind m (fun _ => k))
  (at level 61, right associativity).

(** ** A scripted host

    A world that answers the HTTP calls from a fixed list of outcomes, in
    order, whatever the request; the clock stands still.  It serves to run
    the tools on concrete inputs. *)

Record Script : Type := mkScript {
  replies : list HttpOutcome;
  time_now : Z
}.

Definition scripted_send (w : Script) (rq : HttpRequest) : HttpOutcome * Script :=
  match replies w with
  | [] => (Failed "connection refused", w)
  | o :: r => (o, mkScript r (time_now w))
  end.

Definition scripted_env (name : string) : option string :=
  if String.eqb name "NEXTGEN_BASE_URL" then Some "https://api.test"
  else if String.eqb name "NEXTGEN_AUTH_URL" then Some "https://auth.test/token"
  else if String.eqb name "NEXTGEN_DEFAULT_LOCATION_ID" then Some "loc-1"
  else None.

(** Replies are handed to the waiting tasks in the order of their requests. *)
Definition first_come (w : Script) (n : nat) : nat * Script := (O, w).

Definition scripted : Host := mkHost Script scripted_send time_now scripted_env first_come.

(** A context whose session holds a token valid until [t = 5000] and a
    session id, at time [t = 1000]. *)
Definition warm_session : Session :=
  mkSession (Some (VStr "tok")) (Some 5000) (Some "sid").

Definition warm (rs : list HttpOutcome) : Ctx scripted :=
  mkCtx scripted warm_session [] (mkScript rs 1000) [].

(** A context with an empty session. *)
Definition cold (rs : list HttpOutcome) (t : Z) : Ctx scripted :=
  mkCtx scripted (mkSession None None None) [] (mkScript rs t) [].

Definition json_reply (status : Z) (text : string) (v : pyval) : HttpOutcome :=
  Replied (mkResponse status [("Content-Type", "application/json")] text (Some v)).

(** ** The results the tools return

    The dict literals of the [return] statements, named. *)

Definition not_found : pyval :=
  VDict [ ("success", VBool false); ("personId", VNone);
          ("message", VStr "Patient not found.") ].

Definition ambiguous : pyval :=
  VDict [ ("success", VBool false); ("personId", VNone);
          ("message", VStr "Multiple patients found. Please ask for a phone number to confirm.") ].

Definition found (person_id : pyval) : pyval :=
  VDict [ ("success", VBool true); ("personId", person_id);
          ("message", VStr "Patient found successfully.") ].

Definition id_not_retrieved : pyval :=
  VDict [ ("success", VBool false); ("personId", VNone);
          ("message", VStr "Patient was created, but the new ID could not be retrieved.") ].

Definition id_not_parsed : pyval :=
  VDict [ ("success", VBool false); ("personId", VNone);
          ("message", VStr "Patient was created, but failed to parse the new ID.") ].

Definition created (person_id : pyval) : pyval :=
  VDict [ ("success", VBool true); ("personId", person_id);
          ("message", VStr "New patient created successfully.") ].

Definition booked (appointment_id : pyval) : pyval :=
  VDict [ ("success", VBool true); ("appointmentId", appointment_id);
          ("message", VStr "Appointment booked successfully.") ].

Definition no_reschedule_reason : pyval :=
  envelope_failure "A valid reschedule reason ('Patient Request') could not be found.".

Definition no_cancel_reason : pyval :=
  envelope_failure "A valid cancellation reason ('Appointment No Longer Needed') could not be found.".



Definition appointments_found (formatted_appointments : list pyval) : pyval :=
  VDict [ ("success", VBool true); ("appointments", VList formatted_appointments) ].



Definition is_none (v : pyval) : bool := match v with VNone => true | _ => false end.
Definition is_str (v : pyval) : bool := match v with VStr _ => true | _ => false end.



(** The text of a date before its first "T". *)
Definition date_part (date : string) : string := hd EmptyString (split_on "T" date).


Definition slots_found (available_slots : list pyval) : pyval :=
  VDict [ ("success", VBool true); ("available_slots", VList available_slots) ].

(** A count of a slot record [d], 0 when the field is missing:
    [slot.get(field, 0)]. *)
Definition slot_count (field : string) (d : list (string * pyval)) : pyval :=
  getattr (dict_lookup field d) (VInt 0).

(** The slot loop keeps a slot when the comparison evaluates to [True]. *)
Definition kept (slot : pyval) : bool :=
  match slot_available slot with
  | Ok true => true
  | _ => false
  end.

(** The location id the slot search filters by. *)
Definition configured_location (H : Host) (c : Ctx H) : pyval :=
  cred (credentials H (scope_headers c)) "LOCATION_ID".

(** [headers.get("location") or headers.get("Location")] on the headers of
    a response, as the success envelope carries them. *)
Definition location_header (r : Response) : pyval :=
  let headers := headers_dict (resp_headers r) in
  py_or (getattr (dict_lookup "location" headers) VNone)
        (getattr (dict_lookup "Location" headers) VNone).

(** The final path segment, [s.split("/")[-1]]. *)
Definition final_segment (s : string) : string := last (split_on "/" s) "".

(** ** Notions used to state what the gateway does *)

(** A request of the authentication phase: the token request or a
    login-defaults request. *)
Definition auth_request (creds : list (string * pyval)) (rq : HttpRequest) : Prop :=
  rq = token_request creds
  \/ exists access_token, rq = login_defaults_request creds access_token.

(** The two shapes [make_api_request] builds. *)
Definition dispatcher_envelope (v : pyval) : Prop :=
  (exists msg, v = envelope_failure msg)
  \/ (exists body r, v = envelope_success body r).

(** The [success] field of a dict when it is a boolean. *)
Definition success_flag (v : pyval) : option bool :=
  match v with
  | VDict d =>
      match dict_lookup "success" d with
      | Some (VBool b) => Some b
      | _ => None
      end
  | _ => None
  end.

Definition auth_failure : pyval :=
  envelope_failure "Failed to authenticate or establish a session with NextGen API.".

Definition unexpected_error : pyval :=
  envelope_failure "An unexpected error occurred. Please try again later.".

(** The context a successful token refresh leaves: the token and its
    expiry stored, the request logged, the world moved on. *)
Definition refreshed (H : Host) (creds : list (string * pyval)) (c : Ctx H)
  (token : pyval) (expiry : Z) (w : World H) : Ctx H :=
  mkCtx H (mkSession (Some token) (Some expiry) (x_ng_sessionid (session c)))
    (scope_headers c) w (wire c ++ [token_request creds]).

(** A token exchange that gives no token object: the client fails, the
    status is outside 2xx, or the body is no JSON object. *)
Definition exchange_failed (o : HttpOutcome) : Prop :=
  match o with
  | Failed _ => True
  | Replied r =>
      is_success (status_code r) = false
      \/ resp_json r = None
      \/ exists v, resp_json r = Some v /\ is_dict v = false
  end.

(** A token exchange answered 2xx with the JSON object [d]. *)
Definition granted (o : HttpOutcome) (d : list (string * pyval)) : Prop :=
  exists r, o = Replied r /\ is_success (status_code r) = true
            /\ resp_json r = Some (VDict d).

(** The context after a request that changed nothing in the session. *)
Definition after_request (H : Host) (c : Ctx H) (rq : HttpRequest) (w : World H) : Ctx H :=
  mkCtx H (session c) (scope_headers c) w (wire c ++ [rq]).

(** A dict with a boolean [success] field. *)
Definition is_envelope (v : pyval) : bool :=
  match success_flag v with
  | Some _ => true
  | None => false
  end.

(** A computation whose normal results are envelopes. *)
Definition safe (H : Host) (m : M H pyval) : Prop :=
  forall c, match fst (m c) with
            | Ok v => is_envelope v = true
            | Raise _ => True
            end.

(** A computation that never raises and returns an envelope. *)
Definition answers (H : Host) (m : M H pyval) : Prop :=
  forall c, exists v c', m c = (Ok v, c') /\ is_envelope v = true.

(** [c in s] for a character [c]. *)
Fixpoint mentions (c : ascii) (s : string) : bool :=
  match s with
  | EmptyString => false
  | String a r => Ascii.eqb a c || mentions c r
  end.

(** What [book_appointment] and [create_patient] answer after a
    successful POST, by the value of the location header. *)
Definition booking_result (location_header : pyval) : pyval :=
  match location_header with
  | VStr (String _ _ as h) => booked (VStr (final_segment h))
  | _ => booking_unconfirmed
  end.

Definition creation_result (location_header : pyval) : pyval :=
  match location_header with
  | VStr (String _ _ as h) =>
      match final_segment h with
      | EmptyString => id_not_parsed
      | segment => created (VStr segment)
      end
  | _ => id_not_retrieved
  end.

Definition reasons_unavailable (what : string) : pyval :=
  envelope_failure ("Could not fetch " ++ what ++ " reasons.").

Definition canceled (appointment_id : string) : pyval :=
  VDict [ ("success", VBool true);
          ("message", VStr ("Appointment " ++ appointment_id ++ " canceled successfully.")) ].

Definition rescheduled (new_appointment_id : pyval) : pyval :=
  VDict [ ("success", VBool true); ("newAppointmentId", new_appointment_id);
          ("message", VStr "Appointment rescheduled successfully.") ].

(** What [reschedule_appointment] answers after a successful POST. *)
Definition rescheduling_result (location_header : pyval) : pyval :=
  match location_header with
  | VStr (String _ _ as h) => rescheduled (VStr (final_segment h))
  | _ => rescheduling_unconfirmed
  end.

Definition cancel_payload (reason_id : pyval) : pyval :=
  VDict [("cancelReasonId", reason_id)].

Definition reschedule_payload (event_id location_id resource_id appointment_date : string)
  (duration_minutes : Z) (reason_id : pyval) : pyval :=
  VDict [ ("eventId", VStr event_id); ("locationId", VStr location_id);
          ("resourceIds", VList [VStr resource_id]);
          ("appointmentDate", VStr appointment_date);
          ("durationMinutes", VInt duration_minutes);
          ("rescheduleReasonId", reason_id) ].

Definition listed (out_field : string) (entries : list pyval) : pyval :=
  VDict [ ("success", VBool true); (out_field, VList entries) ].

Definition no_location : pyval :=
  envelope_failure "Search cannot be performed because no location is configured.".

(** What a hashable value is as a dict key: [None], a number ([True] is
    1) or a string. *)
Definition hash_key (v : pyval) : option (Z + string) :=
  match v with
  | VBool b => Some (inl (if b then 1 else 0))
  | VInt n => Some (inl n)
  | VStr s => Some (inr s)
  | _ => None
  end.

(** The [categoryIds] of the last summary entry whose [appointmentId]
    equals [k]; [found] when there is none. *)
Fixpoint last_categories (k : pyval) (summary : list pyval) (found : option pyval)
  : option pyval :=
  match summary with
  | [] => found
  | VDict e :: r =>
      last_categories k r
        (if py_eq (getattr (dict_lookup "appointmentId" e) VNone) k
         then Some (getattr (dict_lookup "categoryIds" e) VNone)
         else found)
  | _ :: r => last_categories k r found
  end.

(** The header and the environment variable each credential is read from. *)
Definition credential_sources : list (string * (string * string)) :=
  [ ("BASE_URL", ("x-nextgen-base-url", "NEXTGEN_BASE_URL"));
    ("AUTH_URL", ("x-nextgen-auth-url", "NEXTGEN_AUTH_URL"));
    ("CLIENT_ID", ("x-nextgen-client-id", "NEXTGEN_CLIENT_ID"));
    ("CLIENT_SECRET", ("x-nextgen-client-secret", "NEXTGEN_CLIENT_SECRET"));
    ("SITE_ID", ("x-nextgen-site-id", "NEXTGEN_SITE_ID"));
    ("ENTERPRISE_ID", ("x-nextgen-enterprise-id", "NEXTGEN_ENTERPRISE_ID"));
    ("PRACTICE_ID", ("x-nextgen-practice-id", "NEXTGEN_PRACTICE_ID"));
    ("LOCATION_ID", ("x-nextgen-location-id", "NEXTGEN_DEFAULT_LOCATION_ID")) ].

(** The task [t] waits at most [n] times, whatever the replies and the
    contexts it is resumed in, and ends with a result in [P]. *)
Fixpoint within {H : Host} {A} (P : res A -> Prop) (t : Task H A) (n : nat) {struct t}
  : Prop :=
  match t with
  | Finished r _ => P r
  | Waiting _ _ resume =>
      match n with
      | O => False
      | S n' => forall o c, within P (resume o c) n'
      end
  end.

Definition returns {A} (r : res A) : Prop :=
  match r with Ok _ => True | Raise _ => False end.


(** No slot holds an exception, and [n] deliveries settle every slot. *)
Fixpoint funded {H : Host} {A} (slots : list (Slot H A)) (n : nat) : Prop :=
  match slots with
  | [] => True
  | Settled (Ok _) :: rest => funded rest n
  | Settled (Raise _) :: _ => False
  | Parked o resume :: rest =>
      exists k m, (S k + m <= n)%nat
                  /\ (forall c, within returns (resume o c) k)
                  /\ funded rest m
  end.

(** ** Concrete inputs *)

(** The scenario of one match with id [p-1]. *)
Definition one_match_body : pyval := VDict [("items", VList [VDict [("id", VStr "p-1")]])].

(** A [201 Created] without any header. *)
Definition created_without_location : Response := mkResponse 201 [] "" None.

(** A [201 Created] whose location header ends in [/abc123]. *)
Definition created_at_abc123 : Response :=
  mkResponse 201 [("Location", "https://api.test/persons/abc123")] "" None.

(** Four slot records: one free, one full, one without [timeslotCount],
    one without [appointmentCount]. *)
Definition slot_free : pyval :=
  VDict [("id", VStr "s1"); ("timeslotCount", VInt 2); ("appointmentCount", VInt 1)].
Definition slot_full : pyval :=
  VDict [("id", VStr "s2"); ("timeslotCount", VInt 1); ("appointmentCount", VInt 1)].
Definition slot_without_timeslots : pyval :=
  VDict [("id", VStr "s3"); ("appointmentCount", VInt 0)].
Definition slot_without_appointments : pyval :=
  VDict [("id", VStr "s4"); ("timeslotCount", VInt 3)].
Definition four_slots : list pyval :=
  [slot_full; slot_free; slot_without_timeslots; slot_without_appointments].

Definition slots_reply : HttpOutcome :=
  json_reply 200 "{...}" (VDict [("items", VList four_slots)]).

(** A reasons list that lacks both target names. *)
Definition other_reasons : pyval :=
  VDict [("items", VList [ VDict [("id", VStr "r1"); ("name", VStr "Provider Request")];
                           VDict [("id", VStr "r2"); ("name", VStr "patient request")] ])].

(** A session whose token ["old"] expired at [t = 100]. *)
Definition stale_session : Session := mkSession (Some (VStr "old")) (Some 100) None.

Definition stale (rs : list HttpOutcome) : Ctx scripted :=
  mkCtx scripted stale_session [] (mkScript rs 1000) [].

(** A token response whose [expires_in] is a string. *)
Definition token_with_text_expiry : pyval :=
  VDict [("access_token", VStr "new"); ("expires_in", VStr "3600")].

(** A body whose [items] is [null]. *)
Definition null_items : pyval := VDict [("items", VNone)].

(** An upstream error that mentions the session. *)
Definition session_expired : Response :=
  mkResponse 401 [] "Invalid Session: the session has expired" None.

(** A summary of two appointments; the detail call of the first is
    answered with a 500, the detail record of the second has a [null]
    [appointmentDate]. *)
Definition two_appointments : list pyval :=
  [ VDict [("appointmentId", VStr "a1"); ("categoryIds", VList [VStr "c1"])];
    VDict [("appointmentId", VStr "a2"); ("categoryIds", VList [VStr "c2"])] ].


Definition detail_a2 : pyval :=
  VDict [("id", VStr "a2"); ("appointmentDate", VStr "2025-03-04T00:00:00");
         ("beginTime", VStr "0930")].

Definition server_error : HttpOutcome := Replied (mkResponse 500 [] "boom" None).

Definition summary_reply : HttpOutcome :=
  json_reply 200 "{...}" (VDict [("items", VList two_appointments)]).

(** A token good for half an hour. *)
Definition first_token : HttpOutcome :=
  json_reply 200 "{...}" (VDict [("access_token", VStr "t1"); ("expires_in", VInt 1800)]).

(** The replies of a first call: the token, the login defaults with the
    session id, then an empty list of matches. *)
Definition first_call_replies : list HttpOutcome :=
  [ first_token;
    Replied (mkResponse 200 [("X-NG-SessionId", "s1")] "" None);
    json_reply 200 "{...}" (VDict [("items", VList [])]) ].

(** A token response without [expires_in]. *)
Definition token_reply : Response :=
  mkResponse 200 [] "{...}" (Some (VDict [("access_token", VStr "t1")])).

(** A context whose token has expired and whose session id is cached. *)
Definition expired_with_session (rs : list HttpOutcome) : Ctx scripted :=
  mkCtx scripted (mkSession (Some (VStr "old")) (Some 100) (Some "sid")) []
    (mkScript rs 1000) [].

(** A 404 whose body does not mention the session. *)
Definition not_found_reply : Response := mkResponse 404 [] "No such person" None.

(** A 204 with a body that is no JSON. *)
Definition no_content_reply : Response := mkResponse 204 [] "<html>" None.

(** A [201 Created] for an appointment. *)
Definition booked_at_a77 : Response :=
  mkResponse 201 [("location", "https://api.test/appointments/a77")] "" None.

(** The upstream is down: every call of the HTTP client fails. *)
Definition unreachable : list HttpOutcome := [].

(** A reasons list whose first "Appointment No Longer Needed" entry has no
    id, followed by one that has. *)
Definition reasons_first_without_id : pyval :=
  VDict [("items", VList [ VDict [("id", VStr "r0"); ("name", VStr "Other")];
                           VDict [("name", VStr "Appointment No Longer Needed")];
                           VDict [("id", VStr "r9");
                                  ("name", VStr "Appointment No Longer Needed")] ])].

(** A reasons list with the reschedule reason in second place. *)
Definition reschedule_reasons : pyval :=
  VDict [("items", VList [ VDict [("id", VStr "r0"); ("name", VStr "Other")];
                           VDict [("id", VStr "r5"); ("name", VStr "Patient Request")] ])].

(** Categories as the upstream may send them: two records, one without a
    name, one that is no object. *)
Definition mixed_categories : pyval :=
  VDict [("items", VList [ VDict [("id", VStr "c1"); ("name", VStr "New Patient")];
                           VDict [("id", VStr "c2")];
                           VStr "n/a";
                           VDict [("id", VStr "c4"); ("name", VStr "Follow-Up");
                                  ("active", VBool true)] ])].

(** Slots with a string in between. *)
Definition slots_with_text : pyval :=
  VDict [("items", VList [slot_free; VStr "n/a"; slot_without_appointments])].

(** A context without any location: no header, and a host whose
    environment is empty. *)
Definition bare : Host := mkHost Script scripted_send time_now (fun _ => None) first_come.

Definition bare_ctx (rs : list HttpOutcome) : Ctx bare :=
  mkCtx bare warm_session [] (mkScript rs 1000) [].

(** A detail record with a date and a military time. *)
Definition detail_0930 : list (string * pyval) :=
  [("id", VStr "a2"); ("appointmentDate", VStr "2025-03-04T00:00:00");
   ("beginTime", VStr "0930"); ("duration", VInt 30)].

(** A summary in which the id [a1] occurs twice. *)
Definition summary_with_repeat : list pyval :=
  [ VDict [("appointmentId", VStr "a1"); ("categoryIds", VList [VStr "c1"])];
    VDict [("appointmentId", VStr "a2"); ("categoryIds", VList [VStr "c2"])];
    VDict [("appointmentId", VStr "a1"); ("categoryIds", VList [VStr "c9"])] ].

(** * Properties *)

(** ** Reading the dispatcher's envelopes *)

Section Envelopes.

Variable H : Host.

Lemma succeeded_success (body : pyval) (r : Response) (c : Ctx H) :
  succeeded H (envelope_success body r) c = (Ok true, c).
Proof. reflexivity. Qed.

Lemma succeeded_failure (msg : string) (c : Ctx H) :
  succeeded H (envelope_failure msg) c = (Ok false, c).
Proof. reflexivity. Qed.

Lemma message_field_body (body : pyval) (r : Response) (c : Ctx H) :
  message_field H (envelope_success body r) "body" c = (Ok body, c).
Proof. reflexivity. Qed.

Lemma message_field_headers (body : pyval) (r : Response) (c : Ctx H) :
  message_field H (envelope_success body r) "headers" c
  = (Ok (VDict (headers_dict (resp_headers r))), c).
Proof. reflexivity. Qed.

Lemma body_items_success (body : pyval) (r : Response) (c : Ctx H) :
  body_items H (envelope_success body r) c = (py_get body "items" (VList []), c).
Proof.
  unfold body_items, bind. rewrite message_field_body. unfold lift. reflexivity.
Qed.

End Envelopes.

Create Rewrite HintDb envelope.
#[export] Hint Rewrite succeeded_success succeeded_failure message_field_body
  message_field_headers body_items_success : envelope.

(** Steps through a tool body after its dispatcher call has been rewritten. *)
Ltac run_tool :=
  unfold bind, lift, ret;
  repeat (autorewrite with envelope; unfold bind, lift, ret; cbn [negb fst snd]).

(** ** Patient lookup *)

Section PatientLookup.

Variable H : Host.
Variables first_name last_name birth_date : string.
Variable phone_number : option string.

(** C6.  When the lookup call succeeds and the matches form a list: no
    match gives the not-found result, one match (a record) gives success
    with that record's id, two or more give the result that asks for a
    phone number, with no person id. *)
Theorem get_patient_match_arity (c c1 : Ctx H) (body : pyval) (r : Response)
  (matches : list pyval) :
  make_api_request H "GET" "persons/lookup"
    (search_params first_name last_name birth_date phone_number) VNone c
  = (Ok (envelope_success body r), c1) ->
  patients_of body = VList matches ->
  let result := get_patient H first_name last_name birth_date phone_number c in
  (matches = [] -> result = (Ok not_found, c1))
  /\ (forall d, matches = [VDict d] ->
        result = (Ok (found (getattr (dict_lookup "id" d) VNone)), c1))
  /\ ((2 <= List.length matches)%nat -> result = (Ok ambiguous, c1)).
Proof.
  intros Hcall Hpatients result. subst result.
  assert (Hrun : get_patient H first_name last_name birth_date phone_number c
                 = (let patients := VList matches in
                    n <- lift (py_len patients) ;;
                    if n =? 1 then
                      first <- lift (py_item0 patients) ;;
                      person_id <- lift (py_get first "id" VNone) ;;
                      ret (found person_id)
                    else
                      n' <- lift (py_len patients) ;;
                      if 1 <? n' then ret ambiguous else ret not_found) c1).
  { unfold get_patient. unfold bind at 1. rewrite Hcall.
    run_tool. rewrite Hpatients. reflexivity. }
  rewrite Hrun. clear Hrun Hcall.
  repeat split.
  - intros ->. reflexivity.
  - intros d ->. reflexivity.
  - intros Hlen. destruct matches as [|p [|q rest]]; cbn in Hlen; try lia.
    unfold bind, lift, ret. cbn [py_len].
    assert (Hn : (Z.of_nat (List.length (p :: q :: rest)) =? 1) = false).
    { apply Z.eqb_neq. cbn [List.length]. lia. }
    rewrite Hn.
    assert (Hm : (1 <? Z.of_nat (List.length (p :: q :: rest))) = true).
    { apply Z.ltb_lt. cbn [List.length]. lia. }
    rewrite Hm. reflexivity.
Qed.

End PatientLookup.

Lemma get_patient_match_arity_witness :
  fst (get_patient scripted "Jane" "Doe" "1990-01-01" None
         (warm [json_reply 200 "{...}" one_match_body]))
  = Ok (found (VStr "p-1")).
Proof.
  set (c := warm [json_reply 200 "{...}" one_match_body]).
  set (call := make_api_request scripted "GET" "persons/lookup"
                 (search_params "Jane" "Doe" "1990-01-01" None) VNone c).
  refine (f_equal fst
            (proj1 (proj2 (get_patient_match_arity scripted "Jane" "Doe" "1990-01-01" None
                             c (snd call) one_match_body
                             (mkResponse 200 [("Content-Type", "application/json")] "{...}"
                                (Some one_match_body))
                             [VDict [("id", VStr "p-1")]] _ _))
               [("id", VStr "p-1")] eq_refl)).
  - vm_compute. reflexivity.
  - reflexivity.
Defined.

(** ** The id in the location header *)

Section LocationHeader.

Variable H : Host.

Lemma location_of_headers (r : Response) (c : Ctx H) :
  location_of H (VDict (headers_dict (resp_headers r))) c = (Ok (location_header r), c).
Proof.
  unfold location_of, location_header, bind, lift, py_or. cbn [py_get].
  destruct (dict_lookup "location" (headers_dict (resp_headers r))) as [v|];
    cbn [getattr]; [destruct (truthy v) |]; reflexivity.
Qed.

Lemma header_value_is_str (k : string) (hs : list (string * string)) (v : pyval) :
  dict_lookup k (headers_dict hs) = Some v -> exists s, v = VStr s.
Proof.
  unfold headers_dict. induction (header_names [] hs) as [|n ns IH]; cbn.
  - discriminate.
  - destruct (String.eqb k n).
    + intros [= <-]. eauto.
    + exact IH.
Qed.

Lemma location_header_cases (r : Response) :
  location_header r = VNone \/ exists s, location_header r = VStr s.
Proof.
  unfold location_header, py_or.
  destruct (dict_lookup "location" (headers_dict (resp_headers r))) as [v|] eqn:Ha;
    destruct (dict_lookup "Location" (headers_dict (resp_headers r))) as [w|] eqn:Hb;
    cbn [getattr];
    try (apply header_value_is_str in Ha; destruct Ha as [s ->]);
    try (apply header_value_is_str in Hb; destruct Hb as [t ->]);
    try destruct (truthy (VStr s)); cbn [truthy]; eauto.
Qed.

Lemma truthy_str (s : string) : s <> "" -> truthy (VStr s) = true.
Proof. destruct s; [congruence | reflexivity]. Qed.

(** C1, as the code has it.  After a POST that the dispatcher reports as
    successful, with [h] the value of the location header:
    - [book_appointment] returns success with a null id and the "could not
      confirm" message when [h] is missing or empty, and otherwise success
      with the final segment of [h] as id (which may be empty);
    - [create_patient] returns [success = false] with a null id and a
      "patient was created, but ..." message when [h] is missing or empty
      or when its final segment is empty, and success with that segment
      otherwise; these two results are no dispatcher failure envelopes. *)
Theorem location_header_outcomes (c c1 : Ctx H) (body : pyval) (r : Response) :
  (forall person_id event_id location_id resource_id appointment_date duration_minutes,
      make_api_request H "POST" "appointments" VNone
        (booking_payload person_id event_id location_id resource_id appointment_date
           duration_minutes) c
      = (Ok (envelope_success body r), c1) ->
      let result := book_appointment H person_id event_id location_id resource_id
                      appointment_date duration_minutes c in
      (truthy (location_header r) = false -> result = (Ok booking_unconfirmed, c1))
      /\ (forall h, location_header r = VStr h -> h <> "" ->
            result = (Ok (booked (VStr (final_segment h))), c1)))
  /\ (forall first_name last_name birth_date sex phone_number email_address ignore_duplicates,
        make_api_request H "POST" "persons" VNone
          (create_payload first_name last_name birth_date sex phone_number email_address
             ignore_duplicates) c
        = (Ok (envelope_success body r), c1) ->
        let result := create_patient H first_name last_name birth_date sex phone_number
                        email_address ignore_duplicates c in
        (truthy (location_header r) = false -> result = (Ok id_not_retrieved, c1))
        /\ (forall h, location_header r = VStr h -> h <> "" -> final_segment h = "" ->
              result = (Ok id_not_parsed, c1))
        /\ (forall h, location_header r = VStr h -> h <> "" -> final_segment h <> "" ->
              result = (Ok (created (VStr (final_segment h))), c1)))
  /\ (forall msg, id_not_retrieved <> envelope_failure msg
                  /\ id_not_parsed <> envelope_failure msg).
Proof.
  split; [| split].
  - intros person_id event_id location_id resource_id appointment_date duration_minutes
      Hcall result.
    assert (Hrun : result
                   = try_except
                       (location_header <- ret (H := H) (location_header r) ;;
                        if negb (truthy location_header) then ret booking_unconfirmed
                        else
                          new_appointment_id <- lift (py_split_last location_header "/") ;;
                          ret (booked new_appointment_id))
                       (fun e => Some (parse_clauses H
                                         (Some (VDict (headers_dict (resp_headers r))))
                                         booking_unconfirmed e)) c1).
    { subst result. unfold book_appointment, try_with_headers.
      unfold bind at 1. unfold try_except at 1. unfold bind at 1. rewrite Hcall.
      run_tool. unfold try_except. rewrite location_of_headers. reflexivity. }
    rewrite Hrun. clear Hrun Hcall. split.
    + intros Hfalse. unfold try_except, bind, ret. rewrite Hfalse. reflexivity.
    + intros h Hh Hne. unfold try_except, bind, ret, lift. rewrite Hh.
      rewrite (truthy_str h Hne). reflexivity.
  - intros first_name last_name birth_date sex phone_number email_address ignore_duplicates
      Hcall result.
    assert (Hrun : result
                   = (let location_header := location_header r in
                      if negb (truthy location_header) then ret id_not_retrieved
                      else
                        try_except
                          (new_person_id <- lift (py_split_last location_header "/") ;;
                           (if negb (truthy new_person_id)
                            then raise (mkExn ValueError
                                          "Parsed person ID from Location header is empty.")
                            else ret tt) ;;;
                           ret (created new_person_id))
                          (fun e =>
                             match exn_kind_of e with
                             | IndexError | ValueError => Some (ret id_not_parsed)
                             | _ => None
                             end)) c1).
    { subst result. unfold create_patient. unfold bind at 1. rewrite Hcall.
      run_tool. rewrite location_of_headers. reflexivity. }
    rewrite Hrun. clear Hrun Hcall. cbn zeta. repeat split.
    + intros Hfalse. rewrite Hfalse. reflexivity.
    + intros h Hh Hne Hseg. rewrite Hh, (truthy_str h Hne).
      unfold try_except, bind, lift, ret, raise, py_split_last.
      fold (final_segment h). rewrite Hseg. reflexivity.
    + intros h Hh Hne Hseg. rewrite Hh, (truthy_str h Hne).
      unfold try_except, bind, lift, ret, raise, py_split_last.
      fold (final_segment h). rewrite (truthy_str _ Hseg). reflexivity.
  - intros msg. split; discriminate.
Qed.

End LocationHeader.

(** C1 fails for [create_patient]: the POST succeeds, the response has no
    location header, and the tool answers [success = false]. *)
Lemma create_patient_location_missing :
  let c := warm [Replied created_without_location] in
  fst (make_api_request scripted "POST" "persons" VNone
         (create_payload "Jane" "Doe" "1990-01-01" "F" "555-0100" "jane@example.org" None) c)
  = Ok (envelope_success (VDict []) created_without_location)
  /\ location_header created_without_location = VNone
  /\ fst (create_patient scripted "Jane" "Doe" "1990-01-01" "F" "555-0100"
            "jane@example.org" None c)
     = Ok id_not_retrieved
  /\ py_get id_not_retrieved "success" VNone = Ok (VBool false).
Proof. vm_compute. repeat split. Qed.

Lemma location_header_outcomes_witness :
  fst (book_appointment scripted "p-1" "e-1" "loc-1" "r-1" "2025-01-01T10:00:00" 30
         (warm [Replied created_without_location]))
  = Ok booking_unconfirmed
  /\ fst (create_patient scripted "Jane" "Doe" "1990-01-01" "F" "555-0100"
            "jane@example.org" None (warm [Replied created_at_abc123]))
     = Ok (created (VStr "abc123")).
Proof.
  split.
  - set (c := warm [Replied created_without_location]).
    set (call := make_api_request scripted "POST" "appointments" VNone
                   (booking_payload "p-1" "e-1" "loc-1" "r-1" "2025-01-01T10:00:00" 30) c).
    refine (f_equal fst
              (proj1 (proj1 (location_header_outcomes scripted c (snd call) (VDict [])
                               created_without_location)
                        "p-1" "e-1" "loc-1" "r-1" "2025-01-01T10:00:00" 30 _) _)).
    + vm_compute. reflexivity.
    + reflexivity.
  - set (c := warm [Replied created_at_abc123]).
    set (call := make_api_request scripted "POST" "persons" VNone
                   (create_payload "Jane" "Doe" "1990-01-01" "F" "555-0100"
                      "jane@example.org" None) c).
    refine (f_equal fst
              (proj2 (proj2 (proj1 (proj2 (location_header_outcomes scripted c (snd call)
                                             (VDict []) created_at_abc123))
                               "Jane" "Doe" "1990-01-01" "F" "555-0100" "jane@example.org"
                               None _))
                 "https://api.test/persons/abc123" _ _ _)).
    + vm_compute. reflexivity.
    + reflexivity.
    + discriminate.
    + vm_compute. discriminate.
Defined.

(** ** Slot filtering *)

(** Induction on values, with the hypothesis for every element of a list
    and every value of a dict. *)
Lemma pyval_nested_ind (P : pyval -> Prop)
  (HNone : P VNone) (HBool : forall b, P (VBool b)) (HInt : forall n, P (VInt n))
  (HStr : forall s, P (VStr s))
  (HList : forall l, Forall P l -> P (VList l))
  (HDict : forall d, Forall (fun kv => P (snd kv)) d -> P (VDict d)) :
  forall v, P v.
Proof.
  fix IH 1. intros [| b | n | s | l | d].
  - exact HNone.
  - apply HBool.
  - apply HInt.
  - apply HStr.
  - apply HList. induction l as [|x l IHl]; constructor; [apply IH | exact IHl].
  - apply HDict. induction d as [|[k x] d IHd]; constructor; [apply IH | exact IHd].
Qed.

Lemma py_gt_raises_type_error (a b : pyval) (e : exn) :
  py_gt a b = Raise e -> exn_kind_of e = TypeError.
Proof.
  revert b e. induction a as [| x | n | s | l IHl | d _] using pyval_nested_ind;
    intros b e; cbn [py_gt as_number].
  - intros [= <-]. reflexivity.
  - destruct (as_number b); intros [= <-]; reflexivity.
  - destruct (as_number b); intros [= <-]; reflexivity.
  - destruct b; intros [= <-]; reflexivity.
  - destruct b as [| | | | m |]; try (intros [= <-]; reflexivity).
    revert m. induction IHl as [|x l Hx _ IHgo]; intros m.
    + discriminate.
    + destruct m as [|y m]; [discriminate |].
      destruct (py_eq x y); [apply IHgo | apply Hx].
  - intros [= <-]. reflexivity.
Qed.

Lemma slot_available_dict (d : list (string * pyval)) :
  slot_available (VDict d)
  = py_gt (slot_count "timeslotCount" d) (slot_count "appointmentCount" d).
Proof. reflexivity. Qed.

Lemma filter_slots_dicts (slots : list pyval) :
  Forall (fun s => is_dict s = true) slots ->
  filter_slots slots = Ok (filter kept slots).
Proof.
  induction 1 as [|slot slots Hd _ IH]; [reflexivity |].
  destruct slot as [| | | | | d]; try discriminate.
  cbn [filter_slots filter]. unfold kept at 1. rewrite IH.
  destruct (slot_available (VDict d)) as [[|]|e] eqn:Hs; cbn [res_bind]; try reflexivity.
  rewrite slot_available_dict in Hs.
  rewrite (py_gt_raises_type_error _ _ _ Hs). reflexivity.
Qed.

Section Slots.

Variable H : Host.
Variables category_id start_date : string.

(** The run of [get_available_slots] on a list of slot records. *)
Lemma get_available_slots_run (c c1 : Ctx H) (body : pyval) (r : Response)
  (slots : list pyval) :
  truthy (configured_location H c) = true ->
  make_api_request H "GET" "appointments/slots"
    (slots_params category_id start_date (configured_location H c)) VNone c
  = (Ok (envelope_success body r), c1) ->
  py_get body "items" (VList []) = Ok (VList slots) ->
  Forall (fun s => is_dict s = true) slots ->
  get_available_slots H category_id start_date c = (Ok (slots_found (filter kept slots)), c1).
Proof.
  intros Hloc Hcall Hitems Hdicts.
  unfold get_available_slots, guarded, try_except, get_api_credentials.
  unfold bind at 1. fold (configured_location H c). rewrite Hloc. cbn [negb].
  unfold bind at 1. rewrite Hcall. run_tool.
  rewrite Hitems. cbn [py_len py_iter]. rewrite (filter_slots_dicts slots Hdicts).
  reflexivity.
Qed.

(** C5.  With a location configured, a successful slots call and a list of
    slot records, the tool returns success, and a record of the list is in
    [available_slots] exactly when its [timeslotCount] is greater than its
    [appointmentCount]. *)
Theorem available_slots_are_the_free_ones (c c1 : Ctx H) (body : pyval) (r : Response)
  (slots : list pyval) :
  truthy (configured_location H c) = true ->
  make_api_request H "GET" "appointments/slots"
    (slots_params category_id start_date (configured_location H c)) VNone c
  = (Ok (envelope_success body r), c1) ->
  py_get body "items" (VList []) = Ok (VList slots) ->
  Forall (fun s => is_dict s = true) slots ->
  exists available_slots,
    get_available_slots H category_id start_date c = (Ok (slots_found available_slots), c1)
    /\ (forall d, In (VDict d) available_slots <->
                  In (VDict d) slots
                  /\ py_gt (slot_count "timeslotCount" d) (slot_count "appointmentCount" d)
                     = Ok true)
    /\ (forall d t a,
          In (VDict d) slots ->
          slot_count "timeslotCount" d = VInt t ->
          slot_count "appointmentCount" d = VInt a ->
          (In (VDict d) available_slots <-> a < t)).
Proof.
  intros Hloc Hcall Hitems Hdicts.
  exists (filter kept slots). split; [| split].
  - exact (get_available_slots_run c c1 body r slots Hloc Hcall Hitems Hdicts).
  - intros d. rewrite filter_In. unfold kept. rewrite slot_available_dict.
    destruct (py_gt _ _) as [[|]|e]; split; intros [Hin Hk];
      (split; [exact Hin | congruence]).
  - intros d t a Hin Ht Ha. rewrite filter_In. unfold kept.
    rewrite slot_available_dict, Ht, Ha. cbn [py_gt as_number].
    destruct (a <? t) eqn:Hlt.
    + apply Z.ltb_lt in Hlt. split; [intros _; exact Hlt | intros _; split; [exact Hin | reflexivity]].
    + apply Z.ltb_ge in Hlt. split; [intros [_ Hk]; discriminate | lia].
Qed.

(** C10.  In the same setting a missing count is read as 0: a record
    without [timeslotCount] is kept exactly when [0 > appointmentCount]
    holds, a record without [appointmentCount] exactly when
    [timeslotCount > 0] holds; so a record without [timeslotCount] is not
    in [available_slots] when its [appointmentCount] is missing too or is
    not a negative number. *)
Theorem missing_counts_read_as_zero (c c1 : Ctx H) (body : pyval) (r : Response)
  (slots : list pyval) :
  truthy (configured_location H c) = true ->
  make_api_request H "GET" "appointments/slots"
    (slots_params category_id start_date (configured_location H c)) VNone c
  = (Ok (envelope_success body r), c1) ->
  py_get body "items" (VList []) = Ok (VList slots) ->
  Forall (fun s => is_dict s = true) slots ->
  exists available_slots,
    get_available_slots H category_id start_date c = (Ok (slots_found available_slots), c1)
    /\ (forall d, In (VDict d) slots -> dict_lookup "timeslotCount" d = None ->
          (In (VDict d) available_slots
           <-> py_gt (VInt 0) (slot_count "appointmentCount" d) = Ok true))
    /\ (forall d, In (VDict d) slots -> dict_lookup "appointmentCount" d = None ->
          (In (VDict d) available_slots
           <-> py_gt (slot_count "timeslotCount" d) (VInt 0) = Ok true))
    /\ (forall d, In (VDict d) slots -> dict_lookup "timeslotCount" d = None ->
          (forall n, as_number (slot_count "appointmentCount" d) = Some n -> 0 <= n) ->
          ~ In (VDict d) available_slots).
Proof.
  intros Hloc Hcall Hitems Hdicts.
  exists (filter kept slots). split; [| split; [| split]].
  - exact (get_available_slots_run c c1 body r slots Hloc Hcall Hitems Hdicts).
  - intros d Hin Hmiss. rewrite filter_In. unfold kept. rewrite slot_available_dict.
    unfold slot_count at 1. rewrite Hmiss. cbn [getattr].
    destruct (py_gt _ _) as [[|]|e]; split; try tauto; try discriminate;
      intros [_ Hk]; discriminate.
  - intros d Hin Hmiss. rewrite filter_In. unfold kept. rewrite slot_available_dict.
    unfold slot_count at 2. rewrite Hmiss. cbn [getattr].
    destruct (py_gt _ _) as [[|]|e]; split; try tauto; try discriminate;
      intros [_ Hk]; discriminate.
  - intros d Hin Hmiss Hac. rewrite filter_In. unfold kept. rewrite slot_available_dict.
    unfold slot_count at 1. rewrite Hmiss. cbn [getattr py_gt as_number].
    destruct (as_number (slot_count "appointmentCount" d)) as [n|].
    + assert (Hlt : (n <? 0) = false) by (apply Z.ltb_ge, Hac; reflexivity).
      rewrite Hlt. intros [_ Hk]. discriminate.
    + intros [_ Hk]. discriminate.
Qed.

End Slots.

Lemma available_slots_are_the_free_ones_witness :
  let c := warm [slots_reply] in
  exists available_slots,
    get_available_slots scripted "cat-1" "2025-01-01" c
    = (Ok (slots_found available_slots),
       snd (make_api_request scripted "GET" "appointments/slots"
              (slots_params "cat-1" "2025-01-01" (configured_location scripted c)) VNone c))
    /\ (forall d, In (VDict d) available_slots <->
                  In (VDict d) four_slots
                  /\ py_gt (slot_count "timeslotCount" d) (slot_count "appointmentCount" d)
                     = Ok true)
    /\ (forall d t a,
          In (VDict d) four_slots ->
          slot_count "timeslotCount" d = VInt t ->
          slot_count "appointmentCount" d = VInt a ->
          (In (VDict d) available_slots <-> a < t)).
Proof.
  intros c.
  apply (available_slots_are_the_free_ones scripted "cat-1" "2025-01-01" c _
           (VDict [("items", VList four_slots)])
           (mkResponse 200 [("Content-Type", "application/json")] "{...}"
              (Some (VDict [("items", VList four_slots)])))
           four_slots).
  - reflexivity.
  - vm_compute. reflexivity.
  - reflexivity.
  - repeat constructor.
Defined.

Lemma missing_counts_read_as_zero_witness :
  let c := warm [slots_reply] in
  fst (get_available_slots scripted "cat-1" "2025-01-01" c)
  = Ok (slots_found [slot_free; slot_without_appointments])
  /\ ~ In slot_without_timeslots [slot_free; slot_without_appointments].
Proof.
  intros c.
  destruct (missing_counts_read_as_zero scripted "cat-1" "2025-01-01" c
              (snd (make_api_request scripted "GET" "appointments/slots"
                      (slots_params "cat-1" "2025-01-01" (configured_location scripted c))
                      VNone c))
              (VDict [("items", VList four_slots)])
              (mkResponse 200 [("Content-Type", "application/json")] "{...}"
                 (Some (VDict [("items", VList four_slots)])))
              four_slots)
    as [available_slots [Hrun [_ [_ Hzero]]]].
  - reflexivity.
  - vm_compute. reflexivity.
  - reflexivity.
  - repeat constructor.
  - assert (Heq : available_slots = [slot_free; slot_without_appointments]).
    { assert (Hgo : get_available_slots scripted "cat-1" "2025-01-01" c
                    = (Ok (slots_found [slot_free; slot_without_appointments]),
                       snd (make_api_request scripted "GET" "appointments/slots"
                              (slots_params "cat-1" "2025-01-01"
                                 (configured_location scripted c)) VNone c)))
        by (vm_compute; reflexivity).
      rewrite Hgo in Hrun. injection Hrun as Hrun. symmetry. exact Hrun. }
    subst available_slots. split.
    + rewrite Hrun. reflexivity.
    + apply (Hzero [("id", VStr "s3"); ("appointmentCount", VInt 0)]).
      * cbn. tauto.
      * reflexivity.
      * intros n [= <-]. lia.
Defined.

(** ** Reason resolution *)

Lemma py_eq_str (v : pyval) (t : string) : py_eq v (VStr t) = true -> v = VStr t.
Proof.
  destruct v; cbn; try discriminate.
  intros Heq. apply String.eqb_eq in Heq. congruence.
Qed.

Lemma find_reason_no_match (target : string) (reasons : list pyval) :
  (forall reason, In reason reasons -> py_get reason "name" VNone <> Ok (VStr target)) ->
  (find_reason target reasons = Ok VNone \/ exists e, find_reason target reasons = Raise e)
  /\ (Forall (fun reason => is_dict reason = true) reasons ->
      find_reason target reasons = Ok VNone).
Proof.
  induction reasons as [|reason reasons IH]; intros Hno.
  - split; [left |]; reflexivity.
  - assert (Hrest : forall x, In x reasons -> py_get x "name" VNone <> Ok (VStr target))
      by (intros x Hx; apply Hno; right; exact Hx).
    specialize (IH Hrest). destruct IH as [IHany IHdict].
    assert (Hhere := Hno reason (or_introl eq_refl)).
    cbn [find_reason].
    destruct (py_get reason "name" VNone) as [name|e] eqn:Hname; cbn [res_bind].
    + destruct (py_eq name (VStr target)) eqn:Heq.
      * apply py_eq_str in Heq. congruence.
      * split; [exact IHany |]. intros Hd. inversion Hd; subst. auto.
    + split; [right; eauto |].
      intros Hd. inversion Hd as [|? ? Hr _]; subst.
      destruct reason; discriminate.
Qed.

Section Reasons.

Variable H : Host.

(** C7.  When the reasons call succeeds and no entry of its list is named
    exactly "Patient Request" (for rescheduling) or "Appointment No Longer
    Needed" (for cancelling), the tool stops in the context the reasons call
    left: it sends nothing more, so the POST to the reschedule or cancel
    sub-resource is not issued; and for a list of reason records it returns
    the failure envelope that names the missing reason. *)
Theorem no_reason_no_post (c c1 : Ctx H) (body : pyval) (r : Response)
  (reasons : list pyval) :
  py_get body "items" (VList []) = Ok (VList reasons) ->
  (forall appointment_id event_id location_id resource_id appointment_date duration_minutes,
      make_api_request H "GET" "master/list-items" (reasons_params "as_resched_reason") VNone c
      = (Ok (envelope_success body r), c1) ->
      (forall reason, In reason reasons ->
                      py_get reason "name" VNone <> Ok (VStr "Patient Request")) ->
      let run := reschedule_appointment H appointment_id event_id location_id resource_id
                   appointment_date duration_minutes c in
      snd run = c1
      /\ (Forall (fun reason => is_dict reason = true) reasons ->
          fst run = Ok no_reschedule_reason))
  /\ (forall appointment_id,
        make_api_request H "GET" "master/list-items" (reasons_params "as_cancel_reason") VNone c
        = (Ok (envelope_success body r), c1) ->
        (forall reason, In reason reasons ->
                        py_get reason "name" VNone <> Ok (VStr "Appointment No Longer Needed")) ->
        let run := cancel_appointment H appointment_id c in
        snd run = c1
        /\ (exists msg, fst run = Ok (envelope_failure msg))
        /\ (Forall (fun reason => is_dict reason = true) reasons ->
            fst run = Ok no_cancel_reason)).
Proof.
  intros Hitems. split.
  - intros appointment_id event_id location_id resource_id appointment_date duration_minutes
      Hcall Hno run.
    destruct (find_reason_no_match "Patient Request" reasons Hno) as [Hany Hdict].
    assert (Hnone : find_reason "Patient Request" reasons = Ok VNone ->
                    run = (Ok no_reschedule_reason, c1)).
    { intros Hf. subst run. unfold reschedule_appointment, try_with_headers.
      unfold bind at 1. unfold try_except at 1. unfold bind at 1. rewrite Hcall.
      run_tool. rewrite Hitems. cbn [py_iter]. rewrite Hf. reflexivity. }
    assert (Hraise : forall e, find_reason "Patient Request" reasons = Raise e ->
                               snd run = c1).
    { intros e Hf. subst run. unfold reschedule_appointment, try_with_headers.
      unfold bind at 1. unfold try_except at 1. unfold bind at 1. rewrite Hcall.
      run_tool. rewrite Hitems. cbn [py_iter]. rewrite Hf.
      unfold parse_clauses, bind, ret, raise.
      destruct (attr_index_or_type_error e); reflexivity. }
    split.
    + destruct Hany as [Hf | [e Hf]]; [rewrite (Hnone Hf); reflexivity | exact (Hraise e Hf)].
    + intros Hd. rewrite (Hnone (Hdict Hd)). reflexivity.
  - intros appointment_id Hcall Hno run.
    destruct (find_reason_no_match "Appointment No Longer Needed" reasons Hno) as [Hany Hdict].
    assert (Hnone : find_reason "Appointment No Longer Needed" reasons = Ok VNone ->
                    run = (Ok no_cancel_reason, c1)).
    { intros Hf. subst run. unfold cancel_appointment, guarded, try_except.
      unfold bind at 1. rewrite Hcall.
      run_tool. rewrite Hitems. cbn [py_iter]. rewrite Hf. reflexivity. }
    assert (Hraise : forall e, find_reason "Appointment No Longer Needed" reasons = Raise e ->
                               run = (Ok (internal_error e), c1)).
    { intros e Hf. subst run. unfold cancel_appointment, guarded, try_except.
      unfold bind at 1. rewrite Hcall.
      run_tool. rewrite Hitems. cbn [py_iter]. rewrite Hf. reflexivity. }
    split; [| split].
    + destruct Hany as [Hf | [e Hf]]; [rewrite (Hnone Hf) | rewrite (Hraise e Hf)];
        reflexivity.
    + destruct Hany as [Hf | [e Hf]]; [rewrite (Hnone Hf) | rewrite (Hraise e Hf)];
        eexists; reflexivity.
    + intros Hd. rewrite (Hnone (Hdict Hd)). reflexivity.
Qed.

End Reasons.

Lemma no_reason_no_post_witness :
  let c := warm [json_reply 200 "{...}" other_reasons] in
  fst (reschedule_appointment scripted "a-1" "e-1" "loc-1" "r-1" "2025-01-02T09:00:00" 30 c)
  = Ok no_reschedule_reason
  /\ fst (cancel_appointment scripted "a-1" c) = Ok no_cancel_reason
  /\ List.length (wire (snd (cancel_appointment scripted "a-1" c))) = 1%nat.
Proof.
  intros c.
  set (reply := mkResponse 200 [("Content-Type", "application/json")] "{...}"
                  (Some other_reasons)).
  set (reasons := [ VDict [("id", VStr "r1"); ("name", VStr "Provider Request")];
                    VDict [("id", VStr "r2"); ("name", VStr "patient request")] ]).
  assert (Hitems : py_get other_reasons "items" (VList []) = Ok (VList reasons))
    by reflexivity.
  assert (Hdicts : Forall (fun reason => is_dict reason = true) reasons)
    by (repeat constructor).
  split; [| split].
  - set (c1 := snd (make_api_request scripted "GET" "master/list-items"
                      (reasons_params "as_resched_reason") VNone c)).
    refine (proj2 (proj1 (no_reason_no_post scripted c c1 other_reasons reply reasons Hitems)
                     "a-1" "e-1" "loc-1" "r-1" "2025-01-02T09:00:00" 30 _ _) Hdicts).
    + vm_compute. reflexivity.
    + intros reason [<- | [<- | []]]; discriminate.
  - set (c1 := snd (make_api_request scripted "GET" "master/list-items"
                      (reasons_params "as_cancel_reason") VNone c)).
    refine (proj2 (proj2 (proj2 (no_reason_no_post scripted c c1 other_reasons reply reasons
                                   Hitems)
                            "a-1" _ _)) Hdicts).
    + vm_compute. reflexivity.
    + intros reason [<- | [<- | []]]; discriminate.
  - set (c1 := snd (make_api_request scripted "GET" "master/list-items"
                      (reasons_params "as_cancel_reason") VNone c)).
    rewrite (proj1 (proj2 (no_reason_no_post scripted c c1 other_reasons reply reasons Hitems)
                      "a-1"
                      ltac:(vm_compute; reflexivity)
                      ltac:(intros reason [<- | [<- | []]]; discriminate))).
    reflexivity.
Defined.

(** ** The token cache *)

Section TokenCache.

Variable H : Host.
Variable creds : list (string * pyval).

(** A refresh ends normally after one HTTP call, the token request. *)
Lemma refresh_sends_one_request (c : Ctx H) :
  truthy (getattr (access_token (session c)) VNone)
  && (clock H (world c) <? getattr (token_expiration (session c)) 0 - 60) = false ->
  exists result c',
    get_access_token H creds c = (Ok result, c')
    /\ wire c' = (wire c ++ [token_request creds])%list.
Proof.
  intros Hcond.
  unfold get_access_token, bind, read_session, time_time. rewrite Hcond.
  unfold try_except, bind, client_send.
  destruct (http_send H (world c) (token_request creds)) as [[msg | r] w];
    [do 2 eexists; repeat split |].
  unfold raise_for_status.
  destruct (is_success (status_code r)); [| do 2 eexists; repeat split].
  unfold ret, response_json.
  destruct (resp_json r) as [token_data |]; [| do 2 eexists; repeat split].
  unfold ret, lift, raise.
  destruct (py_get token_data "access_token" VNone) as [tok | e1];
    [| do 2 eexists; repeat split].
  destruct (py_get token_data "expires_in" (VInt 3600)) as [expires_in | e2];
    [| do 2 eexists; repeat split].
  unfold update_session, time_time. cbn [world session scope_headers wire].
  destruct (add_seconds (clock H w) expires_in) as [t | e3];
    do 2 eexists; repeat split.
Qed.

(** C4.  With a cached token that has more than 60 seconds left the token
    is returned and the context (session, world, log of HTTP calls) is
    unchanged.  Without a cached token, or with 60 seconds or less left,
    the function returns after exactly one HTTP call, the POST of the token
    request to the auth URL, and the outcome of that call decides the rest:
    - no token object (client error, status outside 2xx, body no JSON
      object): [None] is returned and the session is as before;
    - a token object: its [access_token] is stored and returned, with the
      expiry [time.time() + expires_in] (3600 without that field); when the
      sum raises, the token is stored, the expiry is the old one and [None]
      is returned. *)
Theorem token_cache (c : Ctx H) :
  let token := getattr (access_token (session c)) VNone in
  let expiry := getattr (token_expiration (session c)) 0 in
  let now := clock H (world c) in
  (truthy token = true -> 60 < expiry - now ->
   get_access_token H creds c = (Ok token, c))
  /\ (truthy token = false \/ expiry - now <= 60 ->
      let rq := token_request creds in
      rq_method rq = "POST"
      /\ rq_url rq = cred creds "AUTH_URL"
      /\ forall o w, http_send H (world c) rq = (o, w) ->
         exists result c',
           get_access_token H creds c = (Ok result, c')
           /\ wire c' = (wire c ++ [rq])%list
           /\ world c' = w
           /\ scope_headers c' = scope_headers c
           /\ (exchange_failed o -> result = VNone /\ session c' = session c)
           /\ (forall d, granted o d ->
                 let new := getattr (dict_lookup "access_token" d) VNone in
                 let expires_in := getattr (dict_lookup "expires_in" d) (VInt 3600) in
                 match add_seconds (clock H w) expires_in with
                 | Ok e =>
                     result = new
                     /\ session c' = mkSession (Some new) (Some e) (x_ng_sessionid (session c))
                 | Raise _ =>
                     result = VNone
                     /\ session c' = mkSession (Some new) (token_expiration (session c))
                                       (x_ng_sessionid (session c))
                 end)).
Proof.
  intros token expiry now. split.
  - intros Htok Hleft.
    unfold get_access_token, bind, read_session, time_time.
    fold token expiry now. rewrite Htok.
    assert (Hlt : (now <? expiry - 60) = true) by (apply Z.ltb_lt; lia).
    rewrite Hlt. reflexivity.
  - intros Hmiss rq.
    assert (Hcond : truthy token && (now <? expiry - 60) = false).
    { destruct Hmiss as [-> | Hleft]; [reflexivity |].
      apply andb_false_iff. right. apply Z.ltb_ge. lia. }
    split; [reflexivity | split; [reflexivity |]]. intros o w Hsend.
    unfold get_access_token, bind, read_session, time_time.
    fold token expiry now. rewrite Hcond.
    unfold try_except, bind, client_send. fold rq. rewrite Hsend.
    destruct o as [msg | r].
    { do 2 eexists. split; [reflexivity |]. cbn [wire world scope_headers session].
      repeat split. intros d [r [Hr _]]. discriminate. }
    unfold raise_for_status. destruct (is_success (status_code r)) eqn:Hstatus.
    2: { do 2 eexists. split; [reflexivity |]. cbn [wire world scope_headers session].
         repeat split. intros d [r' [Hr [Hs _]]]. injection Hr as <-. congruence. }
    unfold ret, response_json. destruct (resp_json r) as [token_data |] eqn:Hjson.
    2: { do 2 eexists. split; [reflexivity |]. cbn [wire world scope_headers session].
         repeat split. intros d [r' [Hr [_ Hj]]]. injection Hr as <-. congruence. }
    unfold ret, lift, raise.
    destruct token_data as [| b | n | s | l | d];
      try (do 2 eexists; split; [reflexivity |]; cbn [wire world scope_headers session];
           repeat split; intros d [r' [Hr [_ Hj]]]; injection Hr as <-; congruence).
    cbn [py_get]. unfold update_session, time_time. cbn [world session scope_headers wire].
    destruct (add_seconds (clock H w) _) as [e | e3] eqn:Hsum;
      (do 2 eexists; split; [reflexivity |]; cbn [wire world scope_headers session];
       split; [reflexivity |]; split; [reflexivity |]; split; [reflexivity |]; split;
       [ intros [Hs | [Hj | [v [Hj Hv]]]];
         [congruence | congruence
         | rewrite Hjson in Hj; injection Hj as <-; discriminate]
       | intros d' [r' [Hr [_ Hj]]]; injection Hr as <-;
         rewrite Hjson in Hj; injection Hj as <-;
         cbn zeta; unfold getattr; rewrite Hsum; split; reflexivity ]).
Qed.

(** X21.  A token exchange that fails before the response body is read as
    an object (HTTP client error, status outside 2xx, a body that is no
    JSON or no object) returns [None] and leaves the session as it was. *)
Lemma token_failure_keeps_session (c : Ctx H) (o : HttpOutcome) (w : World H) :
  truthy (getattr (access_token (session c)) VNone)
  && (clock H (world c) <? getattr (token_expiration (session c)) 0 - 60) = false ->
  http_send H (world c) (token_request creds) = (o, w) ->
  match o with
  | Failed _ => True
  | Replied r =>
      is_success (status_code r) = false
      \/ resp_json r = None
      \/ exists v, resp_json r = Some v /\ is_dict v = false
  end ->
  fst (get_access_token H creds c) = Ok VNone
  /\ session (snd (get_access_token H creds c)) = session c.
Proof.
  intros Hmiss Hsend Hfail.
  unfold get_access_token, bind, read_session, time_time. rewrite Hmiss.
  unfold try_except, bind, client_send. rewrite Hsend.
  destruct o as [msg | r]; [split; reflexivity |].
  unfold raise_for_status.
  destruct Hfail as [Hst | [Hjs | [v [Hjs Hv]]]].
  - rewrite Hst. split; reflexivity.
  - destruct (is_success (status_code r)); [| split; reflexivity].
    unfold ret, response_json. rewrite Hjs. split; reflexivity.
  - destruct (is_success (status_code r)); [| split; reflexivity].
    unfold ret, response_json. rewrite Hjs.
    destruct v; try discriminate; split; reflexivity.
Qed.

End TokenCache.

Lemma token_cache_witness :
  let creds := credentials scripted [] in
  get_access_token scripted creds (warm []) = (Ok (VStr "tok"), warm [])
  /\ exists c',
       get_access_token scripted creds (stale [first_token]) = (Ok (VStr "t1"), c')
       /\ wire c' = [token_request creds]
       /\ rq_url (token_request creds) = VStr "https://auth.test/token"
       /\ session c' = mkSession (Some (VStr "t1")) (Some 2800) None.
Proof.
  intros creds. split.
  - apply (proj1 (token_cache scripted creds (warm []))).
    + reflexivity.
    + vm_compute. reflexivity.
  - destruct (proj2 (token_cache scripted creds (stale [first_token])))
      as [_ [Hurl Hrun]].
    + right. vm_compute. discriminate.
    + destruct (Hrun first_token (mkScript [] 1000) eq_refl)
        as [result [c' [Hget [Hwire [_ [_ [_ Hgranted]]]]]]].
      specialize (Hgranted [("access_token", VStr "t1"); ("expires_in", VInt 1800)]).
      destruct Hgranted as [Hresult Hsession].
      * eexists. repeat split; reflexivity.
      * exists c'. rewrite Hget, Hresult.
        split; [reflexivity | split; [exact Hwire | split; [exact Hurl | exact Hsession]]].
Defined.

(** C8 fails on the code.  The token endpoint answers 200 with an object
    whose [expires_in] is a string: the function returns [None], yet the
    session now holds the new token next to the old expiry.  With an object
    that has no [access_token] it returns [None] too, after storing [None]
    as token and a new expiry. *)
Theorem token_refresh_writes_before_failing :
  let run := get_access_token scripted [] (stale [json_reply 200 "{...}" token_with_text_expiry]) in
  let run' := get_access_token scripted [] (stale [json_reply 200 "{}" (VDict [])]) in
  fst run = Ok VNone
  /\ session (snd run) = mkSession (Some (VStr "new")) (Some 100) None
  /\ session (snd run) <> stale_session
  /\ fst run' = Ok VNone
  /\ session (snd run') = mkSession (Some VNone) (Some 4600) None.
Proof. vm_compute. repeat split. discriminate. Qed.

(** ** Exceptions at the tool boundary *)

(** C9 fails on the code.  The upstream answers 200 with [{"items": null}]:
    [get_patient] lets the [TypeError] of [len(None)] out, and
    [reschedule_appointment] enters its first [except] clause, which reads
    the unassigned local [headers], and lets that [UnboundLocalError] out. *)
Theorem exceptions_leave_the_tools :
  fst (get_patient scripted "Jane" "Doe" "1990-01-01" None
         (warm [json_reply 200 "{...}" null_items]))
  = Raise (mkExn TypeError "object of type 'NoneType' has no len()")
  /\ fst (reschedule_appointment scripted "a-1" "e-1" "loc-1" "r-1" "2025-01-02T09:00:00" 30
            (warm [json_reply 200 "{...}" null_items]))
     = Raise headers_unbound.
Proof. vm_compute. split; reflexivity. Qed.

(** ** Session invalidation *)

Section SessionInvalidation.

Variable H : Host.
Variables method endpoint : string.
Variables params json_data : pyval.

(** C3.  Let the dispatcher hold a token and a session id ([c2] is the
    context once both are in hand) and let the upstream answer its request
    with a status outside 2xx and a body whose lower-cased text contains
    "session".  Then the call returns the failure envelope with the status
    code and the body text, and ends in the context [c2] with the session
    id removed, the request logged and the world moved on: the token and
    its expiry are those of [c2]. *)
Theorem session_error_clears_session_id (c c1 c2 : Ctx H) (token sid : pyval)
  (r : Response) (w : World H) :
  let creds := credentials H (scope_headers c) in
  let rq := api_request creds token sid method endpoint params json_data in
  get_access_token H creds c = (Ok token, c1) ->
  get_session_id H creds c1 = (Ok sid, c2) ->
  truthy token = true ->
  truthy sid = true ->
  http_send H (world c2) rq = (Replied r, w) ->
  is_success (status_code r) = false ->
  contains "session" (lower (resp_text r)) = true ->
  exists c3,
    make_api_request H method endpoint params json_data c
    = (Ok (envelope_failure ("API Error: " ++ string_of_Z (status_code r) ++ " - "
                             ++ resp_text r)), c3)
    /\ c3 = mkCtx H (del_x_ng_sessionid (session c2)) (scope_headers c2) w
              (wire c2 ++ [rq])
    /\ x_ng_sessionid (session c3) = None
    /\ access_token (session c3) = access_token (session c2)
    /\ token_expiration (session c3) = token_expiration (session c2).
Proof.
  intros creds rq Htoken Hsid Htok Hs Hsend Hstatus Hsession.
  eexists. split; [| split; [reflexivity | repeat split]].
  unfold make_api_request, get_api_credentials.
  unfold bind at 1. fold creds.
  replace (negb (truthy (VDict creds))) with false by reflexivity.
  unfold bind at 1. rewrite Htoken.
  unfold bind at 1. rewrite Hsid.
  rewrite Htok, Hs. cbn [negb orb].
  unfold try_except. unfold bind at 1. unfold client_send. fold rq. rewrite Hsend.
  unfold bind at 1. unfold raise_for_status. rewrite Hstatus.
  unfold raise. cbn [exn_kind_of exn_response].
  unfold on_status_error. rewrite Hsession.
  unfold bind, read_session, update_session, ret. cbn [session scope_headers world wire].
  destruct (session c2) as [a t [x |]]; reflexivity.
Qed.

End SessionInvalidation.

Lemma session_error_clears_session_id_witness :
  let c := warm [Replied session_expired] in
  exists c3,
    make_api_request scripted "GET" "persons/lookup" VNone VNone c
    = (Ok (envelope_failure "API Error: 401 - Invalid Session: the session has expired"), c3)
    /\ session c3 = mkSession (Some (VStr "tok")) (Some 5000) None.
Proof.
  intros c.
  destruct (session_error_clears_session_id scripted "GET" "persons/lookup" VNone VNone
              c c c (VStr "tok") (VStr "sid") session_expired (mkScript [] 1000))
    as [c3 [Hrun [Hc3 _]]]; try reflexivity.
  exists c3. split.
  - exact Hrun.
  - rewrite Hc3. reflexivity.
Defined.

(** ** Appointment listing *)



(** ** Coroutines and [asyncio.gather] *)

Section Tasks.

Variable H : Host.

Lemma run_at_once {A} (m : M H A) (c : Ctx H) : run_task (at_once m c) = m c.
Proof. unfold at_once. destruct (m c). reflexivity. Qed.

Lemma run_and_then {A B} (t : Task H A) (k : A -> Co H B) :
  run_task (and_then t k)
  = match run_task t with
    | (Ok a, c') => run_task (k a c')
    | (Raise e, c') => (Raise e, c')
    end.
Proof.
  induction t as [[a | e] c | rq c resume IH]; cbn [and_then run_task]; try reflexivity.
  destruct (http_send H (world c) rq) as [o w]. apply IH.
Qed.

Lemma run_rescue {A} (t : Task H A) (handler : exn -> option (Co H A)) :
  run_task (rescue t handler)
  = match run_task t with
    | (Ok a, c') => (Ok a, c')
    | (Raise e, c') =>
        match handler e with
        | Some h => run_task (h c')
        | None => (Raise e, c')
        end
    end.
Proof.
  induction t as [[a | e] c | rq c resume IH]; cbn [rescue run_task]; try reflexivity.
  - destruct (handler e); reflexivity.
  - destruct (http_send H (world c) rq) as [o w]. apply IH.
Qed.

Lemma run_co_bind {A B} (m : Co H A) (k : A -> Co H B) (m' : M H A) (k' : A -> M H B)
  (c : Ctx H) :
  run_task (m c) = m' c ->
  (forall a c', run_task (k a c') = k' a c') ->
  run_task (co_bind m k c) = bind m' k' c.
Proof.
  intros Hm Hk. unfold co_bind, bind. rewrite run_and_then, Hm.
  destruct (m' c) as [[a | e] c']; [apply Hk | reflexivity].
Qed.

Lemma run_co_try_except {A} (body : Co H A) (h : Co H A) (body' h' : M H A) (c : Ctx H) :
  run_task (body c) = body' c ->
  (forall c', run_task (h c') = h' c') ->
  run_task (co_try_except body (fun _ => Some h) c) = try_except body' (fun _ => Some h') c.
Proof.
  intros Hbody Hh. unfold co_try_except, try_except. rewrite run_rescue, Hbody.
  destruct (body' c) as [[a | e] c']; [reflexivity | apply Hh].
Qed.

Lemma run_client_send (rq : HttpRequest) (c : Ctx H) :
  run_task (co_client_send H rq c) = client_send H rq c.
Proof.
  unfold co_client_send, client_send. cbn [run_task].
  destruct (http_send H (world c) rq) as [[msg | r] w]; reflexivity.
Qed.

Ltac run_steps :=
  repeat first
    [ simple apply run_at_once
    | simple apply run_client_send
    | simple apply run_co_bind; [| intros ? ?]
    | simple apply run_co_try_except; [| intros ?]
    | match goal with |- context [if ?b then _ else _] => destruct b end ].

(** Awaited on its own, a coroutine of the dispatcher does what the
    definition without the waits says. *)
Lemma co_get_access_token_run (creds : list (string * pyval)) (c : Ctx H) :
  run_task (co_get_access_token H creds c) = get_access_token H creds c.
Proof. unfold co_get_access_token, get_access_token. run_steps. Qed.

Lemma co_get_session_id_run (creds : list (string * pyval)) (c : Ctx H) :
  run_task (co_get_session_id H creds c) = get_session_id H creds c.
Proof.
  unfold co_get_session_id, get_session_id. run_steps.
  apply co_get_access_token_run.
Qed.

Lemma co_make_api_request_run (method endpoint : string) (params json_data : pyval)
  (c : Ctx H) :
  run_task (co_make_api_request H method endpoint params json_data c)
  = make_api_request H method endpoint params json_data c.
Proof.
  unfold co_make_api_request, make_api_request. run_steps.
  - apply co_get_access_token_run.
  - apply co_get_session_id_run.
  - unfold co_try_except, try_except. rewrite run_rescue.
    erewrite run_co_bind; [| apply run_client_send | intros; apply run_at_once].
    match goal with |- match ?m with _ => _ end = _ => destruct m as [[v | e] c4] end;
      [reflexivity |].
    destruct (exn_kind_of e); try apply run_at_once.
    destruct (exn_response e); apply run_at_once.
Qed.

Lemma co_get_appointment_details_run (appt : pyval) (c : Ctx H) :
  run_task (co_get_appointment_details H appt c) = get_appointment_details H appt c.
Proof.
  unfold co_get_appointment_details, get_appointment_details. run_steps.
  apply co_make_api_request_run.
Qed.













Lemma funded_settled {A} (slots : list (Slot H A)) : funded slots 0 -> parked slots = O.
Proof.
  induction slots as [|[[a | e] | o resume] slots IH]; cbn [funded parked].
  - reflexivity.
  - exact IH.
  - contradiction.
  - intros [k [j [Hsum _]]]. lia.
Qed.


Lemma park_length {A} (t : Task H A) (rest : list (Slot H A)) :
  List.length (fst (park t) :: rest) = S (List.length rest).
Proof. reflexivity. Qed.







End Tasks.

(** ** What the listing returns *)





Lemma none_is_falsy (v : pyval) : is_none v = true -> truthy v = false.
Proof. destruct v; easy. Qed.




Section Listing.

Variable H : Host.
Variable person_id : string.



End Listing.



(** The detail requests are all out before a reply is handled: a first
    reply that invalidates the session does not hold up the second fetch. *)
Example detail_fetches_overlap :
  let c := warm [summary_reply; Replied session_expired; json_reply 200 "{...}" detail_a2] in
  let run := get_patient_appointments scripted "p-1" c in
  (exists entry, fst run = Ok (appointments_found [entry]))
  /\ map rq_method (wire (snd run)) = ["GET"; "GET"; "GET"]
  /\ x_ng_sessionid (session (snd run)) = None.
Proof. vm_compute. split; [eexists; reflexivity | split; reflexivity]. Qed.

(** ** The dispatcher always answers with an envelope *)

(** With an empty session the dispatcher fetches a token, then a session
    id, then sends the request; both are cached with the expiry. *)
Example first_call :
  let run := get_patient scripted "Jane" "Doe" "1990-01-01" None (cold first_call_replies 1000) in
  fst run = Ok not_found
  /\ session (snd run) = mkSession (Some (VStr "t1")) (Some 2800) (Some "s1")
  /\ map rq_method (wire (snd run)) = ["POST"; "PUT"; "GET"].
Proof. vm_compute. repeat split. Qed.

Section Dispatcher.

Variable H : Host.

Lemma get_access_token_returns (creds : list (string * pyval)) (c : Ctx H) :
  exists v c', get_access_token H creds c = (Ok v, c').
Proof.
  destruct (truthy (getattr (access_token (session c)) VNone)
            && (clock H (world c) <? getattr (token_expiration (session c)) 0 - 60))
    eqn:Hhit.
  - unfold get_access_token, bind, read_session, time_time. rewrite Hhit.
    do 2 eexists. reflexivity.
  - destruct (refresh_sends_one_request H creds c Hhit) as [v [c' [Hrun _]]]. eauto.
Qed.

Lemma get_session_id_returns (creds : list (string * pyval)) (c : Ctx H) :
  exists v c', get_session_id H creds c = (Ok v, c').
Proof.
  unfold get_session_id, bind, read_session.
  destruct (truthy (opt_str (x_ng_sessionid (session c)))); [do 2 eexists; reflexivity |].
  destruct (get_access_token_returns creds c) as [token [c1 ->]].
  destruct (truthy token); cbn [negb]; [| do 2 eexists; reflexivity].
  unfold try_except, bind, client_send.
  destruct (http_send H (world c1) (login_defaults_request creds token)) as [[msg | r] w];
    [do 2 eexists; reflexivity |].
  unfold raise_for_status.
  destruct (is_success (status_code r)); [| do 2 eexists; reflexivity].
  unfold ret. destruct (truthy _); do 2 eexists; reflexivity.
Qed.

Lemma make_api_request_returns (method endpoint : string) (params json_data : pyval)
  (c : Ctx H) :
  exists envelope c',
    make_api_request H method endpoint params json_data c = (Ok envelope, c')
    /\ ((exists msg, envelope = envelope_failure msg)
        \/ (exists body r, envelope = envelope_success body r)).
Proof.
  unfold make_api_request, get_api_credentials.
  unfold bind at 1.
  replace (negb (truthy (VDict (credentials H (scope_headers c))))) with false by reflexivity.
  unfold bind at 1.
  destruct (get_access_token_returns (credentials H (scope_headers c)) c)
    as [token [c1 ->]].
  unfold bind at 1.
  destruct (get_session_id_returns (credentials H (scope_headers c)) c1) as [sid [c2 ->]].
  destruct (negb (truthy token) || negb (truthy sid)); [do 2 eexists; (split; [reflexivity | eauto]) |].
  unfold try_except, bind, client_send.
  match goal with |- context [http_send H (world c2) ?rq] =>
    destruct (http_send H (world c2) rq) as [[msg | r] w] end;
    [do 2 eexists; (split; [reflexivity | eauto]) |].
  unfold raise_for_status.
  destruct (is_success (status_code r)).
  - unfold ret.
    destruct (negb _ && truthy _).
    + unfold response_json. destruct (resp_json r); do 2 eexists; (split; [reflexivity | eauto]).
    + do 2 eexists; (split; [reflexivity | eauto]).
  - unfold raise. cbn [exn_kind_of exn_response].
    unfold on_status_error, bind, read_session, update_session, ret.
    destruct (contains "session" (lower (resp_text r)));
      [destruct (x_ng_sessionid _) |]; do 2 eexists; (split; [reflexivity | eauto]).
Qed.

End Dispatcher.

(** * Further properties of the gateway *)

Section GatewayTraffic.

Variable H : Host.
Variable creds : list (string * pyval).

Lemma get_access_token_traffic (c : Ctx H) :
  exists v c' sent,
    get_access_token H creds c = (Ok v, c')
    /\ wire c' = (wire c ++ sent)%list
    /\ Forall (auth_request creds) sent
    /\ (List.length sent <= 1)%nat.
Proof.
  destruct (truthy (getattr (access_token (session c)) VNone)
            && (clock H (world c) <? getattr (token_expiration (session c)) 0 - 60))
    eqn:Hhit.
  - exists (getattr (access_token (session c)) VNone), c, [].
    unfold get_access_token, bind, read_session, time_time. rewrite Hhit.
    rewrite app_nil_r. repeat split; [constructor | cbn; lia].
  - destruct (refresh_sends_one_request H creds c Hhit) as [v [c' [Hrun Hwire]]].
    exists v, c', [token_request creds].
    repeat split; try assumption; [| cbn; lia].
    constructor; [left; reflexivity | constructor].
Qed.

Lemma get_session_id_traffic (c : Ctx H) :
  exists v c' sent,
    get_session_id H creds c = (Ok v, c')
    /\ wire c' = (wire c ++ sent)%list
    /\ Forall (auth_request creds) sent
    /\ (List.length sent <= 2)%nat.
Proof.
  unfold get_session_id, bind, read_session.
  destruct (truthy (opt_str (x_ng_sessionid (session c)))).
  { exists (opt_str (x_ng_sessionid (session c))), c, [].
    rewrite app_nil_r. repeat split; [constructor | cbn; lia]. }
  destruct (get_access_token_traffic c) as [token [c1 [sent [-> [Hw [Hauth Hlen]]]]]].
  destruct (truthy token); cbn [negb].
  2:{ exists VNone, c1, sent. repeat split; try assumption. lia. }
  assert (Hboth : Forall (auth_request creds)
                    (sent ++ [login_defaults_request creds token])).
  { apply Forall_app. split; [exact Hauth |].
    constructor; [right; eexists; reflexivity | constructor]. }
  assert (Hcount : (List.length (sent ++ [login_defaults_request creds token]) <= 2)%nat).
  { rewrite length_app. cbn. lia. }
  assert (Hwire : (wire c1 ++ [login_defaults_request creds token]
                   = wire c ++ sent ++ [login_defaults_request creds token])%list).
  { rewrite Hw, <- app_assoc. reflexivity. }
  unfold try_except, bind, client_send.
  destruct (http_send H (world c1) (login_defaults_request creds token)) as [[msg | r] w].
  { do 3 eexists. repeat split; [exact Hwire | exact Hboth | exact Hcount]. }
  unfold raise_for_status.
  destruct (is_success (status_code r)).
  2:{ do 3 eexists. repeat split; [exact Hwire | exact Hboth | exact Hcount]. }
  unfold ret. destruct (truthy _).
  - do 3 eexists. repeat split; [exact Hwire | exact Hboth | exact Hcount].
  - do 3 eexists. repeat split; [exact Hwire | exact Hboth | exact Hcount].
Qed.

End GatewayTraffic.

Section DispatcherTraffic.

Variable H : Host.
Variables method endpoint : string.
Variables params json_data : pyval.

(** The run of the dispatcher once the credentials are read. *)
Lemma dispatcher_traffic (c : Ctx H) :
  let creds := credentials H (scope_headers c) in
  exists envelope c' auth api,
    make_api_request H method endpoint params json_data c = (Ok envelope, c')
    /\ dispatcher_envelope envelope
    /\ wire c' = (wire c ++ auth ++ api)%list
    /\ Forall (auth_request creds) auth
    /\ (List.length auth <= 3)%nat
    /\ (api = []
        \/ exists access_token session_id,
             api = [api_request creds access_token session_id method endpoint
                      params json_data]).
Proof.
  intros creds.
  unfold make_api_request, get_api_credentials.
  unfold bind at 1. fold creds.
  replace (negb (truthy (VDict creds))) with false by reflexivity.
  unfold bind at 1.
  destruct (get_access_token_traffic H creds c) as [token [c1 [s1 [-> [Hw1 [Ha1 Hl1]]]]]].
  unfold bind at 1.
  destruct (get_session_id_traffic H creds c1) as [sid [c2 [s2 [-> [Hw2 [Ha2 Hl2]]]]]].
  assert (Hauth : Forall (auth_request creds) (s1 ++ s2)) by (apply Forall_app; auto).
  assert (Hlen : (List.length (s1 ++ s2) <= 3)%nat) by (rewrite length_app; lia).
  assert (Hquiet : wire c2 = (wire c ++ (s1 ++ s2) ++ [])%list).
  { rewrite Hw2, Hw1, app_nil_r, app_assoc. reflexivity. }
  destruct (negb (truthy token) || negb (truthy sid)).
  { exists auth_failure, c2, (s1 ++ s2)%list, [].
    repeat split; auto. left. eexists. reflexivity. }
  set (rq := api_request creds token sid method endpoint params json_data).
  assert (Hsent : (wire c2 ++ [rq] = wire c ++ (s1 ++ s2) ++ [rq])%list).
  { rewrite Hw2, Hw1, !app_assoc. reflexivity. }
  assert (Hapi : [rq] = [] \/ exists access_token session_id,
                   [rq] = [api_request creds access_token session_id method endpoint
                             params json_data])
    by (right; exists token, sid; reflexivity).
  unfold try_except, bind, client_send.
  destruct (http_send H (world c2) rq) as [[msg | r] w].
  { exists unexpected_error. do 3 eexists.
    split; [reflexivity |]. split; [left; eexists; reflexivity |].
    split; [exact Hsent |]. auto. }
  unfold raise_for_status.
  destruct (is_success (status_code r)).
  - unfold ret.
    destruct (negb _ && truthy _).
    + unfold response_json. destruct (resp_json r) as [body |].
      * do 4 eexists. split; [reflexivity |].
        split; [right; do 2 eexists; reflexivity |]. split; [exact Hsent |]. auto.
      * do 4 eexists. split; [reflexivity |].
        split; [left; eexists; reflexivity |]. split; [exact Hsent |]. auto.
    + do 4 eexists. split; [reflexivity |].
      split; [right; do 2 eexists; reflexivity |]. split; [exact Hsent |]. auto.
  - unfold raise. cbn [exn_kind_of exn_response].
    unfold on_status_error, bind, read_session, update_session, ret.
    destruct (contains "session" (lower (resp_text r)));
      [destruct (x_ng_sessionid _) |];
      (do 4 eexists; split; [reflexivity |];
       split; [left; eexists; reflexivity |]; split; [exact Hsent |]; auto).
Qed.

(** X1.  [make_api_request] never retries.  Whenever a call returns, the
    result is one of its two envelopes, and what the call has sent is at
    most three authentication requests (token, login defaults) followed by
    at most one request to the endpoint. *)
Theorem dispatcher_answers_without_retry (c c' : Ctx H) (envelope : pyval) :
  make_api_request H method endpoint params json_data c = (Ok envelope, c') ->
  let creds := credentials H (scope_headers c) in
  dispatcher_envelope envelope
  /\ exists auth api,
       wire c' = (wire c ++ auth ++ api)%list
       /\ Forall (auth_request creds) auth
       /\ (List.length auth <= 3)%nat
       /\ (api = []
           \/ exists access_token session_id,
                api = [api_request creds access_token session_id method endpoint
                         params json_data]).
Proof.
  intros Hrun creds.
  destruct (dispatcher_traffic c)
    as [envelope' [c'' [auth [api [Hrun' [Henv [Hwire [Hauth [Hlen Hapi]]]]]]]]].
  rewrite Hrun in Hrun'. injection Hrun' as <- <-.
  split; [exact Henv |]. exists auth, api. auto.
Qed.

End DispatcherTraffic.

Lemma dispatcher_answers_without_retry_witness :
  let run := make_api_request scripted "GET" "persons/lookup" VNone VNone
               (cold first_call_replies 1000) in
  dispatcher_envelope (match fst run with Ok v => v | Raise _ => VNone end)
  /\ exists auth api,
       wire (snd run) = (auth ++ api)%list
       /\ (List.length auth <= 3)%nat
       /\ (List.length api <= 1)%nat.
Proof.
  intros run.
  destruct (dispatcher_answers_without_retry scripted "GET" "persons/lookup" VNone VNone
              (cold first_call_replies 1000) (snd run)
              (match fst run with Ok v => v | Raise _ => VNone end)
              ltac:(vm_compute; reflexivity))
    as [Henv [auth [api [Hwire [_ [Hlen Hapi]]]]]].
  split; [exact Henv |]. exists auth, api.
  split; [exact Hwire | split; [exact Hlen |]].
  destruct Hapi as [-> | [t [sid ->]]]; cbn; lia.
Defined.

Lemma to_double_exact (x : Z) : Z.abs x < 2 ^ 53 -> to_double x = x.
Proof.
  intros Hx. unfold to_double. apply Z.ltb_lt in Hx. rewrite Hx. reflexivity.
Qed.

Lemma add_seconds_exact (t : Z) (v : pyval) (n : Z) :
  as_number v = Some n ->
  Z.abs n < 2 ^ 53 ->
  Z.abs (t + n) < 2 ^ 53 ->
  add_seconds t v = Ok (t + n).
Proof.
  intros Hv Hn Hsum. unfold add_seconds. rewrite Hv.
  assert (Hlimit : 2 ^ 53 <= float_limit) by (vm_compute; discriminate).
  assert (Hin : (float_limit <=? Z.abs n) = false) by (apply Z.leb_gt; lia).
  rewrite Hin, (to_double_exact n Hn), (to_double_exact (t + n) Hsum). reflexivity.
Qed.

Section SessionCache.

Variable H : Host.
Variable creds : list (string * pyval).

(** X2.  The session id has no expiry of its own and is gated by the token.
    A cached, non-empty session id is returned with the context untouched,
    whatever the state of the token.  Without one, when the token step
    yields no token, the result is [None] in the context the token step
    left: no login-defaults request is sent. *)
Theorem session_id_cache_and_gate (c : Ctx H) :
  (forall sid, x_ng_sessionid (session c) = Some sid -> sid <> "" ->
               get_session_id H creds c = (Ok (VStr sid), c))
  /\ (forall token c1,
        truthy (opt_str (x_ng_sessionid (session c))) = false ->
        get_access_token H creds c = (Ok token, c1) ->
        truthy token = false ->
        get_session_id H creds c = (Ok VNone, c1)).
Proof.
  split.
  - intros sid Hsid Hne. unfold get_session_id, bind, read_session.
    rewrite Hsid. cbn [opt_str]. rewrite (truthy_str sid Hne). reflexivity.
  - intros token c1 Hnone Htoken Hfalsy. unfold get_session_id, bind, read_session.
    rewrite Hnone, Htoken, Hfalsy. reflexivity.
Qed.

(** X3.  Whenever [get_session_id] returns a session id, that id is a
    non-empty string and it is the one cached in the session. *)
Theorem returned_session_id_is_cached (c c' : Ctx H) (sid : pyval) :
  get_session_id H creds c = (Ok sid, c') ->
  truthy sid = true ->
  exists s, sid = VStr s /\ s <> "" /\ x_ng_sessionid (session c') = Some s.
Proof.
  unfold get_session_id, bind, read_session.
  destruct (x_ng_sessionid (session c)) as [cached |] eqn:Hcached; cbn [opt_str].
  - destruct (truthy (VStr cached)) eqn:Hc.
    + intros [= <- <-] _. exists cached. repeat split; [| exact Hcached].
      intros ->. discriminate.
    + destruct (get_access_token H creds c) as [[token | e] c1]; [| discriminate].
      destruct (truthy token); cbn [negb]; [| intros [= <- _]; discriminate].
      unfold try_except, bind, client_send.
      destruct (http_send H (world c1) _) as [[msg | r] w];
        [intros [= <- _]; discriminate |].
      unfold raise_for_status.
      destruct (is_success (status_code r)); [| intros [= <- _]; discriminate].
      unfold ret.
      destruct (header_get "x-ng-sessionid" (resp_headers r)) as [s |]; cbn [opt_str].
      * destruct (truthy (VStr s)) eqn:Hs; [| intros [= <- _]; discriminate].
        unfold update_session. intros [= <- <-] _.
        exists s. repeat split. intros ->. discriminate.
      * intros [= <- _]. discriminate.
  - cbn [truthy].
    destruct (get_access_token H creds c) as [[token | e] c1]; [| discriminate].
    destruct (truthy token); cbn [negb]; [| intros [= <- _]; discriminate].
    unfold try_except, bind, client_send.
    destruct (http_send H (world c1) _) as [[msg | r] w];
      [intros [= <- _]; discriminate |].
    unfold raise_for_status.
    destruct (is_success (status_code r)); [| intros [= <- _]; discriminate].
    unfold ret.
    destruct (header_get "x-ng-sessionid" (resp_headers r)) as [s |]; cbn [opt_str].
    + destruct (truthy (VStr s)) eqn:Hs; [| intros [= <- _]; discriminate].
      unfold update_session. intros [= <- <-] _.
      exists s. repeat split. intros ->. discriminate.
    + intros [= <- _]. discriminate.
Qed.

(** X4.  A successful token exchange (a 2xx reply with an object that
    holds a token and a lifetime of [n] seconds, 3600 when [expires_in] is
    missing; [n] and the expiry within the range where doubles are exact)
    stores the token with expiry [now + n] and returns it.  From then on,
    in any context with that session, a call before [expiry - 60] returns
    the stored token and sends nothing, and a call at or after
    [expiry - 60] sends a new token request: a token that lives 60 seconds
    or less is never reused. *)
Theorem fresh_token_reuse (c : Ctx H) (r : Response) (w : World H)
  (d : list (string * pyval)) (token : pyval) (n : Z) :
  truthy (getattr (access_token (session c)) VNone)
  && (clock H (world c) <? getattr (token_expiration (session c)) 0 - 60) = false ->
  http_send H (world c) (token_request creds) = (Replied r, w) ->
  is_success (status_code r) = true ->
  resp_json r = Some (VDict d) ->
  dict_lookup "access_token" d = Some token ->
  truthy token = true ->
  as_number (getattr (dict_lookup "expires_in" d) (VInt 3600)) = Some n ->
  Z.abs n < 2 ^ 53 ->
  Z.abs (clock H w + n) < 2 ^ 53 ->
  let c1 := refreshed H creds c token (clock H w + n) w in
  get_access_token H creds c = (Ok token, c1)
  /\ (forall c' : Ctx H,
        session c' = session c1 ->
        (clock H (world c') < clock H w + n - 60 ->
         get_access_token H creds c' = (Ok token, c'))
        /\ (clock H w + n - 60 <= clock H (world c') ->
            exists v c'', get_access_token H creds c' = (Ok v, c'')
                          /\ wire c'' = (wire c' ++ [token_request creds])%list)).
Proof.
  intros Hcond Hsend Hok Hjson Htoken Htruthy Hn Hsmall Hsum c1. split.
  - unfold get_access_token, bind, read_session, time_time. rewrite Hcond.
    unfold try_except, bind, client_send. rewrite Hsend.
    unfold raise_for_status. rewrite Hok.
    unfold ret, response_json. rewrite Hjson.
    unfold ret, lift. cbn [py_get]. rewrite Htoken.
    unfold update_session, time_time. cbn [world session scope_headers wire].
    replace (match dict_lookup "expires_in" d with Some x => x | None => VInt 3600 end)
      with (getattr (dict_lookup "expires_in" d) (VInt 3600)) by reflexivity.
    rewrite (add_seconds_exact _ _ n Hn Hsmall Hsum). reflexivity.
  - intros c' Hsession. split.
    + intros Hearly. unfold get_access_token, bind, read_session, time_time.
      rewrite Hsession.
      cbn [c1 refreshed session access_token token_expiration getattr].
      rewrite Htruthy.
      assert (Hlt : (clock H (world c') <? clock H w + n - 60) = true)
        by (apply Z.ltb_lt; exact Hearly).
      rewrite Hlt. reflexivity.
    + intros Hlate. apply refresh_sends_one_request. rewrite Hsession.
      cbn [c1 refreshed session access_token token_expiration getattr].
      apply andb_false_iff. right. apply Z.ltb_ge. exact Hlate.
Qed.

End SessionCache.

Lemma session_id_cache_and_gate_witness :
  get_session_id scripted [] (expired_with_session []) = (Ok (VStr "sid"), expired_with_session [])
  /\ fst (get_session_id scripted [] (cold [Failed "timed out"] 1000)) = Ok VNone.
Proof.
  split.
  - apply (proj1 (session_id_cache_and_gate scripted [] (expired_with_session [])) "sid").
    + reflexivity.
    + discriminate.
  - set (c := cold [Failed "timed out"] 1000).
    rewrite (proj2 (session_id_cache_and_gate scripted [] c) VNone
               (snd (get_access_token scripted [] c)));
      reflexivity.
Defined.

Lemma returned_session_id_is_cached_witness :
  exists s,
    VStr "s1" = VStr s /\ s <> ""
    /\ x_ng_sessionid
         (session (snd (get_session_id scripted [] (cold first_call_replies 1000))))
       = Some s.
Proof.
  apply (returned_session_id_is_cached scripted [] (cold first_call_replies 1000)).
  - vm_compute. reflexivity.
  - reflexivity.
Defined.

Lemma fresh_token_reuse_witness :
  let creds := credentials scripted [] in
  let c := stale [Replied token_reply] in
  let c1 := refreshed scripted creds c (VStr "t1") 4600 (mkScript [] 1000) in
  get_access_token scripted creds c = (Ok (VStr "t1"), c1)
  /\ get_access_token scripted creds c1 = (Ok (VStr "t1"), c1).
Proof.
  intros creds c c1.
  destruct (fresh_token_reuse scripted creds c token_reply (mkScript [] 1000)
              [("access_token", VStr "t1")] (VStr "t1") 3600
              eq_refl eq_refl eq_refl eq_refl eq_refl eq_refl eq_refl eq_refl eq_refl)
    as [Hfirst Hnext].
  split; [exact Hfirst |].
  apply (proj1 (Hnext c1 eq_refl)). reflexivity.
Defined.

Section DispatcherOutcomes.

Variable H : Host.
Variables method endpoint : string.
Variables params json_data : pyval.

(** The run of the dispatcher once token and session id are in hand. *)
Lemma dispatch_run (c c1 c2 : Ctx H) (token sid : pyval) :
  let creds := credentials H (scope_headers c) in
  get_access_token H creds c = (Ok token, c1) ->
  get_session_id H creds c1 = (Ok sid, c2) ->
  truthy token = true ->
  truthy sid = true ->
  make_api_request H method endpoint params json_data c
  = try_except
      (response <- client_send H (api_request creds token sid method endpoint
                                    params json_data) ;;
       raise_for_status H response ;;;
       response_body <-
         (if negb (existsb (Z.eqb (status_code response)) [201; 204])
             && truthy (VStr (resp_text response))
          then response_json H response
          else ret (VDict [])) ;;
       ret (envelope_success response_body response))
      (fun e =>
         match exn_kind_of e, exn_response e with
         | HTTPStatusError, Some r => Some (on_status_error H r)
         | _, _ => Some (ret unexpected_error)
         end) c2.
Proof.
  intros creds Htoken Hsid Htok Hs.
  unfold make_api_request, get_api_credentials.
  unfold bind at 1. fold creds.
  replace (negb (truthy (VDict creds))) with false by reflexivity.
  unfold bind at 1. rewrite Htoken.
  unfold bind at 1. rewrite Hsid.
  rewrite Htok, Hs. reflexivity.
Qed.

(** X5.  Only an error that mentions the session touches the session.
    With token and session id in hand (context [c2]): a reply outside 2xx
    whose lower-cased text does not contain "session" gives the failure
    envelope with status and text; a failure of the HTTP client, or a 2xx
    reply whose non-empty body is no JSON, gives the generic failure
    envelope; in all three cases the session is the one of [c2]. *)
Theorem other_errors_keep_the_session (c c1 c2 : Ctx H) (token sid : pyval)
  (o : HttpOutcome) (w : World H) :
  let creds := credentials H (scope_headers c) in
  let rq := api_request creds token sid method endpoint params json_data in
  get_access_token H creds c = (Ok token, c1) ->
  get_session_id H creds c1 = (Ok sid, c2) ->
  truthy token = true ->
  truthy sid = true ->
  http_send H (world c2) rq = (o, w) ->
  let result := make_api_request H method endpoint params json_data c in
  (forall r, o = Replied r -> is_success (status_code r) = false ->
             contains "session" (lower (resp_text r)) = false ->
             result = (Ok (envelope_failure ("API Error: " ++ string_of_Z (status_code r)
                                             ++ " - " ++ resp_text r)),
                       after_request H c2 rq w))
  /\ (forall msg, o = Failed msg -> result = (Ok unexpected_error, after_request H c2 rq w))
  /\ (forall r, o = Replied r -> is_success (status_code r) = true ->
                existsb (Z.eqb (status_code r)) [201; 204] = false ->
                resp_text r <> "" -> resp_json r = None ->
                result = (Ok unexpected_error, after_request H c2 rq w)).
Proof.
  intros creds rq Htoken Hsid Htok Hs Hsend result. subst result.
  rewrite (dispatch_run c c1 c2 token sid Htoken Hsid Htok Hs).
  fold creds. fold rq.
  repeat split.
  - intros r -> Hst Hno.
    unfold try_except, bind, client_send. rewrite Hsend.
    unfold raise_for_status. rewrite Hst.
    unfold raise. cbn [exn_kind_of exn_response].
    unfold on_status_error. rewrite Hno. reflexivity.
  - intros msg ->.
    unfold try_except, bind, client_send. rewrite Hsend. reflexivity.
  - intros r -> Hst Hcode Htext Hjson.
    unfold try_except, bind, client_send. rewrite Hsend.
    unfold raise_for_status. rewrite Hst.
    unfold ret. rewrite Hcode. cbn [negb andb].
    rewrite (truthy_str _ Htext). unfold response_json. rewrite Hjson. reflexivity.
Qed.

(** X6.  What the success envelope carries as body.  With token and
    session id in hand and a 2xx reply: for status 201 or 204, and for an
    empty response text, the body is the empty dict and the response is not
    parsed; otherwise the body is the parsed JSON.  The envelope carries
    the response headers and the status code. *)
Theorem success_body (c c1 c2 : Ctx H) (token sid : pyval) (r : Response) (w : World H) :
  let creds := credentials H (scope_headers c) in
  let rq := api_request creds token sid method endpoint params json_data in
  get_access_token H creds c = (Ok token, c1) ->
  get_session_id H creds c1 = (Ok sid, c2) ->
  truthy token = true ->
  truthy sid = true ->
  http_send H (world c2) rq = (Replied r, w) ->
  is_success (status_code r) = true ->
  let result := make_api_request H method endpoint params json_data c in
  (status_code r = 201 \/ status_code r = 204 \/ resp_text r = "" ->
   result = (Ok (envelope_success (VDict []) r), after_request H c2 rq w))
  /\ (forall body, status_code r <> 201 -> status_code r <> 204 -> resp_text r <> "" ->
                   resp_json r = Some body ->
                   result = (Ok (envelope_success body r), after_request H c2 rq w)).
Proof.
  intros creds rq Htoken Hsid Htok Hs Hsend Hst result. subst result.
  rewrite (dispatch_run c c1 c2 token sid Htoken Hsid Htok Hs).
  fold creds. fold rq.
  split.
  - intros Hempty.
    unfold try_except, bind, client_send. rewrite Hsend.
    unfold raise_for_status. rewrite Hst. unfold ret.
    assert (Hskip : negb (existsb (Z.eqb (status_code r)) [201; 204])
                    && truthy (VStr (resp_text r)) = false).
    { destruct Hempty as [-> | [-> | ->]];
        [reflexivity | reflexivity | apply andb_false_r]. }
    rewrite Hskip. reflexivity.
  - intros body H201 H204 Htext Hjson.
    unfold try_except, bind, client_send. rewrite Hsend.
    unfold raise_for_status. rewrite Hst. unfold ret.
    assert (Hparse : negb (existsb (Z.eqb (status_code r)) [201; 204])
                     && truthy (VStr (resp_text r)) = true).
    { rewrite (truthy_str _ Htext). cbn [existsb].
      apply Z.eqb_neq in H201. apply Z.eqb_neq in H204. rewrite H201, H204. reflexivity. }
    rewrite Hparse. unfold response_json. rewrite Hjson. reflexivity.
Qed.

(** X7.  Every credential is the value of its request header when that
    header is present and non-empty (the last one when it is repeated), and
    otherwise the value of its environment variable, [None] when that is
    unset too. *)
Theorem credential_override (headers : list (string * string))
  (field header variable : string) :
  In (field, (header, variable)) credential_sources ->
  (forall v, scope_header header headers = VStr v -> v <> "" ->
             cred (credentials H headers) field = VStr v)
  /\ (scope_header header headers = VNone \/ scope_header header headers = VStr "" ->
      cred (credentials H headers) field = opt_str (getenv H variable))
  /\ (forall before v, scope_header header (before ++ [(header, v)]) = VStr v).
Proof.
  intros Hin.
  assert (Hcred : cred (credentials H headers) field
                  = py_or (scope_header header headers) (opt_str (getenv H variable))).
  { cbn in Hin.
    repeat (destruct Hin as [Hin | Hin]; [injection Hin as <- <- <-; reflexivity |]).
    destruct Hin. }
  rewrite Hcred. unfold py_or. repeat split.
  - intros v -> Hne. rewrite (truthy_str v Hne). reflexivity.
  - intros [-> | ->]; reflexivity.
  - intros before v. unfold scope_header. rewrite filter_app. cbn [filter fst].
    rewrite String.eqb_refl.
    destruct (filter (fun kv => String.eqb (fst kv) header) before) as [|x l] eqn:Hf.
    + reflexivity.
    + pose proof (last_last (x :: l) (header, v) ("", "")) as Hlast.
      cbn [app] in Hlast |- *. rewrite Hlast. reflexivity.
Qed.

End DispatcherOutcomes.

Lemma other_errors_keep_the_session_witness :
  let c := warm [Replied not_found_reply] in
  fst (make_api_request scripted "GET" "persons/p-9" VNone VNone c)
  = Ok (envelope_failure "API Error: 404 - No such person")
  /\ session (snd (make_api_request scripted "GET" "persons/p-9" VNone VNone c))
     = warm_session.
Proof.
  intros c.
  pose proof (other_errors_keep_the_session scripted "GET" "persons/p-9" VNone VNone
                c c c (VStr "tok") (VStr "sid") (Replied not_found_reply) (mkScript [] 1000)
                eq_refl eq_refl eq_refl eq_refl eq_refl) as [Hstatus _].
  rewrite (Hstatus not_found_reply eq_refl eq_refl eq_refl). split; reflexivity.
Defined.

Lemma success_body_witness :
  let c := warm [Replied no_content_reply] in
  fst (make_api_request scripted "POST" "appointments/a-1/cancel" VNone VNone c)
  = Ok (envelope_success (VDict []) no_content_reply).
Proof.
  intros c.
  pose proof (success_body scripted "POST" "appointments/a-1/cancel" VNone VNone
                c c c (VStr "tok") (VStr "sid") no_content_reply (mkScript [] 1000)
                eq_refl eq_refl eq_refl eq_refl eq_refl eq_refl) as [Hempty _].
  rewrite Hempty; [reflexivity | right; left; reflexivity].
Defined.

Lemma credential_override_witness :
  cred (credentials scripted [("x-nextgen-base-url", "https://other.test")]) "BASE_URL"
  = VStr "https://other.test"
  /\ cred (credentials scripted [("x-nextgen-location-id", "")]) "LOCATION_ID"
     = VStr "loc-1".
Proof.
  split.
  - apply (proj1 (credential_override scripted [("x-nextgen-base-url", "https://other.test")]
                    "BASE_URL" "x-nextgen-base-url" "NEXTGEN_BASE_URL"
                    ltac:(cbn; tauto)));
      [reflexivity | discriminate].
  - apply (proj1 (proj2 (credential_override scripted [("x-nextgen-location-id", "")]
                           "LOCATION_ID" "x-nextgen-location-id"
                           "NEXTGEN_DEFAULT_LOCATION_ID" ltac:(cbn; tauto)))).
    right. reflexivity.
Defined.

(** * Further properties of the tools *)

Section Boundary.

Variable H : Host.

Lemma dispatcher_envelope_is_envelope (v : pyval) :
  dispatcher_envelope v -> is_envelope v = true.
Proof. intros [[msg ->] | [body [r ->]]]; reflexivity. Qed.

Lemma safe_ret (v : pyval) : is_envelope v = true -> safe H (ret v).
Proof. intros Hv c. exact Hv. Qed.

Lemma safe_bind {A} (m : M H A) (k : A -> M H pyval) :
  (forall a, safe H (k a)) -> safe H (bind m k).
Proof.
  intros Hk c. unfold bind. destruct (m c) as [[a | e] c1]; [apply Hk | exact I].
Qed.

Lemma safe_dispatch (method endpoint : string) (params json_data : pyval)
  (k : pyval -> M H pyval) :
  (forall response, dispatcher_envelope response -> safe H (k response)) ->
  safe H (bind (make_api_request H method endpoint params json_data) k).
Proof.
  intros Hk c. unfold bind.
  destruct (make_api_request_returns H method endpoint params json_data c)
    as [envelope [c1 [-> Hshape]]].
  apply Hk. exact Hshape.
Qed.

Lemma guarded_answers (body : M H pyval) : safe H body -> answers H (guarded H body).
Proof.
  intros Hsafe c. unfold guarded, try_except. specialize (Hsafe c).
  destruct (body c) as [[v | e] c1]; do 2 eexists; split; try reflexivity.
  exact Hsafe.
Qed.

Ltac safe_steps :=
  repeat match goal with
         | |- safe _ (bind (make_api_request _ _ _ _ _) _) =>
             apply safe_dispatch; intros ? ?
         | |- safe _ (bind _ _) => apply safe_bind; intros ?
         | |- safe _ (if ?b then _ else _) => destruct b
         | |- safe _ (ret ?v) =>
             apply safe_ret;
             first [reflexivity | apply dispatcher_envelope_is_envelope; assumption]
         | |- safe _ _ => progress cbv zeta
         end.

(** X8.  The five tools whose body sits in [try ... except Exception]
    never raise: for every host, context and argument they return a dict
    with a boolean [success] field. *)
Theorem guarded_tools_answer :
  answers H (get_appointment_categories H)
  /\ (forall category_id, answers H (get_category_events H category_id))
  /\ (forall category_id start_date, answers H (get_available_slots H category_id start_date))
  /\ (forall person_id, answers H (get_patient_appointments H person_id))
  /\ (forall appointment_id, answers H (cancel_appointment H appointment_id)).
Proof.
  repeat split; intros;
    [ unfold get_appointment_categories, list_projection
    | unfold get_category_events, list_projection
    | unfold get_available_slots
    | unfold get_patient_appointments
    | unfold cancel_appointment ];
    apply guarded_answers; safe_steps.
Qed.

End Boundary.

(** ** Strings: the final path segment *)

Lemma split_on_nonempty (c : ascii) (s : string) : split_on c s <> [].
Proof.
  destruct s as [|a r]; cbn; [discriminate |].
  destruct (Ascii.eqb a c); [discriminate |].
  destruct (split_on c r); discriminate.
Qed.

Lemma split_on_without (c : ascii) (s : string) :
  mentions c s = false -> split_on c s = [s].
Proof.
  induction s as [|a r IH]; cbn; [reflexivity |].
  intros Hm. apply orb_false_iff in Hm. destruct Hm as [Ha Hr].
  rewrite Ha, (IH Hr). reflexivity.
Qed.

Lemma split_on_app (c : ascii) (p s : string) :
  split_on c (p ++ String c s) = (split_on c p ++ split_on c s)%list.
Proof.
  induction p as [|a p IH]; cbn.
  - rewrite Ascii.eqb_refl. reflexivity.
  - destruct (Ascii.eqb a c); rewrite IH; [reflexivity |].
    pose proof (split_on_nonempty c p) as Hp.
    destruct (split_on c p) as [|h t]; [congruence | reflexivity].
Qed.

Lemma final_segment_app (p s : string) :
  mentions "/" s = false -> final_segment (p ++ String "/" s) = s.
Proof.
  intros Hs. unfold final_segment.
  rewrite split_on_app, (split_on_without "/" s Hs). apply last_last.
Qed.

Section Creation.

Variable H : Host.

Lemma book_appointment_run (c c1 : Ctx H) (body : pyval) (r : Response)
  (person_id event_id location_id resource_id appointment_date : string)
  (duration_minutes : Z) :
  make_api_request H "POST" "appointments" VNone
    (booking_payload person_id event_id location_id resource_id appointment_date
       duration_minutes) c
  = (Ok (envelope_success body r), c1) ->
  book_appointment H person_id event_id location_id resource_id appointment_date
    duration_minutes c
  = (Ok (booking_result (location_header r)), c1).
Proof.
  intros Hcall. unfold book_appointment, try_with_headers.
  unfold bind at 1. unfold try_except at 1. unfold bind at 1. rewrite Hcall.
  run_tool. unfold try_except. rewrite location_of_headers.
  destruct (location_header_cases r) as [-> | [h ->]]; [reflexivity |].
  destruct h; reflexivity.
Qed.

Lemma create_patient_run (c c1 : Ctx H) (body : pyval) (r : Response)
  (first_name last_name birth_date sex phone_number email_address : string)
  (ignore_duplicates : option bool) :
  make_api_request H "POST" "persons" VNone
    (create_payload first_name last_name birth_date sex phone_number email_address
       ignore_duplicates) c
  = (Ok (envelope_success body r), c1) ->
  create_patient H first_name last_name birth_date sex phone_number email_address
    ignore_duplicates c
  = (Ok (creation_result (location_header r)), c1).
Proof.
  intros Hcall. unfold create_patient. unfold bind at 1. rewrite Hcall.
  run_tool. rewrite location_of_headers.
  destruct (location_header_cases r) as [-> | [h ->]]; [reflexivity |].
  destruct h as [|a h]; [reflexivity |].
  cbn [truthy String.eqb negb].
  unfold try_except, bind, lift, ret, raise, py_split_last, creation_result.
  fold (final_segment (String a h)).
  destruct (final_segment (String a h)); reflexivity.
Qed.

Lemma booking_result_is_envelope (h : pyval) : is_envelope (booking_result h) = true.
Proof. destruct h as [| | | [|a s] | |]; reflexivity. Qed.

Lemma creation_result_is_envelope (h : pyval) : is_envelope (creation_result h) = true.
Proof.
  destruct h as [| | | [|a s] | |]; try reflexivity.
  unfold creation_result. destruct (final_segment (String a s)); reflexivity.
Qed.

(** X9.  In [book_appointment] and [create_patient] nothing raises after
    the dispatcher call: the headers of a dispatcher envelope are strings,
    so the location header always splits.  Whenever their call of
    [make_api_request] returns, they return, in the context the call left,
    a dict with a boolean [success] field. *)
Theorem creation_tools_answer (c c1 : Ctx H) (response : pyval) :
  (forall person_id event_id location_id resource_id appointment_date duration_minutes,
      make_api_request H "POST" "appointments" VNone
        (booking_payload person_id event_id location_id resource_id appointment_date
           duration_minutes) c
      = (Ok response, c1) ->
      exists v,
        book_appointment H person_id event_id location_id resource_id appointment_date
          duration_minutes c
        = (Ok v, c1)
        /\ is_envelope v = true)
  /\ (forall first_name last_name birth_date sex phone_number email_address ignore_duplicates,
        make_api_request H "POST" "persons" VNone
          (create_payload first_name last_name birth_date sex phone_number email_address
             ignore_duplicates) c
        = (Ok response, c1) ->
        exists v,
          create_patient H first_name last_name birth_date sex phone_number email_address
            ignore_duplicates c
          = (Ok v, c1)
          /\ is_envelope v = true).
Proof.
  split.
  - intros person_id event_id location_id resource_id appointment_date duration_minutes
      Hrun.
    destruct (make_api_request_returns H "POST" "appointments" VNone
                (booking_payload person_id event_id location_id resource_id
                   appointment_date duration_minutes) c)
      as [envelope [c1' [Hcall Hshape]]].
    rewrite Hrun in Hcall. injection Hcall as <- <-.
    destruct Hshape as [[msg ->] | [body [r ->]]].
    + exists (envelope_failure msg). split; [| reflexivity].
      unfold book_appointment, try_with_headers.
      unfold bind at 1. unfold try_except at 1. unfold bind at 1. rewrite Hrun.
      reflexivity.
    + exists (booking_result (location_header r)).
      split; [apply (book_appointment_run c c1 body r); exact Hrun
             | apply booking_result_is_envelope].
  - intros first_name last_name birth_date sex phone_number email_address
      ignore_duplicates Hrun.
    destruct (make_api_request_returns H "POST" "persons" VNone
                (create_payload first_name last_name birth_date sex phone_number
                   email_address ignore_duplicates) c)
      as [envelope [c1' [Hcall Hshape]]].
    rewrite Hrun in Hcall. injection Hcall as <- <-.
    destruct Hshape as [[msg ->] | [body [r ->]]].
    + exists (envelope_failure msg). split; [| reflexivity].
      unfold create_patient. unfold bind at 1. rewrite Hrun. reflexivity.
    + exists (creation_result (location_header r)).
      split; [apply (create_patient_run c c1 body r); exact Hrun
             | apply creation_result_is_envelope].
Qed.

(** X10.  The new id is what follows the last "/" of the location header.
    After a successful POST whose location header is [prefix/id], with
    [id] non-empty and free of "/", [book_appointment] returns
    [appointmentId = id] and [create_patient] returns [personId = id], both
    with [success = true]. *)
Theorem id_from_location_header (c c1 : Ctx H) (body : pyval) (r : Response)
  (prefix id : string) :
  location_header r = VStr (prefix ++ String "/" id) ->
  id <> "" ->
  mentions "/" id = false ->
  (forall person_id event_id location_id resource_id appointment_date duration_minutes,
      make_api_request H "POST" "appointments" VNone
        (booking_payload person_id event_id location_id resource_id appointment_date
           duration_minutes) c
      = (Ok (envelope_success body r), c1) ->
      book_appointment H person_id event_id location_id resource_id appointment_date
        duration_minutes c
      = (Ok (booked (VStr id)), c1))
  /\ (forall first_name last_name birth_date sex phone_number email_address ignore_duplicates,
        make_api_request H "POST" "persons" VNone
          (create_payload first_name last_name birth_date sex phone_number email_address
             ignore_duplicates) c
        = (Ok (envelope_success body r), c1) ->
        create_patient H first_name last_name birth_date sex phone_number email_address
          ignore_duplicates c
        = (Ok (created (VStr id)), c1)).
Proof.
  intros Hheader Hid Hslash.
  assert (Hseg : final_segment (prefix ++ String "/" id) = id)
    by (apply final_segment_app; exact Hslash).
  assert (Hcons : exists a s, (prefix ++ String "/" id)%string = String a s)
    by (destruct prefix; cbn; eauto).
  destruct Hcons as [a [s Hcons]].
  split.
  - intros person_id event_id location_id resource_id appointment_date duration_minutes
      Hcall.
    rewrite (book_appointment_run c c1 body r _ _ _ _ _ _ Hcall), Hheader.
    unfold booking_result. rewrite Hcons, <- Hcons, Hseg. reflexivity.
  - intros first_name last_name birth_date sex phone_number email_address
      ignore_duplicates Hcall.
    rewrite (create_patient_run c c1 body r _ _ _ _ _ _ _ Hcall), Hheader.
    unfold creation_result. rewrite Hcons, <- Hcons, Hseg.
    destruct id; [congruence | reflexivity].
Qed.

End Creation.

Lemma creation_tools_answer_witness :
  exists v,
    fst (create_patient scripted "Jane" "Doe" "1990-01-01" "F" "555-0100" "jane@example.org"
           None (warm [Replied created_without_location]))
    = Ok v
    /\ is_envelope v = true.
Proof.
  set (c := warm [Replied created_without_location]).
  set (call := make_api_request scripted "POST" "persons" VNone
                 (create_payload "Jane" "Doe" "1990-01-01" "F" "555-0100" "jane@example.org"
                    None) c).
  destruct (proj2 (creation_tools_answer scripted c (snd call)
                     (match fst call with Ok v => v | Raise _ => VNone end))
              "Jane" "Doe" "1990-01-01" "F" "555-0100" "jane@example.org" None
              ltac:(vm_compute; reflexivity))
    as [v [Hrun Henv]].
  exists v. rewrite Hrun. split; [reflexivity | exact Henv].
Defined.

Lemma id_from_location_header_witness :
  fst (book_appointment scripted "p-1" "e-1" "loc-1" "r-1" "2025-01-01T10:00:00" 30
         (warm [Replied booked_at_a77]))
  = Ok (booked (VStr "a77")).
Proof.
  set (c := warm [Replied booked_at_a77]).
  set (call := make_api_request scripted "POST" "appointments" VNone
                 (booking_payload "p-1" "e-1" "loc-1" "r-1" "2025-01-01T10:00:00" 30) c).
  refine (f_equal fst
            (proj1 (id_from_location_header scripted c (snd call) (VDict []) booked_at_a77
                      "https://api.test/appointments" "a77" eq_refl _ eq_refl)
               "p-1" "e-1" "loc-1" "r-1" "2025-01-01T10:00:00" 30 _)).
  - discriminate.
  - vm_compute. reflexivity.
Defined.

(** ** How the tools pass a dispatcher failure on *)

Section PassThrough.

Variable H : Host.
Variable c c1 : Ctx H.
Variable msg : string.

(** X11.  A failure envelope of the dispatcher is returned unchanged, in
    the context the dispatcher left, by the seven tools that start with
    their main call. *)
Theorem dispatcher_failure_is_passed_on :
  (forall first_name last_name birth_date phone_number,
      make_api_request H "GET" "persons/lookup"
        (search_params first_name last_name birth_date phone_number) VNone c
      = (Ok (envelope_failure msg), c1) ->
      get_patient H first_name last_name birth_date phone_number c
      = (Ok (envelope_failure msg), c1))
  /\ (forall first_name last_name birth_date sex phone_number email_address ignore_duplicates,
        make_api_request H "POST" "persons" VNone
          (create_payload first_name last_name birth_date sex phone_number email_address
             ignore_duplicates) c
        = (Ok (envelope_failure msg), c1) ->
        create_patient H first_name last_name birth_date sex phone_number email_address
          ignore_duplicates c
        = (Ok (envelope_failure msg), c1))
  /\ (make_api_request H "GET" "master/appointments/categories" VNone VNone c
      = (Ok (envelope_failure msg), c1) ->
      get_appointment_categories H c = (Ok (envelope_failure msg), c1))
  /\ (forall category_id,
        make_api_request H "GET"
          ("master/appointments/categories/" ++ category_id ++ "/events") VNone VNone c
        = (Ok (envelope_failure msg), c1) ->
        get_category_events H category_id c = (Ok (envelope_failure msg), c1))
  /\ (forall category_id start_date,
        truthy (configured_location H c) = true ->
        make_api_request H "GET" "appointments/slots"
          (slots_params category_id start_date (configured_location H c)) VNone c
        = (Ok (envelope_failure msg), c1) ->
        get_available_slots H category_id start_date c = (Ok (envelope_failure msg), c1))
  /\ (forall person_id,
        make_api_request H "GET" ("persons/" ++ person_id ++ "/appointments") VNone VNone c
        = (Ok (envelope_failure msg), c1) ->
        get_patient_appointments H person_id c = (Ok (envelope_failure msg), c1))
  /\ (forall person_id event_id location_id resource_id appointment_date duration_minutes,
        make_api_request H "POST" "appointments" VNone
          (booking_payload person_id event_id location_id resource_id appointment_date
             duration_minutes) c
        = (Ok (envelope_failure msg), c1) ->
        book_appointment H person_id event_id location_id resource_id appointment_date
          duration_minutes c
        = (Ok (envelope_failure msg), c1)).
Proof.
  repeat split; intros.
  - unfold get_patient. unfold bind at 1.
    match goal with Hc : make_api_request _ _ _ _ _ _ = _ |- _ => rewrite Hc end.
    reflexivity.
  - unfold create_patient. unfold bind at 1.
    match goal with Hc : make_api_request _ _ _ _ _ _ = _ |- _ => rewrite Hc end.
    reflexivity.
  - unfold get_appointment_categories, list_projection, guarded, try_except.
    unfold bind at 1.
    match goal with Hc : make_api_request _ _ _ _ _ _ = _ |- _ => rewrite Hc end.
    reflexivity.
  - unfold get_category_events, list_projection, guarded, try_except.
    unfold bind at 1.
    match goal with Hc : make_api_request _ _ _ _ _ _ = _ |- _ => rewrite Hc end.
    reflexivity.
  - unfold get_available_slots, guarded, try_except, get_api_credentials.
    unfold bind at 1. fold (configured_location H c).
    match goal with Hl : truthy _ = true |- _ => rewrite Hl end. cbn [negb].
    unfold bind at 1.
    match goal with Hc : make_api_request _ _ _ _ _ _ = _ |- _ => rewrite Hc end.
    reflexivity.
  - unfold get_patient_appointments, guarded, try_except.
    unfold bind at 1.
    match goal with Hc : make_api_request _ _ _ _ _ _ = _ |- _ => rewrite Hc end.
    reflexivity.
  - unfold book_appointment, try_with_headers.
    unfold bind at 1. unfold try_except at 1. unfold bind at 1.
    match goal with Hc : make_api_request _ _ _ _ _ _ = _ |- _ => rewrite Hc end.
    reflexivity.
Qed.

(** X12.  Rescheduling and cancelling do not pass a failure of the
    reasons call on: they answer with their own message, drop the
    dispatcher's, and send nothing more. *)
Theorem reasons_failure_is_replaced :
  (forall appointment_id event_id location_id resource_id appointment_date duration_minutes,
      make_api_request H "GET" "master/list-items" (reasons_params "as_resched_reason") VNone c
      = (Ok (envelope_failure msg), c1) ->
      reschedule_appointment H appointment_id event_id location_id resource_id
        appointment_date duration_minutes c
      = (Ok (reasons_unavailable "reschedule"), c1))
  /\ (forall appointment_id,
        make_api_request H "GET" "master/list-items" (reasons_params "as_cancel_reason") VNone c
        = (Ok (envelope_failure msg), c1) ->
        cancel_appointment H appointment_id c = (Ok (reasons_unavailable "cancellation"), c1)).
Proof.
  split.
  - intros appointment_id event_id location_id resource_id appointment_date
      duration_minutes Hcall.
    unfold reschedule_appointment, try_with_headers.
    unfold bind at 1. unfold try_except at 1. unfold bind at 1. rewrite Hcall.
    reflexivity.
  - intros appointment_id Hcall.
    unfold cancel_appointment, guarded, try_except.
    unfold bind at 1. rewrite Hcall. reflexivity.
Qed.

End PassThrough.

Lemma dispatcher_failure_is_passed_on_witness :
  fst (get_patient_appointments scripted "p-1" (warm unreachable)) = Ok unexpected_error.
Proof.
  set (c := warm unreachable).
  set (call := make_api_request scripted "GET" "persons/p-1/appointments" VNone VNone c).
  refine (f_equal fst
            (proj1 (proj2 (proj2 (proj2 (proj2 (proj2
               (dispatcher_failure_is_passed_on scripted c (snd call)
                  "An unexpected error occurred. Please try again later."))))))
               "p-1" _)).
  vm_compute. reflexivity.
Defined.

Lemma reasons_failure_is_replaced_witness :
  fst (cancel_appointment scripted "a-1" (warm unreachable))
  = Ok (reasons_unavailable "cancellation").
Proof.
  set (c := warm unreachable).
  set (call := make_api_request scripted "GET" "master/list-items"
                 (reasons_params "as_cancel_reason") VNone c).
  refine (f_equal fst
            (proj2 (reasons_failure_is_replaced scripted c (snd call)
                      "An unexpected error occurred. Please try again later.")
               "a-1" _)).
  vm_compute. reflexivity.
Defined.

(** ** The reason that is used *)

Lemma find_reason_first (target : string) (pre post : list pyval)
  (d : list (string * pyval)) :
  Forall (fun reason => is_dict reason = true) pre ->
  (forall reason, In reason pre -> py_get reason "name" VNone <> Ok (VStr target)) ->
  dict_lookup "name" d = Some (VStr target) ->
  find_reason target (pre ++ VDict d :: post) = Ok (getattr (dict_lookup "id" d) VNone).
Proof.
  intros Hdicts Hno Hname. induction Hdicts as [|reason pre Hd _ IH]; cbn [app find_reason].
  - cbn [py_get]. rewrite Hname. cbn [res_bind py_eq]. rewrite String.eqb_refl. reflexivity.
  - assert (Hhere := Hno reason (or_introl eq_refl)).
    destruct reason as [| | | | | e]; try discriminate.
    cbn [py_get res_bind] in Hhere |- *.
    destruct (py_eq _ (VStr target)) eqn:Heq.
    + apply py_eq_str in Heq. congruence.
    + apply IH. intros x Hx. apply Hno. right. exact Hx.
Qed.

Section ReasonUsed.

Variable H : Host.
Variables c c1 : Ctx H.
Variable body : pyval.
Variable r : Response.
Variables pre post : list pyval.
Variable d : list (string * pyval).

Hypothesis Hitems : py_get body "items" (VList []) = Ok (VList (pre ++ VDict d :: post)).
Hypothesis Hdicts : Forall (fun reason => is_dict reason = true) pre.

(** X13.  [cancel_appointment] uses the first entry named "Appointment No
    Longer Needed" and looks no further.  If that entry has no usable id
    the tool fails with the "could not be found" message, whatever follows
    in the list, and sends nothing.  Otherwise it POSTs that id as
    [cancelReasonId] to [appointments/<id>/cancel]; a failure envelope of
    that call is passed on, a success gives the confirmation message. *)
Theorem cancel_uses_first_match (appointment_id : string) :
  make_api_request H "GET" "master/list-items" (reasons_params "as_cancel_reason") VNone c
  = (Ok (envelope_success body r), c1) ->
  (forall reason, In reason pre ->
                  py_get reason "name" VNone <> Ok (VStr "Appointment No Longer Needed")) ->
  dict_lookup "name" d = Some (VStr "Appointment No Longer Needed") ->
  let reason_id := getattr (dict_lookup "id" d) VNone in
  (truthy reason_id = false ->
   cancel_appointment H appointment_id c = (Ok no_cancel_reason, c1))
  /\ (truthy reason_id = true ->
      forall response c2,
        make_api_request H "POST" ("appointments/" ++ appointment_id ++ "/cancel") VNone
          (cancel_payload reason_id) c1
        = (Ok response, c2) ->
        dispatcher_envelope response ->
        cancel_appointment H appointment_id c
        = (Ok (match success_flag response with
               | Some true => canceled appointment_id
               | _ => response
               end), c2)).
Proof.
  intros Hcall Hno Hname reason_id.
  pose proof (find_reason_first "Appointment No Longer Needed" pre post d Hdicts Hno Hname)
    as Hfind.
  fold reason_id in Hfind.
  split.
  - intros Hfalsy. unfold cancel_appointment, guarded, try_except.
    unfold bind at 1. rewrite Hcall. run_tool. rewrite Hitems. cbn [py_iter].
    rewrite Hfind, Hfalsy. reflexivity.
  - intros Htruthy response c2 Hpost Hshape.
    unfold cancel_appointment, guarded, try_except.
    unfold bind at 1. rewrite Hcall. run_tool. rewrite Hitems. cbn [py_iter].
    rewrite Hfind, Htruthy. cbn [negb].
    fold (cancel_payload reason_id). rewrite Hpost.
    destruct Hshape as [[msg ->] | [b [r' ->]]]; reflexivity.
Qed.

(** X14.  [reschedule_appointment] uses the first entry named "Patient
    Request" in the same way: with a usable id it POSTs the new slot with
    that id as [rescheduleReasonId] to [appointments/<id>/reschedule]; a
    failure envelope of that call is passed on, and after a success the new
    id is the final segment of the location header, or the "could not
    confirm" success when the header is missing or empty. *)
Theorem reschedule_uses_first_match
  (appointment_id event_id location_id resource_id appointment_date : string)
  (duration_minutes : Z) :
  make_api_request H "GET" "master/list-items" (reasons_params "as_resched_reason") VNone c
  = (Ok (envelope_success body r), c1) ->
  (forall reason, In reason pre -> py_get reason "name" VNone <> Ok (VStr "Patient Request")) ->
  dict_lookup "name" d = Some (VStr "Patient Request") ->
  let reason_id := getattr (dict_lookup "id" d) VNone in
  let run := reschedule_appointment H appointment_id event_id location_id resource_id
               appointment_date duration_minutes c in
  (truthy reason_id = false -> run = (Ok no_reschedule_reason, c1))
  /\ (truthy reason_id = true ->
      forall c2,
        (forall msg,
            make_api_request H "POST" ("appointments/" ++ appointment_id ++ "/reschedule")
              VNone
              (reschedule_payload event_id location_id resource_id appointment_date
                 duration_minutes reason_id) c1
            = (Ok (envelope_failure msg), c2) ->
            run = (Ok (envelope_failure msg), c2))
        /\ (forall body' r',
              make_api_request H "POST" ("appointments/" ++ appointment_id ++ "/reschedule")
                VNone
                (reschedule_payload event_id location_id resource_id appointment_date
                   duration_minutes reason_id) c1
              = (Ok (envelope_success body' r'), c2) ->
              run = (Ok (rescheduling_result (location_header r')), c2))).
Proof.
  intros Hcall Hno Hname reason_id run.
  pose proof (find_reason_first "Patient Request" pre post d Hdicts Hno Hname) as Hfind.
  fold reason_id in Hfind.
  split; [| intros Htruthy c2; split].
  - intros Hfalsy. subst run. unfold reschedule_appointment, try_with_headers.
    unfold bind at 1. unfold try_except at 1. unfold bind at 1. rewrite Hcall.
    run_tool. rewrite Hitems. cbn [py_iter]. rewrite Hfind, Hfalsy. reflexivity.
  - intros msg Hpost. subst run. unfold reschedule_appointment, try_with_headers.
    unfold bind at 1. unfold try_except at 1. unfold bind at 1. rewrite Hcall.
    run_tool. rewrite Hitems. cbn [py_iter]. rewrite Hfind, Htruthy. cbn [negb].
    fold (reschedule_payload event_id location_id resource_id appointment_date
            duration_minutes reason_id).
    rewrite Hpost. reflexivity.
  - intros body' r' Hpost. subst run. unfold reschedule_appointment, try_with_headers.
    unfold bind at 1. unfold try_except at 1. unfold bind at 1. rewrite Hcall.
    run_tool. rewrite Hitems. cbn [py_iter]. rewrite Hfind, Htruthy. cbn [negb].
    fold (reschedule_payload event_id location_id resource_id appointment_date
            duration_minutes reason_id).
    rewrite Hpost. run_tool. unfold try_except. rewrite location_of_headers.
    destruct (location_header_cases r') as [-> | [h ->]]; [reflexivity |].
    destruct h; reflexivity.
Qed.

End ReasonUsed.

Lemma cancel_uses_first_match_witness :
  fst (cancel_appointment scripted "a-1" (warm [json_reply 200 "{...}" reasons_first_without_id]))
  = Ok no_cancel_reason.
Proof.
  set (c := warm [json_reply 200 "{...}" reasons_first_without_id]).
  set (call := make_api_request scripted "GET" "master/list-items"
                 (reasons_params "as_cancel_reason") VNone c).
  refine (f_equal fst
            (proj1 (cancel_uses_first_match scripted c (snd call) reasons_first_without_id
                      (mkResponse 200 [("Content-Type", "application/json")] "{...}"
                         (Some reasons_first_without_id))
                      [VDict [("id", VStr "r0"); ("name", VStr "Other")]]
                      [VDict [("id", VStr "r9"); ("name", VStr "Appointment No Longer Needed")]]
                      [("name", VStr "Appointment No Longer Needed")]
                      eq_refl _ "a-1" _ _ eq_refl) eq_refl)).
  - repeat constructor.
  - vm_compute. reflexivity.
  - intros reason [<- | []]. discriminate.
Defined.

Lemma reschedule_uses_first_match_witness :
  fst (reschedule_appointment scripted "a-1" "e-1" "loc-1" "r-1" "2025-01-02T09:00:00" 30
         (warm [json_reply 200 "{...}" reschedule_reasons; Replied booked_at_a77]))
  = Ok (rescheduled (VStr "a77")).
Proof.
  set (c := warm [json_reply 200 "{...}" reschedule_reasons; Replied booked_at_a77]).
  set (c1 := snd (make_api_request scripted "GET" "master/list-items"
                    (reasons_params "as_resched_reason") VNone c)).
  set (c2 := snd (make_api_request scripted "POST" "appointments/a-1/reschedule" VNone
                    (reschedule_payload "e-1" "loc-1" "r-1" "2025-01-02T09:00:00" 30
                       (VStr "r5")) c1)).
  refine (f_equal fst
            (proj2 (proj2 (reschedule_uses_first_match scripted c c1 reschedule_reasons
                             (mkResponse 200 [("Content-Type", "application/json")] "{...}"
                                (Some reschedule_reasons))
                             [VDict [("id", VStr "r0"); ("name", VStr "Other")]] []
                             [("id", VStr "r5"); ("name", VStr "Patient Request")]
                             eq_refl _ "a-1" "e-1" "loc-1" "r-1" "2025-01-02T09:00:00" 30
                             _ _ eq_refl) eq_refl c2)
               (VDict []) booked_at_a77 _)).
  - repeat constructor.
  - vm_compute. reflexivity.
  - intros reason [<- | []]. discriminate.
  - vm_compute. reflexivity.
Defined.

(** ** Listings of categories and events *)

Lemma project_items_entries (id_field : string) (items : list pyval) (entry : pyval) :
  In entry (project_items id_field items)
  <-> exists item i n,
        In item items /\ py_item item "id" = Ok i /\ py_item item "name" = Ok n
        /\ entry = VDict [(id_field, i); ("name", n)].
Proof.
  induction items as [|item items IH]; cbn [project_items].
  - split; [intros [] | intros [item [i [n [[] _]]]]].
  - destruct (py_item item "id") as [i | e1] eqn:Hi;
      [destruct (py_item item "name") as [n | e2] eqn:Hn |].
    + cbn [In]. rewrite IH. split.
      * intros [<- | [x [i' [n' [Hx Hrest]]]]].
        -- exists item, i, n. repeat split; auto.
        -- exists x, i', n'. split; [right; exact Hx | exact Hrest].
      * intros [x [i' [n' [[<- | Hx] [Hi' [Hn' ->]]]]]].
        -- left. congruence.
        -- right. exists x, i', n'. auto.
    + rewrite IH. split.
      * intros [x [i' [n' [Hx Hrest]]]]. exists x, i', n'. split; [right; exact Hx | exact Hrest].
      * intros [x [i' [n' [[<- | Hx] [Hi' [Hn' ->]]]]]]; [congruence |].
        exists x, i', n'. auto.
    + rewrite IH. split.
      * intros [x [i' [n' [Hx Hrest]]]]. exists x, i', n'. split; [right; exact Hx | exact Hrest].
      * intros [x [i' [n' [[<- | Hx] [Hi' [Hn' ->]]]]]]; [congruence |].
        exists x, i', n'. auto.
Qed.

Lemma project_items_length (id_field : string) (items : list pyval) :
  (List.length (project_items id_field items) <= List.length items)%nat.
Proof.
  induction items as [|item items IH]; cbn [project_items List.length]; [lia |].
  destruct (py_item item "id"); [destruct (py_item item "name") |]; cbn [List.length]; lia.
Qed.

Section Listings.

Variable H : Host.
Variables c c1 : Ctx H.
Variable body : pyval.
Variable r : Response.
Variable items : list pyval.

Hypothesis Hitems : py_get body "items" (VList []) = Ok (VList items).

(** X15.  The listings of categories and events skip what they cannot
    project and never fail on it.  After a successful call whose [items] is
    a list, the tool returns success, and its entries are exactly the
    [{categoryId | eventId, name}] pairs of the items that have both [id]
    and [name]; an item without one of them, or one that is no object,
    leaves no entry. *)
Theorem listings_skip_malformed_items :
  (make_api_request H "GET" "master/appointments/categories" VNone VNone c
   = (Ok (envelope_success body r), c1) ->
   exists categories,
     get_appointment_categories H c = (Ok (listed "categories" categories), c1)
     /\ (List.length categories <= List.length items)%nat
     /\ forall entry,
          In entry categories
          <-> exists item i n,
                In item items /\ py_item item "id" = Ok i /\ py_item item "name" = Ok n
                /\ entry = VDict [("categoryId", i); ("name", n)])
  /\ (forall category_id,
        make_api_request H "GET"
          ("master/appointments/categories/" ++ category_id ++ "/events") VNone VNone c
        = (Ok (envelope_success body r), c1) ->
        exists events,
          get_category_events H category_id c = (Ok (listed "events" events), c1)
          /\ (List.length events <= List.length items)%nat
          /\ forall entry,
               In entry events
               <-> exists item i n,
                     In item items /\ py_item item "id" = Ok i /\ py_item item "name" = Ok n
                     /\ entry = VDict [("eventId", i); ("name", n)]).
Proof.
  split.
  - intros Hcall. exists (project_items "categoryId" items). split; [| split].
    + unfold get_appointment_categories, list_projection, guarded, try_except.
      unfold bind at 1. rewrite Hcall. run_tool. rewrite Hitems. reflexivity.
    + apply project_items_length.
    + apply project_items_entries.
  - intros category_id Hcall. exists (project_items "eventId" items). split; [| split].
    + unfold get_category_events, list_projection, guarded, try_except.
      unfold bind at 1. rewrite Hcall. run_tool. rewrite Hitems. reflexivity.
    + apply project_items_length.
    + apply project_items_entries.
Qed.

End Listings.

Lemma listings_skip_malformed_items_witness :
  get_appointment_categories scripted (warm [json_reply 200 "{...}" mixed_categories])
  = (Ok (listed "categories"
           [ VDict [("categoryId", VStr "c1"); ("name", VStr "New Patient")];
             VDict [("categoryId", VStr "c4"); ("name", VStr "Follow-Up")] ]),
     snd (make_api_request scripted "GET" "master/appointments/categories" VNone VNone
            (warm [json_reply 200 "{...}" mixed_categories]))).
Proof.
  set (c := warm [json_reply 200 "{...}" mixed_categories]).
  set (call := make_api_request scripted "GET" "master/appointments/categories" VNone VNone c).
  destruct (proj1 (listings_skip_malformed_items scripted c (snd call) mixed_categories
                     (mkResponse 200 [("Content-Type", "application/json")] "{...}"
                        (Some mixed_categories))
                     _ eq_refl))
    as [categories [Hrun _]].
  - vm_compute. reflexivity.
  - rewrite Hrun.
    assert (Hgo : get_appointment_categories scripted c
                  = (Ok (listed "categories"
                           [ VDict [("categoryId", VStr "c1"); ("name", VStr "New Patient")];
                             VDict [("categoryId", VStr "c4"); ("name", VStr "Follow-Up")] ]),
                     snd call))
      by (vm_compute; reflexivity).
    rewrite Hrun in Hgo. exact Hgo.
Defined.

(** ** Slot search: what aborts it *)

Lemma filter_slots_aborts (pre post : list pyval) (v : pyval) :
  Forall (fun s => is_dict s = true) pre ->
  is_dict v = false ->
  filter_slots (pre ++ v :: post) = Raise (no_attribute v "get").
Proof.
  intros Hpre Hv. induction Hpre as [|slot pre Hd _ IH]; cbn [app filter_slots].
  - destruct v; try discriminate; reflexivity.
  - destruct slot as [| | | | | d]; try discriminate.
    destruct (slot_available (VDict d)) as [keep | e] eqn:Hs.
    + rewrite IH. reflexivity.
    + rewrite slot_available_dict in Hs.
      rewrite (py_gt_raises_type_error _ _ _ Hs). exact IH.
Qed.

Section SlotSearch.

Variable H : Host.
Variables category_id start_date : string.

(** X16.  Unlike the listings, the slot search does not skip an item that
    is no object: one such item among the slots discards them all, and the
    tool answers with the internal-error envelope. *)
Theorem non_object_slot_aborts_search (c c1 : Ctx H) (body : pyval) (r : Response)
  (pre post : list pyval) (v : pyval) :
  truthy (configured_location H c) = true ->
  make_api_request H "GET" "appointments/slots"
    (slots_params category_id start_date (configured_location H c)) VNone c
  = (Ok (envelope_success body r), c1) ->
  py_get body "items" (VList []) = Ok (VList (pre ++ v :: post)) ->
  Forall (fun s => is_dict s = true) pre ->
  is_dict v = false ->
  get_available_slots H category_id start_date c
  = (Ok (internal_error (no_attribute v "get")), c1).
Proof.
  intros Hloc Hcall Hitems Hpre Hv.
  unfold get_available_slots, guarded, try_except, get_api_credentials.
  unfold bind at 1. fold (configured_location H c). rewrite Hloc. cbn [negb].
  unfold bind at 1. rewrite Hcall. run_tool.
  rewrite Hitems. cbn [py_len py_iter]. rewrite (filter_slots_aborts pre post v Hpre Hv).
  reflexivity.
Qed.

(** X17.  Without a location (no header, or an empty one, and no default
    in the environment) the slot search answers with its own failure
    message and sends nothing: the context is unchanged. *)
Theorem no_location_no_search (c : Ctx H) :
  truthy (configured_location H c) = false ->
  get_available_slots H category_id start_date c = (Ok no_location, c).
Proof.
  intros Hloc.
  unfold get_available_slots, guarded, try_except, get_api_credentials.
  unfold bind at 1. fold (configured_location H c). rewrite Hloc. reflexivity.
Qed.

End SlotSearch.

Lemma non_object_slot_aborts_search_witness :
  fst (get_available_slots scripted "cat-1" "2025-01-01"
         (warm [json_reply 200 "{...}" slots_with_text]))
  = Ok (envelope_failure
          "An internal server error occurred: 'str' object has no attribute 'get'").
Proof.
  set (c := warm [json_reply 200 "{...}" slots_with_text]).
  set (call := make_api_request scripted "GET" "appointments/slots"
                 (slots_params "cat-1" "2025-01-01" (configured_location scripted c)) VNone c).
  refine (f_equal fst
            (non_object_slot_aborts_search scripted "cat-1" "2025-01-01" c (snd call)
               slots_with_text
               (mkResponse 200 [("Content-Type", "application/json")] "{...}"
                  (Some slots_with_text))
               [slot_free] [slot_without_appointments] (VStr "n/a")
               eq_refl _ eq_refl _ eq_refl)).
  - vm_compute. reflexivity.
  - repeat constructor.
Defined.

Lemma no_location_no_search_witness :
  get_available_slots bare "cat-1" "2025-01-01" (bare_ctx [slots_reply])
  = (Ok no_location, bare_ctx [slots_reply]).
Proof.
  apply (no_location_no_search bare "cat-1" "2025-01-01" (bare_ctx [slots_reply])).
  reflexivity.
Defined.

(** ** Appointment details *)

Section Details.

Variable H : Host.

(** X18.  A summary entry without a usable [appointmentId] is not fetched:
    the result is [None] and the context is unchanged.  With an id the
    detail call goes to [appointments/<id>]; its failure envelope becomes
    [None] (the failure is not passed on), its success gives the body. *)
Theorem detail_fetch (fields : list (string * pyval)) (c : Ctx H) :
  let appt_id := getattr (dict_lookup "appointmentId" fields) VNone in
  (truthy appt_id = false ->
   get_appointment_details H (VDict fields) c = (Ok VNone, c))
  /\ (truthy appt_id = true ->
      forall c1,
        (forall msg,
            make_api_request H "GET" ("appointments/" ++ py_str appt_id) VNone VNone c
            = (Ok (envelope_failure msg), c1) ->
            get_appointment_details H (VDict fields) c = (Ok VNone, c1))
        /\ (forall body r,
              make_api_request H "GET" ("appointments/" ++ py_str appt_id) VNone VNone c
              = (Ok (envelope_success body r), c1) ->
              get_appointment_details H (VDict fields) c = (Ok body, c1))).
Proof.
  intros appt_id. subst appt_id. unfold getattr.
  split; [| intros Htruthy c1; split].
  - intros Hfalsy. unfold get_appointment_details, bind, lift. cbn [py_get].
    rewrite Hfalsy. reflexivity.
  - intros msg Hcall. unfold get_appointment_details. unfold bind at 1. unfold lift.
    cbn [py_get]. rewrite Htruthy. cbn [negb].
    unfold try_except. unfold bind at 1. rewrite Hcall. reflexivity.
  - intros body r Hcall. unfold get_appointment_details. unfold bind at 1. unfold lift.
    cbn [py_get]. rewrite Htruthy. cbn [negb].
    unfold try_except. unfold bind at 1. rewrite Hcall. reflexivity.
Qed.

End Details.

Lemma detail_fetch_witness :
  get_appointment_details scripted (VDict [("categoryIds", VList [])]) (warm [server_error])
  = (Ok VNone, warm [server_error])
  /\ fst (get_appointment_details scripted (VDict [("appointmentId", VInt 7)])
            (warm [server_error]))
     = Ok VNone.
Proof.
  split.
  - apply (proj1 (detail_fetch scripted [("categoryIds", VList [])] (warm [server_error]))).
    reflexivity.
  - set (c := warm [server_error]).
    set (call := make_api_request scripted "GET" "appointments/7" VNone VNone c).
    refine (f_equal fst
              (proj1 (proj2 (detail_fetch scripted [("appointmentId", VInt 7)] c) eq_refl
                        (snd call))
                 "API Error: 500 - boom" _)).
    vm_compute. reflexivity.
Defined.

(** ** The date of a formatted appointment *)

Lemma str_take_app (a b : string) : str_take (String.length a) (a ++ b) = a.
Proof. induction a as [|x a IH]; cbn; [destruct b; reflexivity | rewrite IH; reflexivity]. Qed.

Lemma str_drop_app (a b : string) : str_drop (String.length a) (a ++ b) = b.
Proof. induction a as [|x a IH]; cbn; [destruct b; reflexivity | exact IH]. Qed.

Lemma split_first_app (c : ascii) (p s : string) :
  mentions c p = false -> hd EmptyString (split_on c (p ++ String c s)) = p.
Proof.
  intros Hp. rewrite split_on_app, (split_on_without c p Hp). reflexivity.
Qed.

(** X19.  The full date of a formatted appointment is the part of
    [appointmentDate] before its first "T", then "T", then [beginTime]
    split after two characters as [HH:MM:00]; the time is not validated.
    It is "N/A" when [appointmentDate] is missing, or when [beginTime] is
    missing next to a string [appointmentDate]. *)
Theorem full_appointment_date (m : pymap) (d : list (string * pyval)) :
  hashable (getattr (dict_lookup "id" d) VNone) = true ->
  (forall date rest hh mm,
      dict_lookup "appointmentDate" d = Some (VStr (date ++ String "T" rest)) ->
      mentions "T" date = false ->
      date <> "" ->
      dict_lookup "beginTime" d = Some (VStr (hh ++ mm)) ->
      String.length hh = 2%nat ->
      exists f,
        format_appointment m (VDict d) = Ok f
        /\ py_get f "fullAppointmentDate" VNone
           = Ok (VStr (date ++ "T" ++ hh ++ ":" ++ mm ++ ":00")))
  /\ (dict_lookup "appointmentDate" d = None
      \/ (is_str (getattr (dict_lookup "appointmentDate" d) (VStr "")) = true
          /\ dict_lookup "beginTime" d = None) ->
      exists f,
        format_appointment m (VDict d) = Ok f
        /\ py_get f "fullAppointmentDate" VNone = Ok (VStr "N/A")).
Proof.
  intros Hid. split.
  - intros date rest hh mm Hdate Hnot Hne Hbegin Hlen.
    unfold format_appointment, pymap_get. rewrite Hid, Hdate, Hbegin.
    cbn [res_bind getattr py_split_first].
    rewrite (split_first_app "T" date rest Hnot).
    rewrite (truthy_str date Hne).
    assert (Hb : truthy (VStr (hh ++ mm)) = true).
    { destruct hh; [discriminate | reflexivity]. }
    rewrite Hb. cbn [andb py_slice_to py_slice_from res_bind py_str].
    replace 2%nat with (String.length hh) by exact Hlen.
    rewrite str_take_app, str_drop_app.
    eexists. split; reflexivity.
  - intros [Hmissing | [Hstr Hmissing]];
      unfold format_appointment, pymap_get; rewrite Hid, Hmissing;
      cbn [res_bind getattr py_split_first split_on hd truthy String.eqb negb andb].
    + eexists. split; reflexivity.
    + destruct (getattr (dict_lookup "appointmentDate" d) (VStr "")) as [| | | date | |];
        try discriminate.
      cbn [py_split_first res_bind truthy String.eqb negb]. rewrite andb_false_r.
      cbn [res_bind]. eexists. split; reflexivity.
Qed.

Lemma full_appointment_date_witness :
  exists f,
    format_appointment [] (VDict detail_0930) = Ok f
    /\ py_get f "fullAppointmentDate" VNone = Ok (VStr "2025-03-04T09:30:00").
Proof.
  apply (proj1 (full_appointment_date [] detail_0930 eq_refl)
           "2025-03-04" "00:00:00" "09" "30"); try reflexivity.
  discriminate.
Defined.

(** ** The category ids of a formatted appointment *)

Lemma py_eq_hash_key (a b : pyval) :
  hashable a = true -> hashable b = true ->
  (py_eq a b = true <-> hash_key a = hash_key b).
Proof.
  destruct a as [| x | x | x | |], b as [| y | y | y | |]; intros Ha Hb;
    try discriminate; cbn [py_eq as_number hash_key];
    try (split; [discriminate | discriminate]);
    try (split; reflexivity).
  - rewrite Z.eqb_eq. split; congruence.
  - rewrite Z.eqb_eq. split; congruence.
  - rewrite Z.eqb_eq. split; congruence.
  - rewrite Z.eqb_eq. split; congruence.
  - rewrite String.eqb_eq. split; congruence.
Qed.

Lemma py_eq_swap (a b c : pyval) :
  hashable a = true -> hashable b = true -> hashable c = true ->
  py_eq a b = true -> py_eq a c = py_eq b c.
Proof.
  intros Ha Hb Hc Hab. apply (py_eq_hash_key a b Ha Hb) in Hab.
  destruct (py_eq a c) eqn:Hac, (py_eq b c) eqn:Hbc; try reflexivity.
  - apply (py_eq_hash_key a c Ha Hc) in Hac.
    assert (Hk : hash_key b = hash_key c) by congruence.
    apply (py_eq_hash_key b c Hb Hc) in Hk. congruence.
  - apply (py_eq_hash_key b c Hb Hc) in Hbc.
    assert (Hk : hash_key a = hash_key c) by congruence.
    apply (py_eq_hash_key a c Ha Hc) in Hk. congruence.
Qed.

Lemma py_eq_apart (a b c : pyval) :
  hashable a = true -> hashable b = true -> hashable c = true ->
  py_eq a b = false -> py_eq a c = true -> py_eq b c = false.
Proof.
  intros Ha Hb Hc Hab Hac. destruct (py_eq b c) eqn:Hbc; [| reflexivity].
  apply (py_eq_hash_key a c Ha Hc) in Hac. apply (py_eq_hash_key b c Hb Hc) in Hbc.
  assert (Hk : hash_key a = hash_key b) by congruence.
  apply (py_eq_hash_key a b Ha Hb) in Hk. congruence.
Qed.

Lemma pymap_find_put (k k' v : pyval) (m : pymap) :
  hashable k = true -> hashable k' = true ->
  Forall (fun kv => hashable (fst kv) = true) m ->
  pymap_find k (pymap_put k' v m) = if py_eq k' k then Some v else pymap_find k m.
Proof.
  intros Hk Hk' Hm. induction Hm as [|[k0 v0] m Hk0 _ IH]; cbn [pymap_put pymap_find].
  - reflexivity.
  - cbn [fst] in Hk0. destruct (py_eq k0 k') eqn:H0.
    + cbn [pymap_find]. rewrite (py_eq_swap k0 k' k Hk0 Hk' Hk H0).
      destruct (py_eq k' k); reflexivity.
    + cbn [pymap_find]. rewrite IH.
      destruct (py_eq k0 k) eqn:H0k.
      * rewrite (py_eq_apart k0 k' k Hk0 Hk' Hk H0 H0k). reflexivity.
      * reflexivity.
Qed.

Lemma pymap_put_keys (k v : pyval) (m : pymap) :
  hashable k = true ->
  Forall (fun kv => hashable (fst kv) = true) m ->
  Forall (fun kv => hashable (fst kv) = true) (pymap_put k v m).
Proof.
  intros Hk Hm. induction Hm as [|[k0 v0] m Hk0 Hm IH]; cbn [pymap_put].
  - constructor; [exact Hk | constructor].
  - destruct (py_eq k0 k); constructor; auto.
Qed.

Lemma category_map_lookup (k : pyval) (summary : list pyval) :
  hashable k = true ->
  forall acc m,
    Forall (fun kv => hashable (fst kv) = true) acc ->
    category_map summary acc = Ok m ->
    pymap_find k m = last_categories k summary (pymap_find k acc).
Proof.
  intros Hk. induction summary as [|appt summary IH]; intros acc m Hacc.
  - intros [= <-]. reflexivity.
  - destruct appt as [| | | | | e]; try discriminate.
    cbn [category_map py_get res_bind last_categories]. unfold pymap_set.
    replace (match dict_lookup "appointmentId" e with Some x => x | None => VNone end)
      with (getattr (dict_lookup "appointmentId" e) VNone) by reflexivity.
    replace (match dict_lookup "categoryIds" e with Some x => x | None => VNone end)
      with (getattr (dict_lookup "categoryIds" e) VNone) by reflexivity.
    destruct (hashable (getattr (dict_lookup "appointmentId" e) VNone)) eqn:He;
      [| discriminate].
    cbn [res_bind]. intros Hrest.
    rewrite (IH _ m (pymap_put_keys _ _ acc He Hacc) Hrest).
    rewrite (pymap_find_put k _ _ acc Hk He Hacc). reflexivity.
Qed.

(** X20.  The categories are joined back by id.  With the map built from
    the summary, a formatted appointment carries as [categoryIds] those of
    the last summary entry whose [appointmentId] equals the [id] of the
    detail record, and [None] when no summary entry has that id. *)
Theorem categories_joined_by_id (summary : list pyval) (m : pymap)
  (d : list (string * pyval)) (f : pyval) :
  category_map summary [] = Ok m ->
  format_appointment m (VDict d) = Ok f ->
  py_get f "categoryIds" VNone
  = Ok (getattr (last_categories (getattr (dict_lookup "id" d) VNone) summary None) VNone).
Proof.
  intros Hmap. unfold format_appointment, pymap_get.
  destruct (hashable (getattr (dict_lookup "id" d) VNone)) eqn:Hid; [| discriminate].
  cbn [res_bind].
  rewrite (category_map_lookup _ summary Hid [] m (Forall_nil _) Hmap). cbn [pymap_find].
  destruct (py_split_first _ _) as [date_part |]; [| discriminate]. cbn [res_bind].
  destruct (truthy date_part && truthy _).
  - destruct (py_slice_to _ _) as [hh |]; [| discriminate]. cbn [res_bind].
    destruct (py_slice_from _ _) as [mm |]; [| discriminate]. cbn [res_bind].
    intros [= <-]. reflexivity.
  - cbn [res_bind]. intros [= <-]. reflexivity.
Qed.

Lemma categories_joined_by_id_witness :
  exists m f,
    category_map summary_with_repeat [] = Ok m
    /\ format_appointment m (VDict [("id", VStr "a1")]) = Ok f
    /\ py_get f "categoryIds" VNone = Ok (VList [VStr "c9"]).
Proof.
  eexists. eexists. split; [reflexivity |]. split; [reflexivity |].
  exact (categories_joined_by_id summary_with_repeat _ [("id", VStr "a1")] _
           eq_refl eq_refl).
Defined.

Lemma token_failure_keeps_session_witness :
  fst (get_access_token scripted [] (stale [Failed "timed out"])) = Ok VNone
  /\ session (snd (get_access_token scripted [] (stale [Failed "timed out"]))) = stale_session.
Proof.
  exact (token_failure_keeps_session scripted [] (stale [Failed "timed out"])
           (Failed "timed out") (mkScript [] 1000) eq_refl eq_refl I).
Defined.
